(** * The K12 verification client (k12_cli.py): model and properties

    The development follows the three parts of [k12_cli.py]:
    [search_schools] (the organization lookup), [display_schools_cli] (the
    choice of one candidate), [submit_sheerid] (the submission protocol) and
    the identifier extraction at the head of [main_flow].

    Python values are modelled as the interpreter has them: a [str] is a
    sequence of Unicode code points, a parsed JSON document is a tree of
    [None], [bool], [int], [str], [list] and [dict] values, an exception is
    a value that a [try] block may catch.  JSON numbers with a fraction are
    outside the model. *)

From Stdlib Require Import List ZArith NArith String Ascii Bool Lia DecimalString.
From Stdlib Require Import DecimalPos DecimalZ.
Import ListNotations.

Open Scope Z_scope.

(** ** Strings *)

Definition codepoint := N.
Definition pystr := list codepoint.

(** The [str] with the characters of an ASCII literal. *)
Definition u (s : string) : pystr := map N_of_ascii (list_ascii_of_string s).

(** [str(n)] for an [int]. *)
Definition str_int (z : Z) : pystr := u (NilZero.string_of_int (Z.to_int z)).

Definition pystr_eqb (a b : pystr) : bool :=
  if list_eq_dec N.eq_dec a b then true else false.

(** ** JSON values as [json.loads] gives them *)

#[warnings="-register-all"]
Inductive json : Type :=
| JNull
| JBool (b : bool)
| JInt (n : Z)
| JStr (s : pystr)
| JArr (items : list json)
| JObj (fields : list (pystr * json)).

(** A [dict] is kept as its list of bindings; the first binding of a key is
    the one the dictionary holds. *)
Fixpoint lookup (k : pystr) (fields : list (pystr * json)) : option json :=
  match fields with
  | [] => None
  | (k', v) :: rest => if pystr_eqb k k' then Some v else lookup k rest
  end.

Fixpoint distinct_keys (seen : list pystr) (fields : list (pystr * json)) : nat :=
  match fields with
  | [] => O
  | (k, _) :: rest =>
      if existsb (pystr_eqb k) seen then distinct_keys seen rest
      else S (distinct_keys (k :: seen) rest)
  end.

(** ** Exceptions *)

Inductive exn : Type :=
| TimeoutException (description : pystr)
| TransportError (description : pystr)
| JSONDecodeError
| KeyError (key : json)
| IndexError (container : json)
| TypeError (operation : pystr) (operand : json)
| ValueError (literal : pystr)
| AttributeError (operand : json) (attribute : pystr)
| OverflowError
| EOFError.

Inductive outcome (A : Type) : Type :=
| Ok (a : A)
| Exn (e : exn).
Arguments Ok {A} a.
Arguments Exn {A} e.

(** What the interpreter knows and the program does not spell out: the
    Unicode character tables behind [str.strip], [str.isdigit] and [int],
    the largest number of digits [int] converts (0 for no limit), and the
    text [str(e)] of an exception. *)
Record runtime : Type := {
  unicode_isspace : codepoint -> bool;
  unicode_isdigit : codepoint -> bool;
  unicode_decimal : codepoint -> option Z;
  int_max_str_digits : nat;
  exn_str : exn -> pystr
}.

(** ** Python primitives on JSON values *)

(** [bool(v)]. *)
Definition truthy (v : json) : bool :=
  match v with
  | JNull => false
  | JBool b => b
  | JInt n => negb (n =? 0)
  | JStr s => match s with [] => false | _ => true end
  | JArr items => match items with [] => false | _ => true end
  | JObj fields => match fields with [] => false | _ => true end
  end.

(** The key a value has in a [set]: [True] and [1] are one key, a [list] or
    a [dict] has none. *)
Inductive hkey : Type :=
| HNone
| HNum (n : Z)
| HStr (s : pystr).

Definition hash_key (v : json) : option hkey :=
  match v with
  | JNull => Some HNone
  | JBool b => Some (HNum (if b then 1 else 0))
  | JInt n => Some (HNum n)
  | JStr s => Some (HStr s)
  | JArr _ => None
  | JObj _ => None
  end.

Definition hkey_eqb (a b : hkey) : bool :=
  match a, b with
  | HNone, HNone => true
  | HNum n, HNum m => n =? m
  | HStr s, HStr t => pystr_eqb s t
  | _, _ => false
  end.

(** [d.get(k, default)]. *)
Definition dict_get (d : json) (k : pystr) (default : json) : outcome json :=
  match d with
  | JObj fields =>
      match lookup k fields with
      | Some v => Ok v
      | None => Ok default
      end
  | _ => Exn (AttributeError d (u "get"))
  end.

(** The position a subscript names in a sequence: an [int], or a [bool] as
    the [int] it is. *)
Definition index_of (key : json) : option Z :=
  match key with
  | JInt i => Some i
  | JBool b => Some (if b then 1 else 0)
  | _ => None
  end.

(** [v[key]]. *)
Definition getitem (v key : json) : outcome json :=
  match v with
  | JObj fields =>
      match key with
      | JStr k =>
          match lookup k fields with
          | Some x => Ok x
          | None => Exn (KeyError key)
          end
      | JArr _ | JObj _ => Exn (TypeError (u "hash") key)
      | _ => Exn (KeyError key)
      end
  | JArr items =>
      match index_of key with
      | Some i =>
          let n := Z.of_nat (List.length items) in
          let j := if i <? 0 then i + n else i in
          if (0 <=? j) && (j <? n)
          then match nth_error items (Z.to_nat j) with
               | Some x => Ok x
               | None => Exn (IndexError v)
               end
          else Exn (IndexError v)
      | None => Exn (TypeError (u "list index") key)
      end
  | JStr s =>
      match index_of key with
      | Some i =>
          let n := Z.of_nat (List.length s) in
          let j := if i <? 0 then i + n else i in
          if (0 <=? j) && (j <? n)
          then match nth_error s (Z.to_nat j) with
               | Some c => Ok (JStr [c])
               | None => Exn (IndexError v)
               end
          else Exn (IndexError v)
      | None => Exn (TypeError (u "string index") key)
      end
  | _ => Exn (TypeError (u "subscript") v)
  end.

(** [len(v)]. *)
Definition py_len (v : json) : outcome nat :=
  match v with
  | JStr s => Ok (List.length s)
  | JArr items => Ok (List.length items)
  | JObj fields => Ok (distinct_keys [] fields)
  | _ => Exn (TypeError (u "len") v)
  end.

Section Text.

Variable rt : runtime.

(** [s.strip()]. *)
Fixpoint lstrip (s : pystr) : pystr :=
  match s with
  | [] => []
  | c :: rest => if unicode_isspace rt c then lstrip rest else s
  end.

Definition strip (s : pystr) : pystr := rev (lstrip (rev (lstrip s))).

(** [s.isdigit()]: at least one character, and digits only. *)
Definition isdigit (s : pystr) : bool :=
  match s with
  | [] => false
  | _ => forallb (unicode_isdigit rt) s
  end.

(** The digits of an integer literal: decimal characters, a single
    underscore allowed between two of them. *)
Fixpoint digits_value (acc : Z) (after_digit : bool) (s : pystr) : option Z :=
  match s with
  | [] => if after_digit then Some acc else None
  | c :: rest =>
      if (c =? 95)%N
      then (if after_digit then digits_value acc false rest else None)
      else match unicode_decimal rt c with
           | Some d => digits_value (10 * acc + d) true rest
           | None => None
           end
  end.

(** The value of the digits, unless they are more than the limit. *)
Definition limited_value (s : pystr) : option Z :=
  let digits := List.length (filter (fun c => negb (c =? 95)%N) s) in
  match int_max_str_digits rt with
  | O => digits_value 0 false s
  | limit => if (limit <? digits)%nat then None else digits_value 0 false s
  end.

(** The blanks [int] skips around a literal: of the characters below 127
    the six of C's [isspace], of the others those of [str.isspace]. *)
Definition int_isspace (c : codepoint) : bool :=
  (if c <? 127 then (9 <=? c) && (c <=? 13) || (c =? 32)
   else unicode_isspace rt c)%N.

Fixpoint int_lstrip (s : pystr) : pystr :=
  match s with
  | [] => []
  | c :: rest => if int_isspace c then int_lstrip rest else s
  end.

Definition int_strip (s : pystr) : pystr := rev (int_lstrip (rev (int_lstrip s))).

(** [int(s)] for a [str]: blanks around, an optional sign, digits. *)
Definition int_of_str (s : pystr) : option Z :=
  match int_strip s with
  | [] => None
  | c :: rest =>
      if (c =? 45)%N then option_map Z.opp (limited_value rest)
      else if (c =? 43)%N then limited_value rest
      else limited_value (c :: rest)
  end.

(** [int(v)]. *)
Definition py_int (v : json) : outcome Z :=
  match v with
  | JInt n => Ok n
  | JBool b => Ok (if b then 1 else 0)
  | JStr s =>
      match int_of_str s with
      | Some n => Ok n
      | None => Exn (ValueError s)
      end
  | _ => Exn (TypeError (u "int") v)
  end.

End Text.

(** ** The world outside: network, random generator, clock

    A program issues requests one after another; what it does next depends
    on the reply.  [io A] is the tree of these interactions.  Console output
    is not part of the model. *)

Inductive request : Type :=
| GET (url : pystr) (params : list (pystr * pystr))
| POST (url : pystr) (body : option json)
| DELETE (url : pystr)
| PUT (url : json) (content : list Byte.byte) (content_type : pystr).

(** A response: its status code and its body as [resp.json()] parses it,
    [None] when the body is not JSON. *)
Record response : Type := {
  status_code : Z;
  body : option json
}.

Inductive reply : Type :=
| Response (r : response)
| Raises (e : exn).

Inductive io (A : Type) : Type :=
| Ret (a : A)
| Raise (e : exn)
| Send (r : request) (k : reply -> io A)
| Rand (bound : N) (k : N -> io A)
| Now (k : Z -> io A).
Arguments Ret {A} a.
Arguments Raise {A} e.
Arguments Send {A} r k.
Arguments Rand {A} bound k.
Arguments Now {A} k.

Fixpoint bind {A B : Type} (p : io A) (f : A -> io B) : io B :=
  match p with
  | Ret a => f a
  | Raise e => Raise e
  | Send r k => Send r (fun x => bind (k x) f)
  | Rand b k => Rand b (fun x => bind (k x) f)
  | Now k => Now (fun x => bind (k x) f)
  end.

(** [try: p except Exception as e: h e]. *)
Fixpoint try_except {A : Type} (p : io A) (h : exn -> io A) : io A :=
  match p with
  | Ret a => Ret a
  | Raise e => h e
  | Send r k => Send r (fun x => try_except (k x) h)
  | Rand b k => Rand b (fun x => try_except (k x) h)
  | Now k => Now (fun x => try_except (k x) h)
  end.

Definition lift {A : Type} (o : outcome A) : io A :=
  match o with
  | Ok a => Ret a
  | Exn e => Raise e
  end.

Declare Scope io_scope.
Delimit Scope io_scope with io.
Notation "x <- p ;; q" := (bind p (fun x => q))
  (at level 61, p at next level, right associativity) : io_scope.
Notation "p ;;; q" := (bind p (fun _ => q))
  (at level 61, right associativity) : io_scope.
Open Scope io_scope.

(** The [httpx.AsyncClient] calls: the reply, or the exception raised. *)
Definition client_call (r : request) : io response :=
  Send r (fun x => match x with
                   | Response resp => Ret resp
                   | Raises e => Raise e
                   end).

Definition client_get (url : pystr) (params : list (pystr * pystr)) : io response :=
  client_call (GET url params).
Definition client_post (url : pystr) (json_body : option json) : io response :=
  client_call (POST url json_body).
Definition client_delete (url : pystr) : io response :=
  client_call (DELETE url).
Definition client_put (url : json) (content : list Byte.byte) (content_type : pystr)
  : io response :=
  client_call (PUT url content content_type).

(** [resp.json()]. *)
Definition response_json (resp : response) : io json :=
  match body resp with
  | Some v => Ret v
  | None => Raise JSONDecodeError
  end.

(** [random.randint(a, b)]: a draw among the [b - a + 1] integers from [a]. *)
Definition random_randint (a b : Z) : io Z :=
  Rand (Z.to_N (b - a + 1)) (fun r => Ret (a + Z.of_N r)).

(** [random.choice(seq)] on a non-empty [str]. *)
Definition random_choice (seq : pystr) : io codepoint :=
  Rand (N.of_nat (List.length seq)) (fun r => Ret (nth (N.to_nat r) seq 0%N)).

(** One world: the reply to the [n]-th request, the [m]-th raw draw of the
    generator, the day the clock shows (as [date.toordinal]). *)
Record world : Type := {
  net : nat -> request -> reply;
  entropy : nat -> N;
  today : Z
}.

(** [run w p calls draws]: the result of [p] in [w], the requests it sent
    in order, when [calls] requests and [draws] draws came before. *)
Fixpoint run {A : Type} (w : world) (p : io A) (calls draws : nat)
  : outcome A * list request * (nat * nat) :=
  match p with
  | Ret a => (Ok a, [], (calls, draws))
  | Raise e => (Exn e, [], (calls, draws))
  | Send r k =>
      let '(o, t, c) := run w (k (net w calls r)) (S calls) draws in
      (o, r :: t, c)
  | Rand b k => run w (k (entropy w draws mod b)%N) calls (S draws)
  | Now k => run w (k (today w)) calls draws
  end.

Definition result_of {A : Type} (x : outcome A * list request * (nat * nat)) : outcome A :=
  fst (fst x).
Definition requests_of {A : Type} (x : outcome A * list request * (nat * nat))
  : list request :=
  snd (fst x).

(** ** Configuration *)

Definition SHEERID_BASE_URL : pystr := u "https://services.sheerid.com".
Definition ORGSEARCH_URL : pystr :=
  u "https://orgsearch.sheerid.net/rest/organization/search".

(** ** search_schools *)

Definition search_request (school_type query : pystr) : request :=
  GET ORGSEARCH_URL
      [(u "country", u "US"); (u "type", school_type); (u "name", query)].

(** The body of the loop over the school types: one lookup; a status other
    than 200, a body that is no list and any exception leave [all_schools]
    as it was. *)
Definition search_one (query : pystr) (all_schools : list json) (school_type : pystr)
  : io (list json) :=
  try_except
    (resp <- client_call (search_request school_type query) ;;
     if negb (status_code resp =? 200) then Ret all_schools
     else
       data <- response_json resp ;;
       match data with
       | JArr items => Ret (all_schools ++ items)
       | _ => Ret all_schools
       end)
    (fun _ => Ret all_schools).

Fixpoint search_all (query : pystr) (school_types : list pystr) (all_schools : list json)
  : io (list json) :=
  match school_types with
  | [] => Ret all_schools
  | school_type :: rest =>
      all_schools' <- search_one query all_schools school_type ;;
      search_all query rest all_schools'
  end.

(** The loop that removes duplicates: [seen_ids] holds the keys met so far. *)
Fixpoint unique_loop (all_schools : list json) (seen_ids : list hkey)
  (unique_schools : list json) : outcome (list json) :=
  match all_schools with
  | [] => Ok unique_schools
  | school :: rest =>
      match dict_get school (u "id") JNull with
      | Exn e => Exn e
      | Ok school_id =>
          if truthy school_id then
            match hash_key school_id with
            | None => Exn (TypeError (u "hash") school_id)
            | Some key =>
                if negb (existsb (hkey_eqb key) seen_ids)
                then unique_loop rest (key :: seen_ids) (unique_schools ++ [school])
                else unique_loop rest seen_ids unique_schools
            end
          else unique_loop rest seen_ids unique_schools
      end
  end.

Definition search_schools (query : pystr) : io (list json) :=
  all_schools <- search_all query [u "K12"; u "HIGH_SCHOOL"] [] ;;
  unique_schools <- lift (unique_loop all_schools [] []) ;;
  Ret (firstn 20 unique_schools).

(** ** Dates, as the [datetime] module computes them *)

Definition DI400Y : Z := 146097.
Definition DI100Y : Z := 36524.
Definition DI4Y : Z := 1461.

Definition is_leap (year : Z) : bool :=
  (year mod 4 =? 0) && (negb (year mod 100 =? 0) || (year mod 400 =? 0)).

Definition DAYS_IN_MONTH : list Z := [-1; 31; 28; 31; 30; 31; 30; 31; 31; 30; 31; 30; 31].
Definition DAYS_BEFORE_MONTH : list Z :=
  [-1; 0; 31; 59; 90; 120; 151; 181; 212; 243; 273; 304; 334].

Definition days_before_year (year : Z) : Z :=
  let y := year - 1 in y * 365 + y / 4 - y / 100 + y / 400.

Definition days_before_month (year month : Z) : Z :=
  nth (Z.to_nat month) DAYS_BEFORE_MONTH 0
  + (if (2 <? month) && is_leap year then 1 else 0).

(** [date(year, month, day).toordinal()]. *)
Definition ymd2ord (year month day : Z) : Z :=
  days_before_year year + days_before_month year month + day.

(** [date.fromordinal(n)] as year, month and day. *)
Definition ord2ymd (n0 : Z) : Z * Z * Z :=
  let n := n0 - 1 in
  let n400 := n / DI400Y in
  let n := n mod DI400Y in
  let year := n400 * 400 + 1 in
  let n100 := n / DI100Y in
  let n := n mod DI100Y in
  let n4 := n / DI4Y in
  let n := n mod DI4Y in
  let n1 := n / 365 in
  let n := n mod 365 in
  let year := year + n100 * 100 + n4 * 4 + n1 in
  if (n1 =? 4) || (n100 =? 4) then (year - 1, 12, 31)
  else
    let leapyear := (n1 =? 3) && (negb (n4 =? 24) || (n100 =? 3)) in
    let month := Z.shiftr (n + 50) 5 in
    let preceding :=
      nth (Z.to_nat month) DAYS_BEFORE_MONTH 0
      + (if (2 <? month) && leapyear then 1 else 0) in
    if n <? preceding then
      let month := month - 1 in
      let preceding :=
        preceding - (nth (Z.to_nat month) DAYS_IN_MONTH 0
                     + (if (month =? 2) && leapyear then 1 else 0)) in
      (year, month, n - preceding + 1)
    else (year, month, n - preceding + 1).

(** A number written with at least [width] digits. *)
Definition zfill (width : nat) (s : pystr) : pystr :=
  repeat 48%N (width - List.length s) ++ s.

(** [strftime("%Y-%m-%d")], for the years of four digits. *)
Definition strftime_ymd (d : Z * Z * Z) : pystr :=
  let '(year, month, day) := d in
  zfill 4 (str_int year) ++ u "-" ++ zfill 2 (str_int month) ++ u "-"
  ++ zfill 2 (str_int day).

(** [(now - timedelta(days=days))] as a date; the subtraction fails before
    the first day of year 1. *)
Definition minus_days (now days : Z) : outcome (Z * Z * Z) :=
  if now - days <? 1 then Exn OverflowError else Ok (ord2ymd (now - days)).

(** ** submit_sheerid *)

Record submission_result : Type := {
  success : bool;
  message : pystr
}.

Definition HEXDIGITS : pystr := u "0123456789abcdef".

(** ["".join(random.choice("0123456789abcdef") for _ in range(n))]. *)
Fixpoint random_hex (n : nat) : io pystr :=
  match n with
  | O => Ret []
  | S n' =>
      c <- random_choice HEXDIGITS ;;
      rest <- random_hex n' ;;
      Ret (c :: rest)
  end.

(** The two values the submission derives on its own: the age drawn, the
    birth date and the device fingerprint. *)
Definition init_values : io (Z * pystr * pystr) :=
  age <- random_randint 25 60 ;;
  birth <- Now (fun now => lift (minus_days now (age * 365))) ;;
  device_fp <- random_hex 32 ;;
  Ret (age, strftime_ymd birth, device_fp).

Definition verification_url (verification_id step : pystr) : pystr :=
  SHEERID_BASE_URL ++ u "/rest/v2/verification/" ++ verification_id ++ u "/step/" ++ step.

Definition step2_url (verification_id : pystr) : pystr :=
  verification_url verification_id (u "collectTeacherPersonalInfo").
Definition sso_url (verification_id : pystr) : pystr :=
  verification_url verification_id (u "sso").
Definition step4_url (verification_id : pystr) : pystr :=
  verification_url verification_id (u "docUpload").
Definition complete_url (verification_id : pystr) : pystr :=
  verification_url verification_id (u "completeDocUpload").

Definition step4_body (pdf_data png_data : list Byte.byte) : json :=
  JObj [(u "files",
         JArr [JObj [(u "fileName", JStr (u "paystub.pdf"));
                     (u "mimeType", JStr (u "application/pdf"));
                     (u "fileSize", JInt (Z.of_nat (List.length pdf_data)))];
               JObj [(u "fileName", JStr (u "faculty_id.png"));
                     (u "mimeType", JStr (u "image/png"));
                     (u "fileSize", JInt (Z.of_nat (List.length png_data)))]])].

Section Submission.

Variable rt : runtime.

(** The body of step 2; building it reads [school["id"]], converts it and
    reads [school["name"]], in this order. *)
Definition step2_body (first_name last_name email birth_date device_fp : pystr)
  (school : json) : outcome json :=
  match getitem school (JStr (u "id")) with
  | Exn e => Exn e
  | Ok raw_id =>
      match py_int rt raw_id with
      | Exn e => Exn e
      | Ok org_id =>
          match getitem school (JStr (u "name")) with
          | Exn e => Exn e
          | Ok org_name =>
              Ok (JObj [(u "firstName", JStr first_name);
                        (u "lastName", JStr last_name);
                        (u "birthDate", JStr birth_date);
                        (u "email", JStr email);
                        (u "organization",
                         JObj [(u "id", JInt org_id); (u "name", org_name)]);
                        (u "deviceFingerprintHash", JStr device_fp);
                        (u "locale", JStr (u "en-US"))])
          end
      end
  end.

(** Steps 5 and 6, once the list of documents has its two entries. *)
Definition upload_and_complete (verification_id : pystr) (documents : json)
  (pdf_data png_data : list Byte.byte) : io submission_result :=
  doc0 <- lift (getitem documents (JInt 0)) ;;
  pdf_url <- lift (getitem doc0 (JStr (u "uploadUrl"))) ;;
  pdf_upload <- client_put pdf_url pdf_data (u "application/pdf") ;;
  doc1 <- lift (getitem documents (JInt 1)) ;;
  png_url <- lift (getitem doc1 (JStr (u "uploadUrl"))) ;;
  png_upload <- client_put png_url png_data (u "image/png") ;;
  complete_resp <- client_post (complete_url verification_id) None ;;
  Ret {| success := true; message := u "Submitted successfully" |}.

(** Steps 3 and 4, after step 2 answered 200. *)
Definition after_step2 (verification_id : pystr) (pdf_data png_data : list Byte.byte)
  : io submission_result :=
  sso_resp <- client_delete (sso_url verification_id) ;;
  step4_resp <- client_post (step4_url verification_id)
                            (Some (step4_body pdf_data png_data)) ;;
  if negb (status_code step4_resp =? 200) then
    Ret {| success := false;
           message := u "Step 4 failed: " ++ str_int (status_code step4_resp) |}
  else
    step4_data <- response_json step4_resp ;;
    documents <- lift (dict_get step4_data (u "documents") (JArr [])) ;;
    count <- lift (py_len documents) ;;
    if (count <? 2)%nat then
      Ret {| success := false; message := u "No upload URLs received from SheerID" |}
    else upload_and_complete verification_id documents pdf_data png_data.

Definition submit_handler (e : exn) : io submission_result :=
  match e with
  | TimeoutException _ =>
      Ret {| success := false; message := u "Request timeout - please try again" |}
  | _ =>
      Ret {| success := false; message := u "Submission error: " ++ exn_str rt e |}
  end.

Definition submit_sheerid (verification_id first_name last_name email : pystr)
  (school : json) (pdf_data png_data : list Byte.byte) : io submission_result :=
  try_except
    (init <- init_values ;;
     let '(age, birth_date, device_fp) := init in
     body2 <- lift (step2_body first_name last_name email birth_date device_fp school) ;;
     step2_resp <- client_post (step2_url verification_id) (Some body2) ;;
     if negb (status_code step2_resp =? 200) then
       Ret {| success := false;
              message := u "Step 2 failed: " ++ str_int (status_code step2_resp) |}
     else after_step2 verification_id pdf_data png_data)
    submit_handler.

End Submission.

(** ** The console: display_schools_cli and the first loop of main_flow

    The operator's lines are a finite list; reading past its end is the
    [EOFError] that [input()] raises.  A function of the console returns
    what it computed and the lines it left unread. *)

(** The regular expression [verificationId=([a-f0-9]{24})] under
    [re.IGNORECASE].  [sre_lower_unicode] is the lower-case mapping where
    its value is an ASCII letter (the capitals, U+0130 and U+212A); no other
    value of it matters for this pattern. *)
Definition sre_lower_unicode (c : codepoint) : codepoint :=
  if ((65 <=? c) && (c <=? 90))%N then (c + 32)%N
  else if (c =? 304)%N then 105%N
  else if (c =? 8490)%N then 107%N
  else c.

(** The characters the compiler adds to a letter ([i] and dotless [i]). *)
Definition ignorecase_fixes (lo : codepoint) : list codepoint :=
  if (lo =? 105)%N then [305%N]
  else if (lo =? 305)%N then [105%N]
  else [].

(** One literal character of the pattern against one of the text. *)
Definition literal_ignore (p c : codepoint) : bool :=
  let lo := sre_lower_unicode p in
  existsb (N.eqb (sre_lower_unicode c)) (lo :: ignorecase_fixes lo).

(** The class [[a-f0-9]]. *)
Definition class_hex_ignore (c : codepoint) : bool :=
  let lo := sre_lower_unicode c in
  ((97 <=? lo) && (lo <=? 102) || (48 <=? lo) && (lo <=? 57))%N.

Definition PATTERN_LITERAL : pystr := u "verificationId=".

(** The text after the literal, when the text starts with it. *)
Fixpoint match_literal (pat s : pystr) : option pystr :=
  match pat with
  | [] => Some s
  | p :: pat' =>
      match s with
      | [] => None
      | c :: s' => if literal_ignore p c then match_literal pat' s' else None
      end
  end.

(** The first [n] characters, when all are in the class. *)
Fixpoint match_class (n : nat) (s : pystr) : option pystr :=
  match n with
  | O => Some []
  | S n' =>
      match s with
      | [] => None
      | c :: s' =>
          if class_hex_ignore c
          then option_map (cons c) (match_class n' s')
          else None
      end
  end.

(** Group 1 of a match that starts at the head of [s]. *)
Definition match_here (s : pystr) : option pystr :=
  match match_literal PATTERN_LITERAL s with
  | Some rest => match_class 24 rest
  | None => None
  end.

(** [re.search(...)] and [.group(1)]: the leftmost match. *)
Fixpoint re_search (s : pystr) : option pystr :=
  match match_here s with
  | Some g => Some g
  | None =>
      match s with
      | [] => None
      | _ :: s' => re_search s'
      end
  end.

Section Console.

Variable rt : runtime.

(** [prompt(text)]: the next line, stripped. *)
Definition prompt (stdin : list pystr) : outcome pystr * list pystr :=
  match stdin with
  | [] => (Exn EOFError, [])
  | raw :: rest => (Ok (strip rt raw), rest)
  end.

(** The first loop of [main_flow]: ask until a line holds an identifier. *)
Fixpoint ask_verification_id (stdin : list pystr) : outcome pystr * list pystr :=
  match stdin with
  | [] => (Exn EOFError, [])
  | raw :: rest =>
      match re_search (strip rt raw) with
      | Some verification_id => (Ok verification_id, rest)
      | None => ask_verification_id rest
      end
  end.

(** The listing: every school is stored under [school_<idx>] and its
    fields are read with [get]. *)
Fixpoint show_schools (idx : nat) (schools : list json) (user : list (pystr * json))
  : list (pystr * json) * option exn :=
  match schools with
  | [] => (user, None)
  | school :: rest =>
      let user' := (u "school_" ++ str_int (Z.of_nat idx), school) :: user in
      match dict_get school (u "name") (JStr (u "Unknown")) with
      | Exn e => (user', Some e)
      | Ok _ => show_schools (S idx) rest user'
      end
  end.

(** The [while True] loop of [display_schools_cli]. *)
Fixpoint choose (count : nat) (stdin : list pystr) : outcome Z * list pystr :=
  match stdin with
  | [] => (Exn EOFError, [])
  | raw :: rest =>
      let choice := strip rt raw in
      if negb (isdigit rt choice) then choose count rest
      else
        match int_of_str rt choice with
        | None => (Exn (ValueError choice), rest)
        | Some choice_int =>
            if (1 <=? choice_int) && (choice_int <=? Z.of_nat count)
            then (Ok (choice_int - 1), rest)
            else choose count rest
        end
  end.

Definition display_schools_cli (schools : list json) (user : list (pystr * json))
  (stdin : list pystr) : outcome Z * list (pystr * json) * list pystr :=
  match show_schools 0 schools user with
  | (user', Some e) => (Exn e, user', stdin)
  | (user', None) =>
      let '(o, rest) := choose (List.length schools) stdin in (o, user', rest)
  end.

End Console.

(** ** main_flow: the collection of the session

    [user_data[user_id]] is the list of its bindings, the latest first.
    What [main_flow] does after the choice of the school (the documents of
    the [document_generator] module, the files, the report) is not part of
    the model. *)

(** What one interactive step leaves behind: the bindings of [user_data],
    the requests sent, the counters of the world and the lines unread. *)
Record flow : Type := {
  user_data : list (pystr * json);
  sent : list request;
  counters : nat * nat;
  unread : list pystr
}.

(** The values [main_flow] reads back before it generates the documents. *)
Record session : Type := {
  session_verification_id : pystr;
  session_first_name : pystr;
  session_last_name : pystr;
  session_full_name : pystr;
  session_email : pystr;
  session_school : json;
  session_school_name : json
}.

(** [sep.join(parts)]. *)
Fixpoint join (sep : pystr) (parts : list pystr) : pystr :=
  match parts with
  | [] => []
  | part :: rest =>
      match rest with
      | [] => part
      | _ => part ++ sep ++ join sep rest
      end
  end.

(** [c in s] for one character. *)
Definition contains (c : codepoint) (s : pystr) : bool := existsb (N.eqb c) s.

(** [user_data[user_id][key]] for a key that holds text. *)
Definition user_text (user : list (pystr * json)) (key : pystr) : outcome pystr :=
  match lookup key user with
  | Some (JStr s) => Ok s
  | Some v => Exn (TypeError (u "str") v)
  | None => Exn (KeyError (JStr key))
  end.

Section MainFlow.

Variable rt : runtime.

(** [s.split()]: the words between runs of blanks; [word] holds the
    characters of the current word, the last one first. *)
Fixpoint split_words (word : pystr) (s : pystr) : list pystr :=
  match s with
  | [] =>
      match word with
      | [] => []
      | _ => [rev word]
      end
  | c :: rest =>
      if unicode_isspace rt c then
        match word with
        | [] => split_words [] rest
        | _ => rev word :: split_words [] rest
        end
      else split_words (c :: word) rest
  end.

Definition split (s : pystr) : list pystr := split_words [] s.

(** The second loop of [main_flow]: first name, last name, full name. *)
Fixpoint ask_full_name (stdin : list pystr) : outcome (pystr * pystr * pystr) * list pystr :=
  match stdin with
  | [] => (Exn EOFError, [])
  | raw :: rest =>
      let full_name := strip rt raw in
      match split full_name with
      | first :: second :: more =>
          (Ok (first, join (u " ") (second :: more), full_name), rest)
      | _ => ask_full_name rest
      end
  end.

(** The third loop: the email address. *)
Fixpoint ask_email (stdin : list pystr) : outcome pystr * list pystr :=
  match stdin with
  | [] => (Exn EOFError, [])
  | raw :: rest =>
      let email := strip rt raw in
      if negb (contains 64%N email) || negb (contains 46%N email)
      then ask_email rest
      else (Ok email, rest)
  end.

(** The fourth loop: the school name, the search, the choice. *)
Fixpoint ask_school (w : world) (calls draws : nat) (user : list (pystr * json))
  (stdin : list pystr) : outcome json * flow :=
  match stdin with
  | [] =>
      (Exn EOFError,
       {| user_data := user; sent := []; counters := (calls, draws); unread := [] |})
  | raw :: rest =>
      let school_name := strip rt raw in
      match school_name with
      | [] => ask_school w calls draws user rest
      | _ =>
          let user1 := (u "school_name", JStr school_name) :: user in
          let '(o, t, (c, d)) := run w (search_schools school_name) calls draws in
          match o with
          | Exn e =>
              (Exn e, {| user_data := user1; sent := t; counters := (c, d);
                         unread := rest |})
          | Ok [] =>
              let '(o2, f) := ask_school w c d user1 rest in
              (o2, {| user_data := user_data f; sent := t ++ sent f;
                      counters := counters f; unread := unread f |})
          | Ok schools =>
              let '(choice, user2, rest2) := display_schools_cli rt schools user1 rest in
              (match choice with
               | Exn e => Exn e
               | Ok idx => getitem (JObj user2) (JStr (u "school_" ++ str_int idx))
               end,
               {| user_data := user2; sent := t; counters := (c, d); unread := rest2 |})
          end
      end
  end.

(** [main_flow] up to the values it passes on: the four loops, then the
    reads of [user_data]. *)
Definition collect_session (w : world) (stdin : list pystr) : outcome session * flow :=
  let stop := fun (e : exn) user rest =>
    (@Exn session e,
     {| user_data := user; sent := []; counters := (O, O); unread := rest |}) in
  match ask_verification_id rt stdin with
  | (Exn e, rest) => stop e [] rest
  | (Ok verification_id, rest1) =>
      let user1 := [(u "verification_id", JStr verification_id)] in
      match ask_full_name rest1 with
      | (Exn e, rest) => stop e user1 rest
      | (Ok (first_name, last_name, full_name), rest2) =>
          let user2 := (u "full_name", JStr full_name)
                       :: (u "last_name", JStr last_name)
                       :: (u "first_name", JStr first_name) :: user1 in
          match ask_email rest2 with
          | (Exn e, rest) => stop e user2 rest
          | (Ok email, rest3) =>
              let user3 := (u "email", JStr email) :: user2 in
              let '(selected, f) := ask_school w 0 0 user3 rest3 in
              (match selected with
               | Exn e => Exn e
               | Ok school =>
                   match dict_get school (u "name") JNull with
                   | Exn e => Exn e
                   | Ok s_name =>
                       match dict_get school (u "type") (JStr (u "K12")) with
                       | Exn e => Exn e
                       | Ok _ =>
                           match dict_get school (u "id") JNull with
                           | Exn e => Exn e
                           | Ok _ =>
                               match user_text (user_data f) (u "verification_id") with
                               | Exn e => Exn e
                               | Ok v =>
                               match user_text (user_data f) (u "first_name") with
                               | Exn e => Exn e
                               | Ok fn =>
                               match user_text (user_data f) (u "last_name") with
                               | Exn e => Exn e
                               | Ok ln =>
                               match user_text (user_data f) (u "full_name") with
                               | Exn e => Exn e
                               | Ok full =>
                               match user_text (user_data f) (u "email") with
                               | Exn e => Exn e
                               | Ok em =>
                                   Ok {| session_verification_id := v;
                                         session_first_name := fn;
                                         session_last_name := ln;
                                         session_full_name := full;
                                         session_email := em;
                                         session_school := school;
                                         session_school_name := s_name |}
                               end end end end end
                           end
                       end
                   end
               end, f)
          end
      end
  end.

End MainFlow.

(** A list with some of its elements left out, the order kept. *)
Inductive subsequence {A : Type} : list A -> list A -> Prop :=
| subsequence_nil : subsequence [] []
| subsequence_keep (x : A) (l1 l2 : list A) :
    subsequence l1 l2 -> subsequence (x :: l1) (x :: l2)
| subsequence_drop (x : A) (l1 l2 : list A) :
    subsequence l1 l2 -> subsequence l1 (x :: l2).

(** ** A runtime to compute with

    The character tables of CPython for the code points below 256, its
    default limit on the digits of [int], and the texts CPython 3.11 gives
    the exceptions of the operations above.  The texts are exact for
    strings of code points below 256. *)

Definition latin1_isspace (c : codepoint) : bool :=
  ((9 <=? c) && (c <=? 13) || (28 <=? c) && (c <=? 32) || (c =? 133) || (c =? 160))%N.

Definition latin1_isdigit (c : codepoint) : bool :=
  ((48 <=? c) && (c <=? 57) || (c =? 178) || (c =? 179) || (c =? 185))%N.

Definition latin1_decimal (c : codepoint) : option Z :=
  if ((48 <=? c) && (c <=? 57))%N then Some (Z.of_N c - 48) else None.

(** [type(v).__name__]. *)
Definition type_name (v : json) : pystr :=
  match v with
  | JNull => u "NoneType"
  | JBool _ => u "bool"
  | JInt _ => u "int"
  | JStr _ => u "str"
  | JArr _ => u "list"
  | JObj _ => u "dict"
  end.

Definition hex_digit (n : N) : codepoint :=
  (if n <? 10 then 48 + n else 87 + n)%N.

(** One character of [repr(s)] between the quotes [quote]: backslash and
    the quote escaped, tab, newline and return by their letter, any other
    character that is not printable as [\xNN].  Below code point 256 the
    characters that are not printable are the control characters, the
    no-break space and the soft hyphen. *)
Definition repr_char (quote c : codepoint) : pystr :=
  (if (c =? 92) || (c =? quote) then [92; c]
   else if c =? 9 then [92; 116]
   else if c =? 10 then [92; 110]
   else if c =? 13 then [92; 114]
   else if (c <? 32) || (127 <=? c) && (c <=? 160) || (c =? 173)
   then [92; 120; hex_digit (c / 16); hex_digit (c mod 16)]
   else [c])%N.

(** [repr(s)] for a [str]: double quotes when the text holds a single quote
    and no double one. *)
Definition repr_str (s : pystr) : pystr :=
  let quote := if contains 39%N s && negb (contains 34%N s) then 34%N else 39%N in
  [quote] ++ flat_map (repr_char quote) s ++ [quote].

(** [repr(v)]. *)
Fixpoint repr (v : json) : pystr :=
  match v with
  | JNull => u "None"
  | JBool b => if b then u "True" else u "False"
  | JInt n => str_int n
  | JStr s => repr_str s
  | JArr items => u "[" ++ join (u ", ") (map repr items) ++ u "]"
  | JObj fields =>
      let fix bindings (seen : list pystr) (fields : list (pystr * json)) : list pystr :=
        match fields with
        | [] => []
        | (k, x) :: rest =>
            if existsb (pystr_eqb k) seen then bindings seen rest
            else (repr_str k ++ u ": " ++ repr x) :: bindings (k :: seen) rest
        end in
      u "{" ++ join (u ", ") (bindings [] fields) ++ u "}"
  end.

(** The digits [int] counts before it converts: those of the run of digits
    and underscores at the head of the literal.  [None]: two underscores in
    a row, or one at the end of the run. *)
Fixpoint digit_run (after_underscore : bool) (count : nat) (s : pystr) : option nat :=
  match s with
  | [] => if after_underscore then None else Some count
  | c :: rest =>
      if (c =? 95)%N
      then (if after_underscore then None else digit_run true count rest)
      else match latin1_decimal c with
           | Some _ => digit_run false (S count) rest
           | None => if after_underscore then None else Some count
           end
  end.

Definition latin1_int_isspace (c : codepoint) : bool :=
  (if c <? 127 then (9 <=? c) && (c <=? 13) || (c =? 32) else latin1_isspace c)%N.

Fixpoint latin1_int_lstrip (s : pystr) : pystr :=
  match s with
  | [] => []
  | c :: rest => if latin1_int_isspace c then latin1_int_lstrip rest else s
  end.

(** The text of the [ValueError] of [int(s)]: the literal is named by the
    first 200 characters of its [repr], unless its digits are more than the
    limit. *)
Definition int_error_text (limit : nat) (s : pystr) : pystr :=
  let invalid := u "invalid literal for int() with base 10: " ++ firstn 200 (repr_str s) in
  let stripped := rev (latin1_int_lstrip (rev (latin1_int_lstrip s))) in
  let digits :=
    match stripped with
    | [] => []
    | c :: rest => if ((c =? 45) || (c =? 43))%N then rest else stripped
    end in
  match digits with
  | [] => invalid
  | c :: _ =>
      if (c =? 95)%N then invalid
      else match digit_run false 0 digits with
           | None => invalid
           | Some count =>
               if (0 <? limit)%nat && (limit <? count)%nat
               then u "Exceeds the limit (" ++ str_int (Z.of_nat limit)
                    ++ u " digits) for integer string conversion: value has "
                    ++ str_int (Z.of_nat count)
                    ++ u " digits; use sys.set_int_max_str_digits() to increase the limit"
               else invalid
           end
  end.

(** [str(e)] as CPython 3.11 writes it.  The library's exceptions carry
    their text.  A body that is not JSON stands for one with no JSON value
    at its head (an empty body, an HTML page).  [user_text] raises where the
    program stores text only; that exception has no text in Python. *)
Definition plain_exn_str (e : exn) : pystr :=
  match e with
  | TimeoutException d => d
  | TransportError d => d
  | KeyError key => repr key
  | JSONDecodeError => u "Expecting value: line 1 column 1 (char 0)"
  | IndexError (JStr _) => u "string index out of range"
  | IndexError _ => u "list index out of range"
  | TypeError operation operand =>
      let name := type_name operand in
      if pystr_eqb operation (u "hash")
      then u "unhashable type: '" ++ name ++ u "'"
      else if pystr_eqb operation (u "list index")
      then u "list indices must be integers or slices, not " ++ name
      else if pystr_eqb operation (u "string index")
      then u "string indices must be integers, not '" ++ name ++ u "'"
      else if pystr_eqb operation (u "subscript")
      then u "'" ++ name ++ u "' object is not subscriptable"
      else if pystr_eqb operation (u "len")
      then u "object of type '" ++ name ++ u "' has no len()"
      else if pystr_eqb operation (u "int")
      then u "int() argument must be a string, a bytes-like object or a real number, not '"
           ++ name ++ u "'"
      else []
  | ValueError literal => int_error_text 4300 literal
  | AttributeError operand attribute =>
      u "'" ++ type_name operand ++ u "' object has no attribute '" ++ attribute ++ u "'"
  | OverflowError => u "date value out of range"
  | EOFError => u "EOF when reading a line"
  end.

Definition latin1 : runtime := {|
  unicode_isspace := latin1_isspace;
  unicode_isdigit := latin1_isdigit;
  unicode_decimal := latin1_decimal;
  int_max_str_digits := 4300;
  exn_str := plain_exn_str
|}.

(** ** Reference definitions for the statements *)

(** The records one category lookup contributes to [all_schools]: the items
    of a 200 reply whose body is a list, nothing otherwise. *)
Definition category_records (x : reply) : list json :=
  match x with
  | Response resp =>
      if status_code resp =? 200 then
        match body resp with
        | Some (JArr items) => items
        | _ => []
        end
      else []
  | Raises _ => []
  end.

(** The identifier of a record as a set key, and whether the record has an
    identifier that counts as true. *)
Definition identifier (r : json) : option hkey :=
  match dict_get r (u "id") JNull with
  | Ok v => hash_key v
  | Exn _ => None
  end.

Definition has_identifier (r : json) : bool :=
  match dict_get r (u "id") JNull with
  | Ok v => truthy v
  | Exn _ => false
  end.

(** A record the loop over [all_schools] can process: a [dict] whose
    identifier, when it counts as true, can be put in a set. *)
Definition record_ok (r : json) : bool :=
  match r with
  | JObj _ =>
      if has_identifier r
      then match identifier r with Some _ => true | None => false end
      else true
  | _ => false
  end.

(** Deduplication by identifier: the first record of each identifier stays,
    in the order met. *)
Fixpoint dedup_by_identifier (seen : list hkey) (records : list json) : list json :=
  match records with
  | [] => []
  | r :: rest =>
      match identifier r with
      | Some k =>
          if existsb (hkey_eqb k) seen then dedup_by_identifier seen rest
          else r :: dedup_by_identifier (k :: seen) rest
      | None => r :: dedup_by_identifier seen rest
      end
  end.

(** The aggregation as the specification words it: concatenate, deduplicate
    by identifier, keep the first 20. *)
Definition resolve_as_specified (k12 high_school : list json) : list json :=
  firstn 20 (dedup_by_identifier [] (k12 ++ high_school)).

(** The same, over the records that have an identifier counting as true. *)
Definition resolve_with_identifier (k12 high_school : list json) : list json :=
  firstn 20 (dedup_by_identifier [] (filter has_identifier (k12 ++ high_school))).

Definition K12_request (query : pystr) : request := search_request (u "K12") query.
Definition HIGH_SCHOOL_request (query : pystr) : request :=
  search_request (u "HIGH_SCHOOL") query.

(** The birth date the specification words: the same day and month, [age]
    years earlier. *)
Definition minus_years (now age : Z) : Z * Z * Z :=
  let '(year, month, day) := ord2ymd now in (year - age, month, day).

Definition lower_hex (c : codepoint) : bool :=
  ((48 <=? c) && (c <=? 57) || (97 <=? c) && (c <=? 102))%N.

(** The identifier extraction as the specification words it: the literal
    text [verificationId=], then 24 lower-case hexadecimal characters and no
    25th. *)
Fixpoint take_lower_hex (n : nat) (s : pystr) : option pystr :=
  match n with
  | O =>
      match s with
      | c :: _ => if lower_hex c then None else Some []
      | [] => Some []
      end
  | S n' =>
      match s with
      | [] => None
      | c :: s' =>
          if lower_hex c then option_map (cons c) (take_lower_hex n' s') else None
      end
  end.

Fixpoint strip_prefix (pat s : pystr) : option pystr :=
  match pat with
  | [] => Some s
  | p :: pat' =>
      match s with
      | [] => None
      | c :: s' => if (p =? c)%N then strip_prefix pat' s' else None
      end
  end.

Fixpoint extract_as_specified (s : pystr) : option pystr :=
  match match strip_prefix PATTERN_LITERAL s with
        | Some rest => take_lower_hex 24 rest
        | None => None
        end with
  | Some g => Some g
  | None =>
      match s with
      | [] => None
      | _ :: s' => extract_as_specified s'
      end
  end.

(** The requests of a complete submission, in order. *)
Definition step2_request (verification_id : pystr) (body2 : json) : request :=
  POST (step2_url verification_id) (Some body2).
Definition sso_request (verification_id : pystr) : request :=
  DELETE (sso_url verification_id).
Definition step4_request (verification_id : pystr) (pdf_data png_data : list Byte.byte)
  : request :=
  POST (step4_url verification_id) (Some (step4_body pdf_data png_data)).
Definition pdf_request (pdf_url : json) (pdf_data : list Byte.byte) : request :=
  PUT pdf_url pdf_data (u "application/pdf").
Definition png_request (png_url : json) (png_data : list Byte.byte) : request :=
  PUT png_url png_data (u "image/png").
Definition complete_request (verification_id : pystr) : request :=
  POST (complete_url verification_id) None.

Definition protocol_requests (verification_id : pystr) (body2 pdf_url png_url : json)
  (pdf_data png_data : list Byte.byte) : list request :=
  [step2_request verification_id body2; sso_request verification_id;
   step4_request verification_id pdf_data png_data;
   pdf_request pdf_url pdf_data; png_request png_url png_data;
   complete_request verification_id].

(** [documents[i]["uploadUrl"]], and the same in the reply to step 4. *)
Definition document_url (documents : json) (i : Z) : outcome json :=
  match getitem documents (JInt i) with
  | Ok doc => getitem doc (JStr (u "uploadUrl"))
  | Exn e => Exn e
  end.

Definition upload_url (step4 : reply) (i : Z) : outcome json :=
  match step4 with
  | Raises e => Exn e
  | Response step4_resp =>
      match body step4_resp with
      | None => Exn JSONDecodeError
      | Some step4_data =>
          match dict_get step4_data (u "documents") (JArr []) with
          | Ok documents => document_url documents i
          | Exn e => Exn e
          end
      end
  end.

(** A category lookup that failed: an exception, a status other than 200, or
    a body that is not a list. *)
Definition lookup_failed (x : reply) : Prop :=
  match x with
  | Raises _ => True
  | Response resp =>
      status_code resp <> 200 \/ (forall items, body resp <> Some (JArr items))
  end.

(** A category lookup that gives no candidate: it failed, or it answered
    200 with the empty list. *)
Definition no_candidates (x : reply) : Prop :=
  lookup_failed x \/ x = Response {| status_code := 200; body := Some (JArr []) |}.

(** The characters [random_hex] draws, from draw [d] on. *)
Fixpoint drawn_hex (w : world) (d n : nat) : pystr :=
  match n with
  | O => []
  | S n' => nth (N.to_nat (entropy w d mod 16)%N) HEXDIGITS 0%N :: drawn_hex w (S d) n'
  end.

(** The age [random.randint(25, 60)] gives at draw [d]. *)
Definition drawn_age (w : world) (d : nat) : Z := 25 + Z.of_N (entropy w d mod 36)%N.

(** The three results the statements name. *)
Definition step2_failed (resp : response) : submission_result :=
  {| success := false; message := u "Step 2 failed: " ++ str_int (status_code resp) |}.
Definition no_upload_urls : submission_result :=
  {| success := false; message := u "No upload URLs received from SheerID" |}.
Definition submitted : submission_result :=
  {| success := true; message := u "Submitted successfully" |}.

(** The pattern of the verification identifier, in plain terms. *)
Definition ascii_lower (c : codepoint) : codepoint :=
  if ((65 <=? c) && (c <=? 90))%N then (c + 32)%N else c.

(** [c] is the letter [p] of the pattern in either case; for the letter
    [i], also the dotted capital U+0130 and the dotless small U+0131. *)
Definition same_letter (p c : codepoint) : bool :=
  ((ascii_lower c =? ascii_lower p)
   || (ascii_lower p =? 105) && ((c =? 304) || (c =? 305)))%N.

(** A hexadecimal digit in either case. *)
Definition hex_any_case (c : codepoint) : bool :=
  (lower_hex c || (65 <=? c) && (c <=? 70))%N.

Definition ignorecase_literal (lit : pystr) : Prop :=
  Forall2 (fun p c => same_letter p c = true) PATTERN_LITERAL lit.

Definition hex_text (n : nat) (s : pystr) : Prop :=
  List.length s = n /\ Forall (fun c => hex_any_case c = true) s.

(** A match starts at the head of [s], with group [vid]. *)
Definition identifier_at (s vid : pystr) : Prop :=
  exists lit after, s = lit ++ vid ++ after /\ ignorecase_literal lit /\ hex_text 24 vid.

Definition contains_identifier (url : pystr) : Prop :=
  exists before vid, identifier_at (skipn before url) vid.

(** [vid] is the group of the leftmost match in [url]. *)
Definition leftmost_identifier (url vid : pystr) : Prop :=
  exists before,
    identifier_at (skipn before url) vid
    /\ forall earlier other,
        (earlier < before)%nat -> ~ identifier_at (skipn earlier url) other.

(** ** Example data *)

Definition example_world (replies : nat -> request -> reply) : world :=
  {| net := replies; entropy := fun n => N.of_nat n; today := 738886 |}.

Definition example_id : pystr := u "0123456789abcdef01234567".
Definition example_school : json :=
  JObj [(u "id", JInt 4821); (u "name", JStr (u "The Clinton School"));
        (u "type", JStr (u "K12")); (u "city", JStr (u "New York"));
        (u "state", JStr (u "NY"))].
Definition example_pdf : list Byte.byte := [Byte.x25; Byte.x50; Byte.x44; Byte.x46].
Definition example_png : list Byte.byte := [Byte.x89; Byte.x50; Byte.x4e; Byte.x47].

(** The values derived in an example world: the first draw gives the age
    25, the clock shows 2024-01-01. *)
Definition example_age : Z := 25.
Definition example_birth_date : pystr := u "1999-01-07".
Definition example_device_fp : pystr := u "123456789abcdef0123456789abcdef0".
Definition example_body2 : json :=
  JObj [(u "firstName", JStr (u "Elizabeth"));
        (u "lastName", JStr (u "Bradly"));
        (u "birthDate", JStr example_birth_date);
        (u "email", JStr (u "e.bradly@clinton.example"));
        (u "organization",
         JObj [(u "id", JInt 4821); (u "name", JStr (u "The Clinton School"))]);
        (u "deviceFingerprintHash", JStr example_device_fp);
        (u "locale", JStr (u "en-US"))].

Definition example_submit (rt : runtime) (w : world) (school : json) :=
  run w (submit_sheerid rt example_id (u "Elizabeth") (u "Bradly")
                        (u "e.bradly@clinton.example") school example_pdf example_png)
      0 0.

Definition plain_response (status : Z) : response :=
  {| status_code := status; body := None |}.

Definition documents_response (docs : list json) : response :=
  {| status_code := 200; body := Some (JObj [(u "documents", JArr docs)]) |}.

Definition upload_slot (url : string) : json := JObj [(u "uploadUrl", JStr (u url))].

(** Step 2 answers 500. *)
Definition world_step2_refused : world :=
  example_world (fun _ _ => Response (plain_response 500)).

(** Step 4 answers with a single document. *)
Definition world_one_document : world :=
  example_world (fun n _ =>
    match n with
    | 2%nat => Response (documents_response [upload_slot "https://s3.example/a"])
    | _ => Response (plain_response 200)
    end).

(** Steps 2 and 4 answer 200, the SSO skip 404, the transfers 403, the
    completion 500. *)
Definition world_uploads_refused : world :=
  example_world (fun n _ =>
    match n with
    | 0%nat => Response (plain_response 200)
    | 1%nat => Response (plain_response 404)
    | 2%nat => Response (documents_response [upload_slot "https://s3.example/a";
                                             upload_slot "https://s3.example/b"])
    | 5%nat => Response (plain_response 500)
    | _ => Response (plain_response 403)
    end).

(** Steps 2 and 4 answer 200, the two documents carry no [uploadUrl];
    every call gets a response. *)
Definition world_documents_without_url : world :=
  example_world (fun n _ =>
    match n with
    | 2%nat => Response (documents_response [JObj []; JObj []])
    | _ => Response (plain_response 200)
    end).

Definition school_with_text_id : json :=
  JObj [(u "id", JStr (u "N/A")); (u "name", JStr (u "The Clinton School"))].

Definition list_response (items : list json) : response :=
  {| status_code := 200; body := Some (JArr items) |}.

Definition record (id : json) (name : string) : json :=
  JObj [(u "id", id); (u "name", JStr (u name))].

(** Three K12 records and two HIGH_SCHOOL records, one identifier shared. *)
Definition lincoln_k12 : list json :=
  [record (JInt 11) "Lincoln High School"; record (JInt 12) "Lincoln Elementary";
   record (JInt 13) "Lincoln Middle School"].
Definition lincoln_high_school : list json :=
  [record (JInt 11) "Lincoln High School (HS)"; record (JInt 14) "Abraham Lincoln High"].

Definition world_lincoln : world :=
  example_world (fun n _ =>
    match n with
    | 0%nat => Response (list_response lincoln_k12)
    | _ => Response (list_response lincoln_high_school)
    end).

(** A record with the identifier 0 and one with the identifier 5 among the
    K12 records. *)
Definition zero_k12 : list json :=
  [record (JInt 0) "Zero School"; record (JInt 5) "Five School"].

Definition world_zero : world :=
  example_world (fun n _ =>
    match n with
    | 0%nat => Response (list_response zero_k12)
    | _ => Response (list_response [])
    end).

(** The K12 lookup meets a network error, the HIGH_SCHOOL lookup answers two
    records. *)
Definition world_k12_down : world :=
  example_world (fun n _ =>
    match n with
    | 0%nat => Raises (TransportError (u "All connection attempts failed"))
    | _ => Response (list_response lincoln_high_school)
    end).

(** The K12 lookup answers three records, the HIGH_SCHOOL lookup answers 500. *)
Definition world_high_school_down : world :=
  example_world (fun n _ =>
    match n with
    | 0%nat => Response (list_response lincoln_k12)
    | _ => Response {| status_code := 500; body := None |}
    end).

Definition upper_case_url : pystr :=
  u "https://services.sheerid.com/verify/abc?verificationId=0123456789ABCDEF01234567".

(** The one-character line with SUPERSCRIPT TWO (U+00B2). *)
Definition superscript_two : pystr := [178%N].

(** Step 2 answers 200, step 4 answers 503. *)
Definition world_step4_refused : world :=
  example_world (fun n _ =>
    match n with
    | 2%nat => Response (plain_response 503)
    | _ => Response (plain_response 200)
    end).

(** Step 2 answers 200, the SSO skip times out. *)
Definition world_sso_timeout : world :=
  example_world (fun n _ =>
    match n with
    | 1%nat => Raises (TimeoutException (u "timed out"))
    | _ => Response (plain_response 200)
    end).

(** A record as the directory may return it: an identifier and no name. *)
Definition school_without_name : json := JObj [(u "id", JInt 4821)].

(** The result of [submit_sheerid] for an exception [e] caught. *)
Definition failure_of (rt : runtime) (e : exn) : submission_result :=
  {| success := false;
     message := match e with
                | TimeoutException _ => u "Request timeout - please try again"
                | _ => u "Submission error: " ++ exn_str rt e
                end |}.

(** The K12 lookup answers a list with an element that is no object. *)
Definition world_number_in_list : world :=
  example_world (fun n _ =>
    match n with
    | 0%nat => Response (list_response [record (JInt 11) "Lincoln High School"; JInt 7])
    | _ => Response (list_response lincoln_high_school)
    end).

(** A line [display_schools_cli] answers with a new prompt, for [count]
    candidates: no digit string, or a number out of range. *)
Definition rejected_choice (rt : runtime) (count : nat) (raw : pystr) : Prop :=
  isdigit rt (strip rt raw) = false
  \/ exists n, int_of_str rt (strip rt raw) = Some n /\ (n < 1 \/ Z.of_nat count < n).

(** A word: at least one character, none of them a blank. *)
Definition is_word (rt : runtime) (word : pystr) : Prop :=
  word <> [] /\ Forall (fun c => unicode_isspace rt c = false) word.

(** The key [f"school_{idx}"]. *)
Definition school_key (idx : nat) : pystr := u "school_" ++ str_int (Z.of_nat idx).

(** A key that does not start with the letter [s]: none of the keys the
    school loop writes. *)
Definition not_school_key (key : pystr) : bool :=
  match key with
  | [] => true
  | c :: _ => negb (c =? 115)%N
  end.

(** The school names among the lines: the lines that are not empty once
    stripped, in their order. *)
Definition nonempty (s : pystr) : bool :=
  match s with
  | [] => false
  | _ => true
  end.

Definition names_asked (rt : runtime) (lines : list pystr) : list pystr :=
  filter nonempty (map (strip rt) lines).

(** The two requests of one search. *)
Definition search_requests (query : pystr) : list request :=
  [K12_request query; HIGH_SCHOOL_request query].

(** The first search finds nothing, the second one the Lincoln records. *)
Definition world_two_searches : world :=
  example_world (fun n _ =>
    match n with
    | 0%nat => Response (list_response [])
    | 1%nat => Raises (TransportError (u "connection reset"))
    | 2%nat => Response (list_response lincoln_k12)
    | _ => Response (list_response lincoln_high_school)
    end).

(** The lines of an operator who errs once at every prompt. *)
Definition example_choice_lines : list pystr := [u "x"; u "9"; u "2"; u "1"].
Definition example_school_lines : list pystr :=
  [u ""; u "Nowhere"; u "Lincoln High"] ++ example_choice_lines.
Definition example_lines : list pystr :=
  [u "https://services.sheerid.com/verify/abc";
   u "https://services.sheerid.com/verify/abc?verificationId=0123456789abcdef01234567";
   u "Madonna"; u "  Elizabeth   Anne Bradly ";
   u "e.bradly"; u "e.bradly@clinton.example"] ++ example_school_lines.

Definition example_session : session :=
  {| session_verification_id := example_id;
     session_first_name := u "Elizabeth";
     session_last_name := u "Anne Bradly";
     session_full_name := u "Elizabeth   Anne Bradly";
     session_email := u "e.bradly@clinton.example";
     session_school := record (JInt 12) "Lincoln Elementary";
     session_school_name := JStr (u "Lincoln Elementary") |}.

Definition example_flow : flow :=
  snd (collect_session latin1 world_two_searches example_lines).

Definition example_school_flow : flow :=
  snd (ask_school latin1 world_two_searches 0 0 [] example_school_lines).

(** ** Running programs: general facts *)

Ltac run_step := cbn [run app]; rewrite ?app_nil_r.

Arguments u : simpl never.
Arguments str_int : simpl never.

Lemma run_bind {A B : Type} (w : world) (p : io A) (f : A -> io B) :
  forall calls draws,
    run w (bind p f) calls draws =
    let '(o, t, (c, d)) := run w p calls draws in
    match o with
    | Ok a => let '(o2, t2, s2) := run w (f a) c d in (o2, t ++ t2, s2)
    | Exn e => (Exn e, t, (c, d))
    end.
Proof.
  induction p as [a | e | r k IH | b k IH | k IH]; intros calls draws; simpl.
  - destruct (run w (f a) calls draws) as [[o2 t2] s2]. reflexivity.
  - reflexivity.
  - rewrite IH.
    destruct (run w (k (net w calls r)) (S calls) draws) as [[o t] [c d]].
    destruct o as [a | e]; [| reflexivity].
    destruct (run w (f a) c d) as [[o2 t2] s2]. reflexivity.
  - apply IH.
  - apply IH.
Qed.

Lemma run_try_except {A : Type} (w : world) (p : io A) (h : exn -> io A) :
  forall calls draws,
    run w (try_except p h) calls draws =
    let '(o, t, (c, d)) := run w p calls draws in
    match o with
    | Ok a => (Ok a, t, (c, d))
    | Exn e => let '(o2, t2, s2) := run w (h e) c d in (o2, t ++ t2, s2)
    end.
Proof.
  induction p as [a | e | r k IH | b k IH | k IH]; intros calls draws; simpl.
  - reflexivity.
  - destruct (run w (h e) calls draws) as [[o2 t2] s2]. reflexivity.
  - rewrite IH.
    destruct (run w (k (net w calls r)) (S calls) draws) as [[o t] [c d]].
    destruct o as [a | e]; [reflexivity |].
    destruct (run w (h e) c d) as [[o2 t2] s2]. reflexivity.
  - apply IH.
  - apply IH.
Qed.

Lemma run_lift {A : Type} (w : world) (o : outcome A) (calls draws : nat) :
  run w (lift o) calls draws = (o, [], (calls, draws)).
Proof. destruct o; reflexivity. Qed.

Lemma run_client_call (w : world) (r : request) (calls draws : nat) :
  run w (client_call r) calls draws =
  (match net w calls r with Response resp => Ok resp | Raises e => Exn e end,
   [r], (S calls, draws)).
Proof.
  unfold client_call. simpl. destruct (net w calls r); reflexivity.
Qed.

(** ** search_schools *)

Lemma run_search_one (w : world) (query : pystr) (all_schools : list json)
  (school_type : pystr) (calls draws : nat) :
  run w (search_one query all_schools school_type) calls draws =
  (Ok (all_schools ++ category_records (net w calls (search_request school_type query))),
   [search_request school_type query], (S calls, draws)).
Proof.
  unfold search_one. rewrite run_try_except, run_bind, run_client_call.
  destruct (net w calls (search_request school_type query)) as [resp | e]; simpl.
  - destruct (status_code resp =? 200); simpl.
    + unfold response_json.
      destruct (body resp) as [data |]; simpl.
      * destruct data; simpl; rewrite ?app_nil_r; reflexivity.
      * rewrite app_nil_r. reflexivity.
    + rewrite app_nil_r. reflexivity.
  - rewrite app_nil_r. reflexivity.
Qed.

Lemma run_search_schools (w : world) (query : pystr) :
  run w (search_schools query) 0 0 =
  (match unique_loop (category_records (net w 0%nat (K12_request query))
                      ++ category_records (net w 1%nat (HIGH_SCHOOL_request query)))
                     [] [] with
   | Ok unique_schools => Ok (firstn 20 unique_schools)
   | Exn e => Exn e
   end,
   [K12_request query; HIGH_SCHOOL_request query], (2%nat, 0%nat)).
Proof.
  unfold search_schools.
  change (search_all query [u "K12"; u "HIGH_SCHOOL"] [])
    with (a <- search_one query [] (u "K12") ;;
          b <- search_one query a (u "HIGH_SCHOOL") ;; Ret b).
  rewrite !run_bind, run_search_one. run_step.
  rewrite run_bind, run_search_one. run_step.
  rewrite run_bind, run_lift. run_step.
  unfold K12_request, HIGH_SCHOOL_request.
  destruct (unique_loop _ [] []); reflexivity.
Qed.

Lemma pystr_eqb_eq (a b : pystr) : pystr_eqb a b = true <-> a = b.
Proof.
  unfold pystr_eqb. destruct (list_eq_dec N.eq_dec a b); split; congruence.
Qed.

Lemma hkey_eqb_eq (a b : hkey) : hkey_eqb a b = true <-> a = b.
Proof.
  destruct a, b; simpl; split; intros H; try congruence; try discriminate.
  - apply Z.eqb_eq in H. congruence.
  - apply Z.eqb_eq. congruence.
  - apply pystr_eqb_eq in H. congruence.
  - apply pystr_eqb_eq. congruence.
Qed.

Lemma seen_spec (k : hkey) (seen : list hkey) :
  existsb (hkey_eqb k) seen = true <-> In k seen.
Proof.
  rewrite existsb_exists. split.
  - intros [x [Hin Heq]]. apply hkey_eqb_eq in Heq. subst. exact Hin.
  - intros Hin. exists k. split; [exact Hin | apply hkey_eqb_eq; reflexivity].
Qed.

(** The loop computes the deduplication of the records that have an
    identifier, and it only finishes when each such identifier is a key. *)
Lemma unique_loop_refines (all_schools : list json) :
  forall seen acc out,
    unique_loop all_schools seen acc = Ok out ->
    out = acc ++ dedup_by_identifier seen (filter has_identifier all_schools)
    /\ Forall (fun r => identifier r <> None) (filter has_identifier all_schools).
Proof.
  induction all_schools as [| school rest IH]; intros seen acc out H.
  - simpl in *. injection H as <-. rewrite app_nil_r. split; constructor.
  - cbn [unique_loop filter] in H |- *.
    destruct (dict_get school (u "id") JNull) as [school_id | e] eqn:Hget;
      [| discriminate].
    assert (Hhas : has_identifier school = truthy school_id)
      by (unfold has_identifier; rewrite Hget; reflexivity).
    assert (Hident : identifier school = hash_key school_id)
      by (unfold identifier; rewrite Hget; reflexivity).
    rewrite Hhas.
    destruct (truthy school_id) eqn:Htruthy.
    + cbn [dedup_by_identifier]. rewrite Hident.
      destruct (hash_key school_id) as [key |] eqn:Hkey; [| discriminate].
      destruct (existsb (hkey_eqb key) seen) eqn:Hseen; cbn [negb] in H.
      * destruct (IH _ _ _ H) as [Hout Hall]. split; [exact Hout |].
        constructor; [| exact Hall]. rewrite Hident. discriminate.
      * destruct (IH _ _ _ H) as [Hout Hall]. split.
        -- rewrite Hout, <- app_assoc. reflexivity.
        -- constructor; [| exact Hall]. rewrite Hident. discriminate.
    + apply IH. exact H.
Qed.

(** On records it can process the loop finishes. *)
Lemma unique_loop_total (all_schools : list json) :
  forallb record_ok all_schools = true ->
  forall seen acc, exists out, unique_loop all_schools seen acc = Ok out.
Proof.
  induction all_schools as [| school rest IH]; intros Hok seen acc.
  - exists acc. reflexivity.
  - cbn [forallb] in Hok. apply andb_true_iff in Hok. destruct Hok as [Hschool Hrest].
    cbn [unique_loop].
    destruct school as [| b | n | s | items | fields]; try discriminate.
    unfold record_ok, has_identifier, identifier in Hschool.
    destruct (dict_get (JObj fields) (u "id") JNull) as [school_id | e] eqn:Hget.
    + destruct (truthy school_id).
      * destruct (hash_key school_id) as [key |]; [| discriminate].
        destruct (existsb (hkey_eqb key) seen); cbn [negb]; apply IH; exact Hrest.
      * apply IH. exact Hrest.
    + unfold dict_get in Hget. destruct (lookup (u "id") fields); discriminate.
Qed.

Lemma dedup_identifiers (records : list json) :
  Forall (fun r => identifier r <> None) records ->
  forall seen,
    NoDup (map identifier (dedup_by_identifier seen records))
    /\ (forall k, In k seen ->
                  ~ In (Some k) (map identifier (dedup_by_identifier seen records))).
Proof.
  induction 1 as [| r rest Hr Hrest IH]; intros seen.
  - simpl. split; [constructor | intros k _ []].
  - cbn [dedup_by_identifier].
    destruct (identifier r) as [key |] eqn:Hid; [| congruence].
    destruct (existsb (hkey_eqb key) seen) eqn:Hseen.
    + apply IH.
    + destruct (IH (key :: seen)) as [Hnodup Hfresh].
      cbn [map]. rewrite Hid. split.
      * constructor; [| exact Hnodup]. apply Hfresh. left. reflexivity.
      * intros k Hk [Heq | Hin].
        -- injection Heq as ->.
           apply seen_spec in Hk. congruence.
        -- apply (Hfresh k); [right; exact Hk | exact Hin].
Qed.

Lemma NoDup_firstn {A : Type} (n : nat) (l : list A) : NoDup l -> NoDup (firstn n l).
Proof.
  intros H. rewrite <- (firstn_skipn n l) in H.
  apply NoDup_app_remove_r in H. exact H.
Qed.

(** Every record that stays has an identifier that counts as true. *)
Lemma dedup_keeps_filtered (records : list json) :
  forall seen r,
    In r (dedup_by_identifier seen (filter has_identifier records)) ->
    has_identifier r = true.
Proof.
  induction records as [| x rest IH]; intros seen r Hin.
  - destruct Hin.
  - cbn [filter] in Hin. destruct (has_identifier x) eqn:Hx.
    + cbn [dedup_by_identifier] in Hin.
      destruct (identifier x) as [key |].
      * destruct (existsb (hkey_eqb key) seen).
        -- apply (IH _ _ Hin).
        -- destruct Hin as [<- | Hin]; [exact Hx | apply (IH _ _ Hin)].
      * destruct Hin as [<- | Hin]; [exact Hx | apply (IH _ _ Hin)].
    + apply (IH _ _ Hin).
Qed.

Lemma In_firstn {A : Type} (n : nat) (l : list A) (x : A) :
  In x (firstn n l) -> In x l.
Proof.
  intros H. rewrite <- (firstn_skipn n l). apply in_or_app. left. exact H.
Qed.

Lemma result_of_search_schools (w : world) (query : pystr) :
  result_of (run w (search_schools query) 0 0) =
  match unique_loop (category_records (net w 0%nat (K12_request query))
                     ++ category_records (net w 1%nat (HIGH_SCHOOL_request query)))
                    [] [] with
  | Ok unique_schools => Ok (firstn 20 unique_schools)
  | Exn e => Exn e
  end.
Proof. rewrite run_search_schools. reflexivity. Qed.

Lemma failed_lookup_contributes_nothing (x : reply) :
  lookup_failed x -> category_records x = [].
Proof.
  destruct x as [resp | e]; simpl; [| reflexivity].
  intros [Hstatus | Hbody].
  - apply Z.eqb_neq in Hstatus. rewrite Hstatus. reflexivity.
  - destruct (status_code resp =? 200); [| reflexivity].
    destruct (body resp) as [[| | | | items |] |]; try reflexivity.
    exfalso. apply (Hbody items). reflexivity.
Qed.

Lemma category_records_ok (items : list json) :
  category_records (Response {| status_code := 200; body := Some (JArr items) |}) = items.
Proof. reflexivity. Qed.

Lemma no_candidates_contributes_nothing (x : reply) :
  no_candidates x -> category_records x = [].
Proof.
  intros [H | ->]; [apply failed_lookup_contributes_nothing; exact H | reflexivity].
Qed.

(** What the loop and the cut make of the collected records. *)
Lemma unique_loop_result (records : list json) :
  (forall out,
      match unique_loop records [] [] with
      | Ok unique_schools => Ok (firstn 20 unique_schools)
      | Exn e => Exn e
      end = Ok out ->
      out = firstn 20 (dedup_by_identifier [] (filter has_identifier records)))
  /\ (forallb record_ok records = true ->
      match unique_loop records [] [] with
      | Ok unique_schools => Ok (firstn 20 unique_schools)
      | Exn e => Exn e
      end = Ok (firstn 20 (dedup_by_identifier [] (filter has_identifier records)))).
Proof.
  assert (Hlater : forall out,
             match unique_loop records [] [] with
             | Ok unique_schools => Ok (firstn 20 unique_schools)
             | Exn e => Exn e
             end = Ok out ->
             out = firstn 20 (dedup_by_identifier [] (filter has_identifier records))).
  { intros out H.
    destruct (unique_loop records [] []) as [unique_schools | e] eqn:Hloop;
      [| discriminate].
    assert (Hfirst : out = firstn 20 unique_schools) by congruence.
    subst out. clear H.
    destruct (unique_loop_refines _ _ _ _ Hloop) as [Hout _].
    cbn [app] in Hout. subst unique_schools. reflexivity. }
  split; [exact Hlater |].
  intros Hok.
  destruct (unique_loop_total _ Hok [] []) as [unique_schools Hloop].
  assert (Hout : firstn 20 unique_schools
                 = firstn 20 (dedup_by_identifier [] (filter has_identifier records)))
    by (apply Hlater; rewrite Hloop; reflexivity).
  rewrite Hloop, Hout. reflexivity.
Qed.

(** C5: the two category lookups are always both issued, in the order K12,
    HIGH_SCHOOL, whatever the first one did.  When one lookup failed (status
    other than 200, body that is no list, exception) and the other answered
    200 with a list, a result is made of the records of that list alone:
    those with an identifier that counts as true, deduplicated, the first
    20; and on records the loop can process this result is returned.  When
    each lookup failed or answered the empty list, the result is the empty
    list, not an exception. *)
Theorem search_schools_isolates_failures (w : world) (query : pystr) :
  let k12 := net w 0%nat (K12_request query) in
  let high_school := net w 1%nat (HIGH_SCHOOL_request query) in
  let result := result_of (run w (search_schools query) 0 0) in
  requests_of (run w (search_schools query) 0 0)
  = [K12_request query; HIGH_SCHOOL_request query]
  /\ (forall items,
        lookup_failed k12 ->
        high_school = Response {| status_code := 200; body := Some (JArr items) |} ->
        (forall out, result = Ok out -> out = resolve_with_identifier [] items)
        /\ (forallb record_ok items = true ->
            result = Ok (resolve_with_identifier [] items)))
  /\ (forall items,
        k12 = Response {| status_code := 200; body := Some (JArr items) |} ->
        lookup_failed high_school ->
        (forall out, result = Ok out -> out = resolve_with_identifier items [])
        /\ (forallb record_ok items = true ->
            result = Ok (resolve_with_identifier items [])))
  /\ (no_candidates k12 -> no_candidates high_school -> result = Ok []).
Proof.
  intros k12 high_school result. subst result.
  rewrite result_of_search_schools. fold k12 high_school.
  split; [rewrite run_search_schools; reflexivity |].
  split; [| split].
  - intros items Hfail Hhigh.
    rewrite (failed_lookup_contributes_nothing _ Hfail), Hhigh, category_records_ok.
    unfold resolve_with_identifier. cbn [app].
    apply unique_loop_result.
  - intros items Hk12 Hfail.
    rewrite (failed_lookup_contributes_nothing _ Hfail), Hk12, category_records_ok.
    unfold resolve_with_identifier. rewrite !app_nil_r.
    apply unique_loop_result.
  - intros H1 H2.
    rewrite (no_candidates_contributes_nothing _ H1), (no_candidates_contributes_nothing _ H2).
    reflexivity.
Qed.

(** C4, as amended: when both lookups answer 200 with a list, a result of
    [search_schools] is the concatenation of the two lists in category
    order, restricted to the records whose identifier counts as true,
    deduplicated by identifier (first occurrence kept, order kept) and cut
    to the first 20; no identifier occurs twice in it and it has at most 20
    records.  On lists of records the loop can process, this result is
    returned. *)
Theorem search_schools_aggregation (w : world) (query : pystr)
  (k12 high_school : list json) :
  net w 0%nat (K12_request query)
  = Response {| status_code := 200; body := Some (JArr k12) |} ->
  net w 1%nat (HIGH_SCHOOL_request query)
  = Response {| status_code := 200; body := Some (JArr high_school) |} ->
  (forall out,
      result_of (run w (search_schools query) 0 0) = Ok out ->
      out = resolve_with_identifier k12 high_school
      /\ NoDup (map identifier out)
      /\ (List.length out <= 20)%nat)
  /\ (forallb record_ok (k12 ++ high_school) = true ->
      result_of (run w (search_schools query) 0 0)
      = Ok (resolve_with_identifier k12 high_school)).
Proof.
  intros Hk12 Hhigh.
  rewrite result_of_search_schools, Hk12, Hhigh, !category_records_ok.
  assert (Hlater : forall out,
             match unique_loop (k12 ++ high_school) [] [] with
             | Ok unique_schools => Ok (firstn 20 unique_schools)
             | Exn e => Exn e
             end = Ok out ->
             out = resolve_with_identifier k12 high_school
             /\ NoDup (map identifier out) /\ (List.length out <= 20)%nat).
  { intros out H.
    destruct (unique_loop (k12 ++ high_school) [] []) as [unique_schools | e] eqn:Hloop;
      [| discriminate].
    assert (Hfirst : out = firstn 20 unique_schools) by congruence.
    subst out. clear H.
    destruct (unique_loop_refines _ _ _ _ Hloop) as [Hout Hall].
    cbn [app] in Hout. subst unique_schools.
    split; [reflexivity |]. split.
    - rewrite <- firstn_map. apply NoDup_firstn.
      apply (dedup_identifiers _ Hall []).
    - apply firstn_le_length. }
  split; [exact Hlater |].
  intros Hok.
  destruct (unique_loop_total _ Hok [] []) as [unique_schools Hloop].
  destruct (Hlater (firstn 20 unique_schools)) as [Hout _].
  - rewrite Hloop. reflexivity.
  - rewrite Hloop, Hout. reflexivity.
Qed.

(** C9: a record whose identifier is absent or counts as false ([0], [None],
    the empty string, [False]) is in no result of [search_schools]. *)
Theorem search_schools_requires_identifier (w : world) (query : pystr)
  (out : list json) (r : json) :
  result_of (run w (search_schools query) 0 0) = Ok out ->
  has_identifier r = false ->
  ~ In r out.
Proof.
  intros Hout Hfalse Hin.
  rewrite result_of_search_schools in Hout.
  destruct (unique_loop _ [] []) as [unique_schools | e] eqn:Hloop; [| discriminate].
  assert (Hfirst : out = firstn 20 unique_schools) by congruence.
  subst out. clear Hout.
  destruct (unique_loop_refines _ _ _ _ Hloop) as [Hunique _].
  cbn [app] in Hunique. subst unique_schools.
  apply In_firstn, dedup_keeps_filtered in Hin. congruence.
Qed.

(** ** The derived values of a submission *)

Lemma run_random_hex (w : world) (n : nat) :
  forall calls draws,
    run w (random_hex n) calls draws = (Ok (drawn_hex w draws n), [], (calls, (n + draws)%nat)).
Proof.
  induction n as [| n IH]; intros calls draws.
  - reflexivity.
  - cbn [random_hex drawn_hex]. rewrite run_bind.
    unfold random_choice. change (N.of_nat (List.length HEXDIGITS)) with 16%N.
    run_step. rewrite run_bind, IH. run_step.
    replace (n + S draws)%nat with (S n + draws)%nat by lia. reflexivity.
Qed.

Lemma run_init_values (w : world) (calls draws : nat) :
  run w init_values calls draws =
  match minus_days (today w) (drawn_age w draws * 365) with
  | Ok birth =>
      (Ok (drawn_age w draws, strftime_ymd birth, drawn_hex w (S draws) 32), [],
       (calls, (33 + draws)%nat))
  | Exn e => (Exn e, [], (calls, S draws))
  end.
Proof.
  unfold init_values. rewrite run_bind. unfold random_randint.
  change (Z.to_N (60 - 25 + 1)) with 36%N. run_step. fold (drawn_age w draws).
  rewrite run_bind. run_step. rewrite run_lift.
  destruct (minus_days (today w) (drawn_age w draws * 365)) as [birth | e]; [| reflexivity].
  rewrite run_bind, run_random_hex. run_step.
  replace (32 + S draws)%nat with (33 + draws)%nat by lia. reflexivity.
Qed.

Lemma run_init_values_ok (w : world) (calls draws : nat) (v : Z * pystr * pystr) :
  result_of (run w init_values calls draws) = Ok v ->
  run w init_values calls draws = (Ok v, [], (calls, (33 + draws)%nat)).
Proof.
  rewrite run_init_values.
  destruct (minus_days (today w) (drawn_age w draws * 365)); unfold result_of; simpl;
    intros H; congruence.
Qed.

Lemma drawn_age_range (w : world) (d : nat) : 25 <= drawn_age w d <= 60.
Proof.
  unfold drawn_age.
  assert (H : (entropy w d mod 36 < 36)%N) by (apply N.mod_lt; discriminate).
  generalize dependent (entropy w d mod 36)%N. intros m H. lia.
Qed.

Lemma hexdigits_lower (i : nat) : (i < 16)%nat -> lower_hex (nth i HEXDIGITS 0%N) = true.
Proof.
  intros H. do 16 (destruct i as [| i]; [reflexivity |]). lia.
Qed.

Lemma drawn_hex_spec (w : world) (n : nat) :
  forall d,
    List.length (drawn_hex w d n) = n
    /\ Forall (fun c => lower_hex c = true) (drawn_hex w d n).
Proof.
  induction n as [| n IH]; intros d; cbn [drawn_hex].
  - split; [reflexivity | constructor].
  - destruct (IH (S d)) as [Hlen Hall]. split.
    + cbn [List.length]. rewrite Hlen. reflexivity.
    + constructor; [| exact Hall]. apply hexdigits_lower.
      assert (H : (entropy w d mod 16 < 16)%N) by (apply N.mod_lt; discriminate).
      generalize dependent (entropy w d mod 16)%N. intros m H. lia.
Qed.

(** C7, as amended: the age is an integer from 25 to 60, the birth date is
    the calendar date [365 * age] days before the current one, written as
    year-month-day, and the device fingerprint is 32 characters, each a
    lower-case hexadecimal digit; no request is sent for it. *)
Theorem init_values_derivation (w : world) :
  60 * 365 < today w ->
  exists age device_fp,
    run w init_values 0 0
    = (Ok (age, strftime_ymd (ord2ymd (today w - age * 365)), device_fp), [],
       (0%nat, 33%nat))
    /\ 25 <= age <= 60
    /\ List.length device_fp = 32%nat
    /\ Forall (fun c => lower_hex c = true) device_fp.
Proof.
  intros Hclock.
  exists (drawn_age w 0), (drawn_hex w 1 32).
  pose proof (drawn_age_range w 0) as Hage.
  destruct (drawn_hex_spec w 32 1) as [Hlen Hall].
  split; [| split; [exact Hage | split; [exact Hlen | exact Hall]]].
  rewrite run_init_values. unfold minus_days.
  replace (today w - drawn_age w 0 * 365 <? 1) with false
    by (symmetry; apply Z.ltb_ge; lia).
  reflexivity.
Qed.

(** ** submit_sheerid *)

(** Once the derived values exist and the body of step 2 is built, the run
    goes on with the request of step 2. *)
Lemma run_submit_from_step2 (rt : runtime) (w : world)
  (verification_id first_name last_name email : pystr) (school : json)
  (pdf_data png_data : list Byte.byte) (age : Z) (birth_date device_fp : pystr)
  (body2 : json) :
  result_of (run w init_values 0 0) = Ok (age, birth_date, device_fp) ->
  step2_body rt first_name last_name email birth_date device_fp school = Ok body2 ->
  run w (submit_sheerid rt verification_id first_name last_name email school
                        pdf_data png_data) 0 0
  = run w (try_except
             (step2_resp <- client_post (step2_url verification_id) (Some body2) ;;
              if negb (status_code step2_resp =? 200) then Ret (step2_failed step2_resp)
              else after_step2 verification_id pdf_data png_data)
             (submit_handler rt)) 0 33.
Proof.
  intros Hinit Hbody. unfold submit_sheerid.
  rewrite !run_try_except, run_bind, (run_init_values_ok _ _ _ _ Hinit). run_step.
  rewrite run_bind, Hbody, run_lift. run_step.
  unfold step2_failed. change (33 + 0)%nat with 33%nat.
  destruct (run w _ 0 33) as [[o t] [c d]]. reflexivity.
Qed.

Lemma getitem_first (doc0 doc1 : json) (more : list json) :
  getitem (JArr (doc0 :: doc1 :: more)) (JInt 0) = Ok doc0.
Proof.
  unfold getitem, index_of. change (0 <? 0) with false. cbv iota.
  replace (0 <? Z.of_nat (List.length (doc0 :: doc1 :: more))) with true
    by (symmetry; apply Z.ltb_lt; cbn [List.length]; lia).
  reflexivity.
Qed.

Lemma getitem_second (doc0 doc1 : json) (more : list json) :
  getitem (JArr (doc0 :: doc1 :: more)) (JInt 1) = Ok doc1.
Proof.
  unfold getitem, index_of. change (1 <? 0) with false. cbv iota.
  replace (1 <? Z.of_nat (List.length (doc0 :: doc1 :: more))) with true
    by (symmetry; apply Z.ltb_lt; cbn [List.length]; lia).
  reflexivity.
Qed.

(** Steps 5 and 6 when each call gets a response. *)
Lemma run_upload_and_complete (w : world) (verification_id : pystr)
  (doc0 doc1 : json) (more : list json) (pdf_url png_url : json)
  (pdf_data png_data : list Byte.byte) (pdf_upload png_upload complete_resp : response)
  (calls draws : nat) :
  getitem doc0 (JStr (u "uploadUrl")) = Ok pdf_url ->
  getitem doc1 (JStr (u "uploadUrl")) = Ok png_url ->
  net w calls (pdf_request pdf_url pdf_data) = Response pdf_upload ->
  net w (S calls) (png_request png_url png_data) = Response png_upload ->
  net w (S (S calls)) (complete_request verification_id) = Response complete_resp ->
  run w (upload_and_complete verification_id (JArr (doc0 :: doc1 :: more))
                             pdf_data png_data) calls draws
  = (Ok submitted,
     [pdf_request pdf_url pdf_data; png_request png_url png_data;
      complete_request verification_id],
     (S (S (S calls)), draws)).
Proof.
  intros Hpdf Hpng Hput0 Hput1 Hcomplete. unfold upload_and_complete.
  rewrite run_bind, getitem_first, run_lift. run_step.
  rewrite run_bind, Hpdf, run_lift. run_step.
  unfold client_put, client_post.
  rewrite run_bind, run_client_call. fold (pdf_request pdf_url pdf_data).
  rewrite Hput0. run_step.
  rewrite run_bind, getitem_second, run_lift. run_step.
  rewrite run_bind, Hpng, run_lift. run_step.
  rewrite run_bind, run_client_call. fold (png_request png_url png_data).
  rewrite Hput1. run_step.
  rewrite run_bind, run_client_call. fold (complete_request verification_id).
  rewrite Hcomplete. run_step.
  reflexivity.
Qed.

(** Steps 3 and 4 when both get a response and step 4 answers 200 with a
    body that holds a list of documents. *)
Lemma run_after_step2 (w : world) (verification_id : pystr)
  (pdf_data png_data : list Byte.byte) (sso_resp step4_resp : response)
  (step4_data : json) (docs : list json) (calls draws : nat) :
  net w calls (sso_request verification_id) = Response sso_resp ->
  net w (S calls) (step4_request verification_id pdf_data png_data) = Response step4_resp ->
  status_code step4_resp = 200 ->
  body step4_resp = Some step4_data ->
  dict_get step4_data (u "documents") (JArr []) = Ok (JArr docs) ->
  run w (after_step2 verification_id pdf_data png_data) calls draws
  = if (List.length docs <? 2)%nat
    then (Ok no_upload_urls,
          [sso_request verification_id;
           step4_request verification_id pdf_data png_data],
          (S (S calls), draws))
    else
      let '(o, t, s) :=
        run w (upload_and_complete verification_id (JArr docs) pdf_data png_data)
            (S (S calls)) draws in
      (o, sso_request verification_id
          :: step4_request verification_id pdf_data png_data :: t, s).
Proof.
  intros Hsso Hstep4 Hstatus Hbody Hdocs. unfold after_step2, client_delete, client_post.
  rewrite run_bind, run_client_call. fold (sso_request verification_id).
  rewrite Hsso. run_step.
  rewrite run_bind, run_client_call.
  fold (step4_request verification_id pdf_data png_data).
  rewrite Hstep4. run_step.
  rewrite Hstatus. change (negb (200 =? 200)) with false. cbv iota.
  unfold response_json. rewrite Hbody, run_bind. run_step.
  rewrite run_bind, Hdocs, run_lift. run_step.
  rewrite run_bind. cbn [py_len]. rewrite run_lift. run_step.
  destruct (List.length docs <? 2)%nat.
  - reflexivity.
  - destruct (run w _ (S (S calls)) draws) as [[o t] s]. reflexivity.
Qed.

Section SubmissionProperties.

Variable rt : runtime.
Variable w : world.
Variables verification_id first_name last_name email : pystr.
Variable school : json.
Variables pdf_data png_data : list Byte.byte.

(** The derived values of this run and the body they give step 2. *)
Variable age : Z.
Variables birth_date device_fp : pystr.
Variable body2 : json.

Let submit :=
  run w (submit_sheerid rt verification_id first_name last_name email school
                        pdf_data png_data) 0 0.

(** C2: when step 2 answers with a status other than 200, the result is a
    failure whose message carries that status, and the request of step 2
    is the only one sent. *)
Theorem step2_failure_halts (step2_resp : response) :
  result_of (run w init_values 0 0) = Ok (age, birth_date, device_fp) ->
  step2_body rt first_name last_name email birth_date device_fp school = Ok body2 ->
  net w 0%nat (step2_request verification_id body2) = Response step2_resp ->
  status_code step2_resp <> 200 ->
  result_of submit
  = Ok {| success := false;
          message := u "Step 2 failed: " ++ str_int (status_code step2_resp) |}
  /\ requests_of submit = [step2_request verification_id body2].
Proof.
  intros Hinit Hbody Hnet Hstatus. subst submit.
  rewrite (run_submit_from_step2 _ _ _ _ _ _ _ _ _ _ _ _ _ Hinit Hbody).
  rewrite run_try_except, run_bind. unfold client_post.
  rewrite run_client_call. fold (step2_request verification_id body2).
  rewrite Hnet. run_step.
  apply Z.eqb_neq in Hstatus. rewrite Hstatus. cbn [negb]. run_step.
  split; reflexivity.
Qed.

(** C3: when step 2 answers 200, the SSO call gets a response and step 4
    answers 200 with fewer than two documents, the result is the failure
    "No upload URLs received from SheerID"; the requests sent are those
    of step 2, of the SSO skip and of step 4, and no other. *)
Theorem too_few_documents_halts (step2_resp sso_resp step4_resp : response)
  (step4_data : json) (docs : list json) :
  result_of (run w init_values 0 0) = Ok (age, birth_date, device_fp) ->
  step2_body rt first_name last_name email birth_date device_fp school = Ok body2 ->
  net w 0%nat (step2_request verification_id body2) = Response step2_resp ->
  status_code step2_resp = 200 ->
  net w 1%nat (sso_request verification_id) = Response sso_resp ->
  net w 2%nat (step4_request verification_id pdf_data png_data) = Response step4_resp ->
  status_code step4_resp = 200 ->
  body step4_resp = Some step4_data ->
  dict_get step4_data (u "documents") (JArr []) = Ok (JArr docs) ->
  (List.length docs < 2)%nat ->
  result_of submit
  = Ok {| success := false; message := u "No upload URLs received from SheerID" |}
  /\ requests_of submit
     = [step2_request verification_id body2; sso_request verification_id;
        step4_request verification_id pdf_data png_data].
Proof.
  intros Hinit Hbody Hnet2 Hstatus2 Hsso Hnet4 Hstatus4 Hbody4 Hdocs Hfew. subst submit.
  rewrite (run_submit_from_step2 _ _ _ _ _ _ _ _ _ _ _ _ _ Hinit Hbody).
  rewrite run_try_except, run_bind. unfold client_post.
  rewrite run_client_call. fold (step2_request verification_id body2).
  rewrite Hnet2. run_step. rewrite Hstatus2. change (negb (200 =? 200)) with false.
  cbv iota.
  rewrite (run_after_step2 _ _ _ _ _ _ _ _ _ _ Hsso Hnet4 Hstatus4 Hbody4 Hdocs).
  apply Nat.ltb_lt in Hfew. rewrite Hfew. run_step.
  split; reflexivity.
Qed.

(** C1, as amended: when step 2 answers 200, step 4 answers 200 with at
    least two documents of which the first two carry an [uploadUrl], and
    the SSO call, the two transfers and the completion call each get a
    response, the result is the success "Submitted successfully" whatever
    the status codes of these four responses; the six requests are sent
    in order. *)
Theorem submission_succeeds (step2_resp sso_resp step4_resp : response)
  (step4_data doc0 doc1 pdf_url png_url : json) (more : list json)
  (pdf_upload png_upload complete_resp : response) :
  result_of (run w init_values 0 0) = Ok (age, birth_date, device_fp) ->
  step2_body rt first_name last_name email birth_date device_fp school = Ok body2 ->
  net w 0%nat (step2_request verification_id body2) = Response step2_resp ->
  status_code step2_resp = 200 ->
  net w 1%nat (sso_request verification_id) = Response sso_resp ->
  net w 2%nat (step4_request verification_id pdf_data png_data) = Response step4_resp ->
  status_code step4_resp = 200 ->
  body step4_resp = Some step4_data ->
  dict_get step4_data (u "documents") (JArr []) = Ok (JArr (doc0 :: doc1 :: more)) ->
  getitem doc0 (JStr (u "uploadUrl")) = Ok pdf_url ->
  getitem doc1 (JStr (u "uploadUrl")) = Ok png_url ->
  net w 3%nat (pdf_request pdf_url pdf_data) = Response pdf_upload ->
  net w 4%nat (png_request png_url png_data) = Response png_upload ->
  net w 5%nat (complete_request verification_id) = Response complete_resp ->
  result_of submit = Ok {| success := true; message := u "Submitted successfully" |}
  /\ requests_of submit
     = [step2_request verification_id body2; sso_request verification_id;
        step4_request verification_id pdf_data png_data;
        pdf_request pdf_url pdf_data; png_request png_url png_data;
        complete_request verification_id].
Proof.
  intros Hinit Hbody Hnet2 Hstatus2 Hsso Hnet4 Hstatus4 Hbody4 Hdocs
         Hpdf Hpng Hput0 Hput1 Hcomplete.
  subst submit.
  rewrite (run_submit_from_step2 _ _ _ _ _ _ _ _ _ _ _ _ _ Hinit Hbody).
  rewrite run_try_except, run_bind. unfold client_post.
  rewrite run_client_call. fold (step2_request verification_id body2).
  rewrite Hnet2. run_step. rewrite Hstatus2. change (negb (200 =? 200)) with false.
  cbv iota.
  rewrite (run_after_step2 _ _ _ _ _ _ _ _ _ _ Hsso Hnet4 Hstatus4 Hbody4 Hdocs).
  change (List.length (doc0 :: doc1 :: more) <? 2)%nat with false. cbv iota.
  rewrite (run_upload_and_complete _ _ _ _ _ _ _ _ _ _ _ _ _ _
             Hpdf Hpng Hput0 Hput1 Hcomplete).
  run_step. split; reflexivity.
Qed.

(** C10: when [int] rejects the identifier of the chosen school, the
    result is a failure whose message carries the text of the exception,
    and no request is sent. *)
Theorem bad_identifier_sends_nothing (raw_id : json) (e : exn) :
  result_of (run w init_values 0 0) = Ok (age, birth_date, device_fp) ->
  getitem school (JStr (u "id")) = Ok raw_id ->
  py_int rt raw_id = Exn e ->
  result_of submit
  = Ok {| success := false; message := u "Submission error: " ++ exn_str rt e |}
  /\ requests_of submit = [].
Proof.
  intros Hinit Hid Hint. subst submit. unfold submit_sheerid.
  rewrite run_try_except, run_bind, (run_init_values_ok _ _ _ _ Hinit). run_step.
  unfold step2_body. rewrite Hid, Hint, run_bind, run_lift. run_step.
  assert (Hhandler : submit_handler rt e
                     = Ret {| success := false;
                              message := u "Submission error: " ++ exn_str rt e |}).
  { unfold py_int in Hint.
    destruct raw_id as [| b | n | s | items | fields]; try discriminate;
      try (injection Hint as <-; reflexivity).
    destruct (int_of_str rt s); [discriminate | injection Hint as <-; reflexivity]. }
  rewrite Hhandler. run_step. split; reflexivity.
Qed.

End SubmissionProperties.

(** ** The verification identifier *)

Ltac split_comparisons :=
  repeat (cbv beta zeta; cbn [andb orb];
          match goal with
          | |- context [(?a <=? ?b)%N] => destruct (N.leb_spec a b)
          | |- context [(?a =? ?b)%N] => destruct (N.eqb_spec a b)
          end);
  cbv beta zeta; cbn [andb orb]; try reflexivity; try (exfalso; lia).

Lemma sre_lower_unicode_cases (c : codepoint) :
  ((65 <= c <= 90)%N /\ sre_lower_unicode c = (c + 32)%N)
  \/ (c = 304%N /\ sre_lower_unicode c = 105%N)
  \/ (c = 8490%N /\ sre_lower_unicode c = 107%N)
  \/ (((c < 65)%N \/ (90 < c)%N) /\ c <> 304%N /\ c <> 8490%N
      /\ sre_lower_unicode c = c).
Proof.
  unfold sre_lower_unicode.
  destruct (N.leb_spec 65 c), (N.leb_spec c 90), (N.eqb_spec c 304),
    (N.eqb_spec c 8490); cbn [andb];
    first [ left; split; [lia | reflexivity]
          | right; left; split; [assumption | reflexivity]
          | right; right; left; split; [assumption | reflexivity]
          | right; right; right; repeat split; solve [assumption | lia | reflexivity] ].
Qed.

Lemma class_hex_ignore_spec (c : codepoint) : class_hex_ignore c = hex_any_case c.
Proof.
  unfold class_hex_ignore, hex_any_case, lower_hex.
  destruct (sre_lower_unicode_cases c)
    as [[H ->] | [[-> ->] | [[-> ->] | [H [H304 [H8490 ->]]]]]];
    split_comparisons.
Qed.

Lemma literal_ignore_spec (p c : codepoint) :
  In p PATTERN_LITERAL -> literal_ignore p c = same_letter p c.
Proof.
  intros Hp. vm_compute in Hp.
  unfold literal_ignore, same_letter.
  remember (sre_lower_unicode c) as lc eqn:Hlc.
  remember (ascii_lower c) as ac eqn:Hac.
  repeat (destruct Hp as [<- | Hp]; [| ]); try contradiction;
    cbn; subst lc ac; unfold ascii_lower;
    destruct (sre_lower_unicode_cases c)
      as [[H ->] | [[-> ->] | [[-> ->] | [H [H304 [H8490 ->]]]]]];
    split_comparisons.
Qed.

Lemma match_literal_spec (pat : pystr) :
  forall s rest,
    match_literal pat s = Some rest
    <-> exists lit, s = lit ++ rest /\ Forall2 (fun p c => literal_ignore p c = true) pat lit.
Proof.
  induction pat as [| p pat IH]; intros s rest; cbn [match_literal].
  - split.
    + intros H. injection H as <-. exists []. split; [reflexivity | constructor].
    + intros [lit [Hs Hlit]]. inversion Hlit; subst. reflexivity.
  - destruct s as [| c s].
    + split; [discriminate |].
      intros [lit [Hs Hlit]]. inversion Hlit; subst. discriminate.
    + destruct (literal_ignore p c) eqn:Hpc.
      * rewrite IH. split.
        -- intros [lit [Hs Hlit]]. exists (c :: lit). subst s.
           split; [reflexivity | constructor; assumption].
        -- intros [lit [Hs Hlit]]. inversion Hlit as [| p' c' pat' lit' Hhead Htail]; subst.
           injection Hs as -> ->. exists lit'. split; [reflexivity | assumption].
      * split; [discriminate |].
        intros [lit [Hs Hlit]]. inversion Hlit as [| p' c' pat' lit' Hhead Htail]; subst.
        injection Hs as -> ->. congruence.
Qed.

Lemma match_class_spec (n : nat) :
  forall s g,
    match_class n s = Some g
    <-> exists rest, s = g ++ rest /\ List.length g = n
                     /\ Forall (fun c => class_hex_ignore c = true) g.
Proof.
  induction n as [| n IH]; intros s g; cbn [match_class].
  - split.
    + intros H. injection H as <-. exists s. repeat split. constructor.
    + intros [rest [Hs [Hlen Hall]]]. destruct g; [reflexivity | discriminate].
  - destruct s as [| c s].
    + split; [discriminate |].
      intros [rest [Hs [Hlen Hall]]]. destruct g; discriminate.
    + destruct (class_hex_ignore c) eqn:Hc.
      * split.
        -- intros H. destruct (match_class n s) as [g' |] eqn:Hg'; [| discriminate].
           injection H as <-. apply IH in Hg'. destruct Hg' as [rest [Hs [Hlen Hall]]].
           exists rest. subst s. cbn [List.length]. repeat split.
           ++ congruence.
           ++ constructor; assumption.
        -- intros [rest [Hs [Hlen Hall]]]. destruct g as [| c' g]; [discriminate |].
           injection Hs as -> ->. injection Hlen as Hlen. inversion Hall; subst.
           assert (Hg : match_class (List.length g) (g ++ rest) = Some g).
           { apply IH. exists rest. repeat split. assumption. }
           rewrite Hg. reflexivity.
      * split; [discriminate |].
        intros [rest [Hs [Hlen Hall]]]. destruct g as [| c' g]; [discriminate |].
        injection Hs as -> ->. inversion Hall; subst. congruence.
Qed.

Lemma Forall2_same_letter (pat lit : pystr) :
  (forall p, In p pat -> In p PATTERN_LITERAL) ->
  Forall2 (fun p c => literal_ignore p c = true) pat lit
  <-> Forall2 (fun p c => same_letter p c = true) pat lit.
Proof.
  revert lit. induction pat as [| p pat IH]; intros lit Hin; split; intros H;
    inversion H; subst; constructor;
    try (apply IH; [intros q Hq; apply Hin; right; exact Hq | assumption]).
  - rewrite <- literal_ignore_spec; [assumption | apply Hin; left; reflexivity].
  - rewrite literal_ignore_spec; [assumption | apply Hin; left; reflexivity].
Qed.

Lemma Forall_hex_any_case (g : pystr) :
  Forall (fun c => class_hex_ignore c = true) g
  <-> Forall (fun c => hex_any_case c = true) g.
Proof.
  split; intros H; induction H; constructor; try assumption.
  - rewrite <- class_hex_ignore_spec. assumption.
  - rewrite class_hex_ignore_spec. assumption.
Qed.

(** [match_here] finds exactly the matches that start at the head. *)
Lemma match_here_spec (s vid : pystr) : match_here s = Some vid <-> identifier_at s vid.
Proof.
  unfold match_here, identifier_at, ignorecase_literal, hex_text. split.
  - intros H. destruct (match_literal PATTERN_LITERAL s) as [rest |] eqn:Hlit;
      [| discriminate].
    apply match_literal_spec in Hlit. destruct Hlit as [lit [Hs Hlit]].
    apply match_class_spec in H. destruct H as [after [Hrest [Hlen Hall]]].
    exists lit, after. subst. repeat split.
    + apply Forall2_same_letter; [tauto | assumption].
    + assumption.
    + apply Forall_hex_any_case. assumption.
  - intros [lit [after [Hs [Hlit [Hlen Hall]]]]].
    assert (Hm : match_literal PATTERN_LITERAL s = Some (vid ++ after)).
    { apply match_literal_spec. exists lit. split; [assumption |].
      apply Forall2_same_letter; [tauto | assumption]. }
    rewrite Hm. apply match_class_spec. exists after. repeat split.
    + assumption.
    + apply Forall_hex_any_case. assumption.
Qed.

Lemma re_search_unfold (s : pystr) :
  re_search s = match match_here s with
                | Some g => Some g
                | None => match s with
                          | [] => None
                          | _ :: s' => re_search s'
                          end
                end.
Proof. destruct s; reflexivity. Qed.

Lemma re_search_sound (s : pystr) :
  forall vid,
    re_search s = Some vid ->
    exists before,
      match_here (skipn before s) = Some vid
      /\ forall earlier, (earlier < before)%nat -> match_here (skipn earlier s) = None.
Proof.
  induction s as [| c s IH]; intros vid H; rewrite re_search_unfold in H.
  - destruct (match_here []) as [g |] eqn:Hg; [| discriminate].
    exists O. split; [cbn [skipn]; congruence | intros earlier Hlt; lia].
  - destruct (match_here (c :: s)) as [g |] eqn:Hg.
    + exists O. split; [cbn [skipn]; congruence | intros earlier Hlt; lia].
    + destruct (IH _ H) as [before [Hat Hearlier]].
      exists (S before). split; [exact Hat |].
      intros [| earlier] Hlt; [exact Hg | apply Hearlier; lia].
Qed.

Lemma re_search_complete (before : nat) :
  forall s vid,
    match_here (skipn before s) = Some vid ->
    (forall earlier, (earlier < before)%nat -> match_here (skipn earlier s) = None) ->
    re_search s = Some vid.
Proof.
  induction before as [| before IH]; intros s vid Hat Hearlier; rewrite re_search_unfold.
  - cbn [skipn] in Hat. rewrite Hat. reflexivity.
  - assert (H0 : match_here s = None) by (apply (Hearlier O); lia).
    rewrite H0. destruct s as [| c s].
    + cbn [skipn] in Hat. congruence.
    + apply IH; [exact Hat |].
      intros earlier Hlt. apply (Hearlier (S earlier)). lia.
Qed.

Lemma re_search_none (s : pystr) :
  re_search s = None -> forall k, match_here (skipn k s) = None.
Proof.
  induction s as [| c s IH]; intros H k; rewrite re_search_unfold in H.
  - destruct (match_here []) eqn:Hg; [discriminate |].
    destruct k; exact Hg.
  - destruct (match_here (c :: s)) eqn:Hg; [discriminate |].
    destruct k as [| k]; [exact Hg | apply IH; exact H].
Qed.

(** C6, as amended: a line is accepted exactly when it contains, in either
    case of the letters, the text [verificationId=] followed by at least 24
    hexadecimal digits of either case; the identifier is then the first 24
    such digits after the leftmost such text, as they are written; a line
    that is not accepted leads to the next prompt. *)
Theorem verification_id_extraction (rt : runtime) (raw : pystr) (rest : list pystr) :
  let url := strip rt raw in
  ((exists vid, re_search url = Some vid) <-> contains_identifier url)
  /\ (forall vid, re_search url = Some vid <-> leftmost_identifier url vid)
  /\ (forall vid, re_search url = Some vid ->
                  ask_verification_id rt (raw :: rest) = (Ok vid, rest))
  /\ (re_search url = None ->
      ask_verification_id rt (raw :: rest) = ask_verification_id rt rest).
Proof.
  intros url. split; [| split; [| split]].
  - split.
    + intros [vid H]. destruct (re_search_sound _ _ H) as [before [Hat _]].
      exists before, vid. apply match_here_spec. exact Hat.
    + intros [before [vid Hat]]. apply match_here_spec in Hat.
      destruct (re_search url) as [found |] eqn:Hfound; [exists found; reflexivity |].
      rewrite (re_search_none _ Hfound before) in Hat. discriminate.
  - intros vid. split.
    + intros H. destruct (re_search_sound _ _ H) as [before [Hat Hearlier]].
      exists before. split; [apply match_here_spec; exact Hat |].
      intros earlier other Hlt Hother. apply match_here_spec in Hother.
      rewrite (Hearlier _ Hlt) in Hother. discriminate.
    + intros [before [Hat Hearlier]]. apply (re_search_complete before).
      * apply match_here_spec. exact Hat.
      * intros earlier Hlt.
        destruct (match_here (skipn earlier url)) as [other |] eqn:Hother;
          [| reflexivity].
        exfalso. apply (Hearlier earlier other Hlt). apply match_here_spec. exact Hother.
  - intros vid H. cbn [ask_verification_id]. fold url. rewrite H. reflexivity.
  - intros H. cbn [ask_verification_id]. fold url. rewrite H. reflexivity.
Qed.

(** ** display_schools_cli *)

Lemma choose_in_range (rt : runtime) (count : nat) (stdin : list pystr) :
  forall idx rest,
    choose rt count stdin = (Ok idx, rest) -> 0 <= idx < Z.of_nat count.
Proof.
  induction stdin as [| raw stdin IH]; intros idx rest H; cbn [choose] in H.
  - discriminate.
  - destruct (negb (isdigit rt (strip rt raw))); [apply (IH _ _ H) |].
    destruct (int_of_str rt (strip rt raw)) as [choice_int |]; [| discriminate].
    destruct ((1 <=? choice_int) && (choice_int <=? Z.of_nat count)) eqn:Hrange;
      [| apply (IH _ _ H)].
    injection H as <- <-. apply andb_true_iff in Hrange. lia.
Qed.

(** The loops read their lines through [prompt]. *)
Lemma choose_prompt (rt : runtime) (count : nat) (stdin : list pystr) :
  choose rt count stdin =
  match prompt rt stdin with
  | (Exn e, rest) => (Exn e, rest)
  | (Ok choice, rest) =>
      if negb (isdigit rt choice) then choose rt count rest
      else
        match int_of_str rt choice with
        | None => (Exn (ValueError choice), rest)
        | Some choice_int =>
            if (1 <=? choice_int) && (choice_int <=? Z.of_nat count)
            then (Ok (choice_int - 1), rest)
            else choose rt count rest
        end
  end.
Proof. destruct stdin; reflexivity. Qed.

Lemma ask_verification_id_prompt (rt : runtime) (stdin : list pystr) :
  ask_verification_id rt stdin =
  match prompt rt stdin with
  | (Exn e, rest) => (Exn e, rest)
  | (Ok url, rest) =>
      match re_search url with
      | Some verification_id => (Ok verification_id, rest)
      | None => ask_verification_id rt rest
      end
  end.
Proof. destruct stdin; reflexivity. Qed.

(** The URL of the documentation is accepted, a line without the
    parameter is asked again. *)
Lemma documented_url_accepted :
  ask_verification_id latin1
    [u "https://services.sheerid.com/verify/abc";
     u "https://services.sheerid.com/verify/abc?verificationId=0123456789abcdef01234567"]
  = (Ok (u "0123456789abcdef01234567"), []).
Proof. reflexivity. Qed.

(** A line that is no digit string, or whose number is out of range, leads
    to the next prompt. *)
Lemma choose_reprompts (rt : runtime) (count : nat) (raw : pystr) (rest : list pystr) :
  (isdigit rt (strip rt raw) = false ->
   choose rt count (raw :: rest) = choose rt count rest)
  /\ (forall n,
         isdigit rt (strip rt raw) = true ->
         int_of_str rt (strip rt raw) = Some n ->
         n < 1 \/ Z.of_nat count < n ->
         choose rt count (raw :: rest) = choose rt count rest).
Proof.
  split.
  - intros H. cbn [choose]. rewrite H. reflexivity.
  - intros n Hdigit Hint Hout. cbn [choose]. rewrite Hdigit, Hint. cbn [negb].
    replace ((1 <=? n) && (n <=? Z.of_nat count)) with false; [reflexivity |].
    symmetry. apply andb_false_iff. destruct Hout; [left | right]; lia.
Qed.

(** A digit string that [int] rejects ends the loop with the exception;
    the lines after it stay unread. *)
Lemma choose_raises (rt : runtime) (count : nat) (raw : pystr) (rest : list pystr) :
  isdigit rt (strip rt raw) = true ->
  int_of_str rt (strip rt raw) = None ->
  choose rt count (raw :: rest) = (Exn (ValueError (strip rt raw)), rest).
Proof.
  intros Hdigit Hint. cbn [choose]. rewrite Hdigit, Hint. reflexivity.
Qed.

(** C8: on the line made of the character SUPERSCRIPT TWO, which
    [str.isdigit] accepts and [int] rejects, [display_schools_cli] ends
    with a [ValueError]: it returns no index and does not prompt again,
    although the next line holds a valid choice. *)
Theorem display_schools_cli_superscript_two :
  isdigit latin1 superscript_two = true
  /\ int_of_str latin1 superscript_two = None
  /\ display_schools_cli latin1 [example_school] [] [superscript_two; u "1"]
     = (Exn (ValueError superscript_two), [(u "school_0", example_school)], [u "1"])
  /\ display_schools_cli latin1 [example_school] [] [u "1"]
     = (Ok 0, [(u "school_0", example_school)], []).
Proof. repeat split. Qed.

(** ** The statements at the example data *)

Lemma step2_failure_halts_example :
  result_of (example_submit latin1 world_step2_refused example_school)
  = Ok {| success := false; message := u "Step 2 failed: 500" |}
  /\ requests_of (example_submit latin1 world_step2_refused example_school)
     = [step2_request example_id example_body2].
Proof.
  apply (step2_failure_halts latin1 world_step2_refused example_id (u "Elizabeth")
           (u "Bradly") (u "e.bradly@clinton.example") example_school example_pdf
           example_png example_age example_birth_date example_device_fp example_body2
           (plain_response 500)).
  - vm_compute. reflexivity.
  - vm_compute. reflexivity.
  - reflexivity.
  - vm_compute. discriminate.
Defined.

Lemma too_few_documents_halts_example :
  result_of (example_submit latin1 world_one_document example_school)
  = Ok {| success := false; message := u "No upload URLs received from SheerID" |}
  /\ requests_of (example_submit latin1 world_one_document example_school)
     = [step2_request example_id example_body2; sso_request example_id;
        step4_request example_id example_pdf example_png].
Proof.
  apply (too_few_documents_halts latin1 world_one_document example_id (u "Elizabeth")
           (u "Bradly") (u "e.bradly@clinton.example") example_school example_pdf
           example_png example_age example_birth_date example_device_fp example_body2
           (plain_response 200) (plain_response 200)
           (documents_response [upload_slot "https://s3.example/a"])
           (JObj [(u "documents", JArr [upload_slot "https://s3.example/a"])])
           [upload_slot "https://s3.example/a"]).
  - vm_compute. reflexivity.
  - vm_compute. reflexivity.
  - reflexivity.
  - reflexivity.
  - reflexivity.
  - reflexivity.
  - reflexivity.
  - reflexivity.
  - vm_compute. reflexivity.
  - cbn [List.length]. lia.
Defined.

Lemma submission_succeeds_example :
  result_of (example_submit latin1 world_uploads_refused example_school)
  = Ok {| success := true; message := u "Submitted successfully" |}
  /\ requests_of (example_submit latin1 world_uploads_refused example_school)
     = [step2_request example_id example_body2; sso_request example_id;
        step4_request example_id example_pdf example_png;
        pdf_request (JStr (u "https://s3.example/a")) example_pdf;
        png_request (JStr (u "https://s3.example/b")) example_png;
        complete_request example_id].
Proof.
  apply (submission_succeeds latin1 world_uploads_refused example_id (u "Elizabeth")
           (u "Bradly") (u "e.bradly@clinton.example") example_school example_pdf
           example_png example_age example_birth_date example_device_fp example_body2
           (plain_response 200) (plain_response 404)
           (documents_response [upload_slot "https://s3.example/a";
                                upload_slot "https://s3.example/b"])
           (JObj [(u "documents", JArr [upload_slot "https://s3.example/a";
                                        upload_slot "https://s3.example/b"])])
           (upload_slot "https://s3.example/a") (upload_slot "https://s3.example/b")
           (JStr (u "https://s3.example/a")) (JStr (u "https://s3.example/b")) []
           (plain_response 403) (plain_response 403) (plain_response 500)).
  - vm_compute. reflexivity.
  - vm_compute. reflexivity.
  - reflexivity.
  - reflexivity.
  - reflexivity.
  - reflexivity.
  - reflexivity.
  - reflexivity.
  - vm_compute. reflexivity.
  - vm_compute. reflexivity.
  - vm_compute. reflexivity.
  - reflexivity.
  - reflexivity.
  - reflexivity.
Defined.

Lemma bad_identifier_sends_nothing_example :
  result_of (example_submit latin1 world_uploads_refused school_with_text_id)
  = Ok {| success := false;
          message := u "Submission error: invalid literal for int() with base 10: 'N/A'" |}
  /\ requests_of (example_submit latin1 world_uploads_refused school_with_text_id) = [].
Proof.
  change (u "Submission error: invalid literal for int() with base 10: 'N/A'")
    with (u "Submission error: " ++ exn_str latin1 (ValueError (u "N/A"))).
  apply (bad_identifier_sends_nothing latin1 world_uploads_refused example_id
           (u "Elizabeth") (u "Bradly") (u "e.bradly@clinton.example")
           school_with_text_id example_pdf example_png example_age example_birth_date
           example_device_fp (JStr (u "N/A")) (ValueError (u "N/A"))).
  - vm_compute. reflexivity.
  - vm_compute. reflexivity.
  - vm_compute. reflexivity.
Defined.

Lemma init_values_derivation_example :
  exists age device_fp,
    run world_step2_refused init_values 0 0
    = (Ok (age, strftime_ymd (ord2ymd (today world_step2_refused - age * 365)),
           device_fp), [], (0%nat, 33%nat))
    /\ 25 <= age <= 60
    /\ List.length device_fp = 32%nat
    /\ Forall (fun c => lower_hex c = true) device_fp.
Proof.
  apply (init_values_derivation world_step2_refused). vm_compute. reflexivity.
Defined.

Lemma search_schools_isolates_failures_example :
  requests_of (run world_k12_down (search_schools (u "Lincoln")) 0 0)
  = [K12_request (u "Lincoln"); HIGH_SCHOOL_request (u "Lincoln")]
  /\ result_of (run world_k12_down (search_schools (u "Lincoln")) 0 0)
     = Ok lincoln_high_school
  /\ result_of (run world_high_school_down (search_schools (u "Lincoln")) 0 0)
     = Ok lincoln_k12.
Proof.
  destruct (search_schools_isolates_failures world_k12_down (u "Lincoln"))
    as [Hrequests [Hk12 _]].
  destruct (search_schools_isolates_failures world_high_school_down (u "Lincoln"))
    as [_ [_ [Hhigh _]]].
  split; [exact Hrequests |]. split.
  - change (Ok lincoln_high_school)
      with (Ok (resolve_with_identifier [] lincoln_high_school)).
    pose proof (Hk12 lincoln_high_school I eq_refl) as Hresult.
    apply (proj2 Hresult).
    vm_compute. reflexivity.
  - change (Ok lincoln_k12) with (Ok (resolve_with_identifier lincoln_k12 [])).
    assert (Hfailed : lookup_failed
                        (net world_high_school_down 1 (HIGH_SCHOOL_request (u "Lincoln"))))
      by (left; vm_compute; discriminate).
    pose proof (Hhigh lincoln_k12 eq_refl Hfailed) as Hresult.
    apply (proj2 Hresult).
    vm_compute. reflexivity.
Defined.

Lemma search_schools_aggregation_example :
  result_of (run world_lincoln (search_schools (u "Lincoln High")) 0 0)
  = Ok (resolve_with_identifier lincoln_k12 lincoln_high_school)
  /\ List.length (resolve_with_identifier lincoln_k12 lincoln_high_school) = 4%nat.
Proof.
  split.
  - apply (proj2 (search_schools_aggregation world_lincoln (u "Lincoln High")
                    lincoln_k12 lincoln_high_school eq_refl eq_refl)).
    vm_compute. reflexivity.
  - vm_compute. reflexivity.
Defined.

Lemma search_schools_requires_identifier_example :
  ~ In (record (JInt 0) "Zero School") [record (JInt 5) "Five School"].
Proof.
  apply (search_schools_requires_identifier world_zero (u "Zero")
           [record (JInt 5) "Five School"] (record (JInt 0) "Zero School")).
  - vm_compute. reflexivity.
  - vm_compute. reflexivity.
Defined.

(** With two documents that carry no [uploadUrl], steps 2 and 4 answering
    200 and every call getting a response, the result is a failure. *)
Lemma documents_without_url_fail :
  net world_documents_without_url 0%nat (step2_request example_id example_body2)
  = Response (plain_response 200)
  /\ net world_documents_without_url 2%nat
         (step4_request example_id example_pdf example_png)
     = Response (documents_response [JObj []; JObj []])
  /\ result_of (example_submit latin1 world_documents_without_url example_school)
     = Ok {| success := false; message := u "Submission error: 'uploadUrl'" |}
  /\ result_of (example_submit latin1 world_documents_without_url example_school)
     <> Ok {| success := true; message := u "Submitted successfully" |}.
Proof.
  split; [reflexivity |]. split; [reflexivity |].
  split; [vm_compute; reflexivity | vm_compute; discriminate].
Qed.

(** A record with the identifier 0 is dropped, where deduplication by
    identifier keeps it. *)
Lemma identifier_zero_is_dropped :
  net world_zero 0%nat (K12_request (u "Zero")) = Response (list_response zero_k12)
  /\ net world_zero 1%nat (HIGH_SCHOOL_request (u "Zero")) = Response (list_response [])
  /\ result_of (run world_zero (search_schools (u "Zero")) 0 0)
     = Ok [record (JInt 5) "Five School"]
  /\ resolve_as_specified zero_k12 [] = zero_k12
  /\ result_of (run world_zero (search_schools (u "Zero")) 0 0)
     <> Ok (resolve_as_specified zero_k12 []).
Proof.
  split; [reflexivity |]. split; [reflexivity |].
  split; [vm_compute; reflexivity |].
  split; [vm_compute; reflexivity | vm_compute; discriminate].
Qed.

(** An identifier in capitals is accepted and kept in capitals, where the
    text holds no 24 lower-case digits after [verificationId=]. *)
Lemma upper_case_identifier_accepted :
  re_search upper_case_url = Some (u "0123456789ABCDEF01234567")
  /\ extract_as_specified upper_case_url = None
  /\ ask_verification_id latin1 [upper_case_url]
     = (Ok (u "0123456789ABCDEF01234567"), []).
Proof. repeat split. Qed.

(** On 2024-01-01 with the age 25 the birth date is 1999-01-07, not
    1999-01-01. *)
Lemma birth_date_counts_days :
  ord2ymd (today world_step2_refused) = (2024, 1, 1)
  /\ result_of (run world_step2_refused init_values 0 0)
     = Ok (25, u "1999-01-07", example_device_fp)
  /\ strftime_ymd (minus_years (today world_step2_refused) 25) = u "1999-01-01"
  /\ result_of (run world_step2_refused init_values 0 0)
     <> Ok (25, strftime_ymd (minus_years (today world_step2_refused) 25),
            example_device_fp).
Proof.
  split; [reflexivity |]. split; [vm_compute; reflexivity |].
  split; [vm_compute; reflexivity | vm_compute; discriminate].
Qed.


(** ** submit_sheerid: the other ways out *)

Ltac run_step_in H := cbn [run app] in H; rewrite ?app_nil_r in H.

Lemma run_submit_handler (rt : runtime) (w : world) (e : exn) (calls draws : nat) :
  run w (submit_handler rt e) calls draws = (Ok (failure_of rt e), [], (calls, draws)).
Proof. destruct e; reflexivity. Qed.

(** The requests stop after the first [n]: the list sent is read off, and
    the bounds on [n] decide what is known of the upload addresses. *)
Ltac stops_after n :=
  exists n; split; [reflexivity |];
  split; intros Hn; first [lia | reflexivity | assumption].

(** Steps 5 and 6 send an initial part of their three requests. *)
Lemma upload_and_complete_requests (w : world) (verification_id : pystr)
  (documents : json) (pdf_data png_data : list Byte.byte) (calls draws : nat) :
  exists (pdf_url png_url : json) (n : nat),
    requests_of (run w (upload_and_complete verification_id documents pdf_data png_data)
                     calls draws)
    = firstn n [pdf_request pdf_url pdf_data; png_request png_url png_data;
                complete_request verification_id]
    /\ ((1 <= n)%nat -> document_url documents 0 = Ok pdf_url)
    /\ ((2 <= n)%nat -> document_url documents 1 = Ok png_url).
Proof.
  unfold upload_and_complete, document_url, client_put, client_post.
  rewrite run_bind, run_lift.
  destruct (getitem documents (JInt 0)) as [doc0 | e]; run_step;
    [| exists JNull, JNull; stops_after 0%nat].
  rewrite run_bind, run_lift.
  destruct (getitem doc0 (JStr (u "uploadUrl"))) as [pdf_url | e]; run_step;
    [| exists JNull, JNull; stops_after 0%nat].
  rewrite run_bind, run_client_call. fold (pdf_request pdf_url pdf_data).
  destruct (net w calls (pdf_request pdf_url pdf_data)) as [pdf_upload | e]; run_step;
    [| exists pdf_url, JNull; stops_after 1%nat].
  rewrite run_bind, run_lift.
  destruct (getitem documents (JInt 1)) as [doc1 | e]; run_step;
    [| exists pdf_url, JNull; stops_after 1%nat].
  rewrite run_bind, run_lift.
  destruct (getitem doc1 (JStr (u "uploadUrl"))) as [png_url | e]; run_step;
    [| exists pdf_url, JNull; stops_after 1%nat].
  rewrite run_bind, run_client_call. fold (png_request png_url png_data).
  destruct (net w (S calls) (png_request png_url png_data)) as [png_upload | e]; run_step;
    [| exists pdf_url, png_url; stops_after 2%nat].
  rewrite run_bind, run_client_call. fold (complete_request verification_id).
  destruct (net w (S (S calls)) (complete_request verification_id))
    as [complete_resp | e]; run_step;
    exists pdf_url, png_url; stops_after 3%nat.
Qed.

(** Steps 3 to 6 send an initial part of their five requests. *)
Lemma after_step2_requests (w : world) (verification_id : pystr)
  (pdf_data png_data : list Byte.byte) (calls draws : nat) :
  exists (pdf_url png_url : json) (n : nat),
    requests_of (run w (after_step2 verification_id pdf_data png_data) calls draws)
    = firstn n [sso_request verification_id;
                step4_request verification_id pdf_data png_data;
                pdf_request pdf_url pdf_data; png_request png_url png_data;
                complete_request verification_id]
    /\ ((3 <= n)%nat ->
        upload_url (net w (S calls) (step4_request verification_id pdf_data png_data)) 0
        = Ok pdf_url)
    /\ ((4 <= n)%nat ->
        upload_url (net w (S calls) (step4_request verification_id pdf_data png_data)) 1
        = Ok png_url).
Proof.
  unfold after_step2, upload_url, client_delete, client_post.
  rewrite run_bind, run_client_call. fold (sso_request verification_id).
  destruct (net w calls (sso_request verification_id)) as [sso_resp | e]; run_step;
    [| exists JNull, JNull; stops_after 1%nat].
  rewrite run_bind, run_client_call.
  fold (step4_request verification_id pdf_data png_data).
  destruct (net w (S calls) (step4_request verification_id pdf_data png_data))
    as [step4_resp | e]; run_step;
    [| exists JNull, JNull; stops_after 2%nat].
  destruct (status_code step4_resp =? 200); cbn [negb]; run_step;
    [| exists JNull, JNull; stops_after 2%nat].
  unfold response_json. rewrite run_bind.
  destruct (body step4_resp) as [step4_data |]; run_step;
    [| exists JNull, JNull; stops_after 2%nat].
  rewrite run_bind, run_lift.
  destruct (dict_get step4_data (u "documents") (JArr [])) as [documents | e]; run_step;
    [| exists JNull, JNull; stops_after 2%nat].
  rewrite run_bind, run_lift.
  destruct (py_len documents) as [count | e]; run_step;
    [| exists JNull, JNull; stops_after 2%nat].
  destruct (count <? 2)%nat; run_step;
    [exists JNull, JNull; stops_after 2%nat |].
  destruct (upload_and_complete_requests w verification_id documents pdf_data png_data
              (S (S calls)) draws) as [pdf_url [png_url [n [Hrequests [Hpdf Hpng]]]]].
  destruct (run w (upload_and_complete verification_id documents pdf_data png_data)
                (S (S calls)) draws) as [[o t] s].
  change (t = firstn n [pdf_request pdf_url pdf_data; png_request png_url png_data;
                        complete_request verification_id]) in Hrequests.
  subst t. exists pdf_url, png_url, (S (S n)).
  split; [reflexivity |].
  split; intros Hn; [apply Hpdf | apply Hpng]; lia.
Qed.

(** X1: whatever the network answers or raises and whatever the school
    record holds, [submit_sheerid] sends an initial part of the six requests
    of the protocol, in their order: step 2 with the body built from the
    inputs and the derived values, the SSO call, step 4, the two uploads to
    [documents[0]["uploadUrl"]] and [documents[1]["uploadUrl"]] of the reply
    to step 4, the completion.  The exceptions of the calls and of the
    operations on the data end the sequence and leave a result. *)
Theorem submit_sheerid_follows_protocol (rt : runtime) (w : world)
  (verification_id first_name last_name email : pystr) (school : json)
  (pdf_data png_data : list Byte.byte) :
  let submit := run w (submit_sheerid rt verification_id first_name last_name email
                                      school pdf_data png_data) 0 0 in
  let step4 := net w 2%nat (step4_request verification_id pdf_data png_data) in
  exists (r : submission_result) (body2 pdf_url png_url : json) (n : nat),
    result_of submit = Ok r
    /\ requests_of submit
       = firstn n (protocol_requests verification_id body2 pdf_url png_url
                                     pdf_data png_data)
    /\ ((1 <= n)%nat ->
        exists age birth_date device_fp,
          result_of (run w init_values 0 0) = Ok (age, birth_date, device_fp)
          /\ step2_body rt first_name last_name email birth_date device_fp school
             = Ok body2)
    /\ ((4 <= n)%nat -> upload_url step4 0 = Ok pdf_url)
    /\ ((5 <= n)%nat -> upload_url step4 1 = Ok png_url).
Proof.
  intros submit step4. subst submit step4.
  unfold submit_sheerid, protocol_requests, client_post.
  rewrite run_try_except, run_bind, run_init_values.
  destruct (minus_days (today w) (drawn_age w 0 * 365)) as [birth | e]; run_step.
  2: { rewrite run_submit_handler. run_step.
       exists (failure_of rt e), JNull, JNull, JNull, 0%nat.
       split; [reflexivity |]. split; [reflexivity |].
       split; [| split]; intros Hn; lia. }
  rewrite run_bind, run_lift.
  destruct (step2_body rt first_name last_name email (strftime_ymd birth)
              (drawn_hex w 1 32) school) as [body2 | e] eqn:Hbody; run_step.
  2: { rewrite run_submit_handler. run_step.
       exists (failure_of rt e), JNull, JNull, JNull, 0%nat.
       split; [reflexivity |]. split; [reflexivity |].
       split; [| split]; intros Hn; lia. }
  assert (Hderived : exists age birth_date device_fp,
             (Ok (drawn_age w 0, strftime_ymd birth, drawn_hex w 1 32)
              : outcome (Z * pystr * pystr)) = Ok (age, birth_date, device_fp)
             /\ step2_body rt first_name last_name email birth_date device_fp school
                = Ok body2).
  { exists (drawn_age w 0), (strftime_ymd birth), (drawn_hex w 1 32).
    split; [reflexivity | exact Hbody]. }
  rewrite run_bind, run_client_call. fold (step2_request verification_id body2).
  destruct (net w 0%nat (step2_request verification_id body2)) as [step2_resp | e]; run_step.
  2: { rewrite run_submit_handler. run_step.
       exists (failure_of rt e), body2, JNull, JNull, 1%nat.
       split; [reflexivity |]. split; [reflexivity |].
       split; [intros _; exact Hderived |]. split; intros Hn; lia. }
  destruct (status_code step2_resp =? 200); cbn [negb]; run_step.
  2: { exists (step2_failed step2_resp), body2, JNull, JNull, 1%nat.
       split; [reflexivity |]. split; [reflexivity |].
       split; [intros _; exact Hderived |]. split; intros Hn; lia. }
  match goal with
  | |- context [run w (after_step2 ?v ?a ?b) ?c ?d] =>
      destruct (after_step2_requests w v a b c d)
        as [pdf_url [png_url [n [Hrequests [Hpdf Hpng]]]]];
      destruct (run w (after_step2 v a b) c d) as [[o t] [c' d']]
  end.
  change (t = firstn n [sso_request verification_id;
                        step4_request verification_id pdf_data png_data;
                        pdf_request pdf_url pdf_data; png_request png_url png_data;
                        complete_request verification_id]) in Hrequests.
  subst t.
  assert (Hrest : forall r : submission_result,
             exists (r' : submission_result) (body2' pdf_url' png_url' : json) (n' : nat),
               Ok r = Ok r'
               /\ step2_request verification_id body2
                  :: firstn n [sso_request verification_id;
                               step4_request verification_id pdf_data png_data;
                               pdf_request pdf_url pdf_data;
                               png_request png_url png_data;
                               complete_request verification_id]
                  = firstn n' [step2_request verification_id body2';
                               sso_request verification_id;
                               step4_request verification_id pdf_data png_data;
                               pdf_request pdf_url' pdf_data;
                               png_request png_url' png_data;
                               complete_request verification_id]
               /\ ((1 <= n')%nat ->
                   exists age birth_date device_fp,
                     (Ok (drawn_age w 0, strftime_ymd birth, drawn_hex w 1 32)
                      : outcome (Z * pystr * pystr)) = Ok (age, birth_date, device_fp)
                     /\ step2_body rt first_name last_name email birth_date device_fp
                                   school = Ok body2')
               /\ ((4 <= n')%nat ->
                   upload_url (net w 2%nat
                                   (step4_request verification_id pdf_data png_data)) 0
                   = Ok pdf_url')
               /\ ((5 <= n')%nat ->
                   upload_url (net w 2%nat
                                   (step4_request verification_id pdf_data png_data)) 1
                   = Ok png_url')).
  { intros r. exists r, body2, pdf_url, png_url, (S n).
    split; [reflexivity |]. split; [reflexivity |].
    split; [intros _; exact Hderived |].
    split; intros Hn; [apply Hpdf | apply Hpng]; lia. }
  destruct o as [r | e].
  - apply Hrest.
  - rewrite run_submit_handler. run_step. apply Hrest.
Qed.

(** Steps 3 and 4 when step 4 answers a status other than 200. *)
Lemma run_after_step2_refused (w : world) (verification_id : pystr)
  (pdf_data png_data : list Byte.byte) (sso_resp step4_resp : response)
  (calls draws : nat) :
  net w calls (sso_request verification_id) = Response sso_resp ->
  net w (S calls) (step4_request verification_id pdf_data png_data) = Response step4_resp ->
  status_code step4_resp <> 200 ->
  run w (after_step2 verification_id pdf_data png_data) calls draws
  = (Ok {| success := false;
           message := u "Step 4 failed: " ++ str_int (status_code step4_resp) |},
     [sso_request verification_id; step4_request verification_id pdf_data png_data],
     (S (S calls), draws)).
Proof.
  intros Hsso Hstep4 Hstatus. unfold after_step2, client_delete, client_post.
  rewrite run_bind, run_client_call. fold (sso_request verification_id).
  rewrite Hsso. run_step.
  rewrite run_bind, run_client_call.
  fold (step4_request verification_id pdf_data png_data).
  rewrite Hstep4. run_step.
  apply Z.eqb_neq in Hstatus. rewrite Hstatus. cbn [negb]. run_step. reflexivity.
Qed.

Section SubmissionExits.

Variable rt : runtime.
Variable w : world.
Variables verification_id first_name last_name email : pystr.
Variable school : json.
Variables pdf_data png_data : list Byte.byte.
Variable age : Z.
Variables birth_date device_fp : pystr.
Variable body2 : json.

Let submit :=
  run w (submit_sheerid rt verification_id first_name last_name email school
                        pdf_data png_data) 0 0.

(** X2: when step 2 answers 200, the SSO call gets a response and step 4
    answers a status other than 200, the result is a failure whose message
    carries that status; the requests of steps 2, 3 and 4 are the only
    ones sent. *)
Theorem step4_failure_halts (step2_resp sso_resp step4_resp : response) :
  result_of (run w init_values 0 0) = Ok (age, birth_date, device_fp) ->
  step2_body rt first_name last_name email birth_date device_fp school = Ok body2 ->
  net w 0%nat (step2_request verification_id body2) = Response step2_resp ->
  status_code step2_resp = 200 ->
  net w 1%nat (sso_request verification_id) = Response sso_resp ->
  net w 2%nat (step4_request verification_id pdf_data png_data) = Response step4_resp ->
  status_code step4_resp <> 200 ->
  result_of submit
  = Ok {| success := false;
          message := u "Step 4 failed: " ++ str_int (status_code step4_resp) |}
  /\ requests_of submit
     = [step2_request verification_id body2; sso_request verification_id;
        step4_request verification_id pdf_data png_data].
Proof.
  intros Hinit Hbody Hnet2 Hstatus2 Hsso Hnet4 Hstatus4. subst submit.
  rewrite (run_submit_from_step2 _ _ _ _ _ _ _ _ _ _ _ _ _ Hinit Hbody).
  rewrite run_try_except, run_bind. unfold client_post.
  rewrite run_client_call. fold (step2_request verification_id body2).
  rewrite Hnet2. run_step. rewrite Hstatus2. change (negb (200 =? 200)) with false.
  cbv iota.
  rewrite (run_after_step2_refused _ _ _ _ _ _ _ _ Hsso Hnet4 Hstatus4).
  run_step. split; reflexivity.
Qed.

(** X3: the status of the SSO skip is ignored, an exception of it is not:
    when the SSO call raises, the result is a failure (the timeout message
    for a timeout, the text of the exception otherwise) and step 4 is
    never sent. *)
Theorem sso_exception_is_terminal (step2_resp : response) (e : exn) :
  result_of (run w init_values 0 0) = Ok (age, birth_date, device_fp) ->
  step2_body rt first_name last_name email birth_date device_fp school = Ok body2 ->
  net w 0%nat (step2_request verification_id body2) = Response step2_resp ->
  status_code step2_resp = 200 ->
  net w 1%nat (sso_request verification_id) = Raises e ->
  result_of submit
  = Ok {| success := false;
          message := match e with
                     | TimeoutException _ => u "Request timeout - please try again"
                     | _ => u "Submission error: " ++ exn_str rt e
                     end |}
  /\ requests_of submit
     = [step2_request verification_id body2; sso_request verification_id].
Proof.
  intros Hinit Hbody Hnet2 Hstatus2 Hsso. subst submit.
  rewrite (run_submit_from_step2 _ _ _ _ _ _ _ _ _ _ _ _ _ Hinit Hbody).
  rewrite run_try_except, run_bind. unfold client_post.
  rewrite run_client_call. fold (step2_request verification_id body2).
  rewrite Hnet2. run_step. rewrite Hstatus2. change (negb (200 =? 200)) with false.
  cbv iota.
  unfold after_step2, client_delete.
  rewrite run_bind, run_client_call. fold (sso_request verification_id).
  rewrite Hsso. run_step. rewrite run_submit_handler. run_step.
  split; reflexivity.
Qed.

(** X5: a school record without the key [name] (which [search_schools]
    lets through) makes the submission fail on [school["name"]] before any
    request is sent. *)
Theorem missing_name_sends_nothing (fields : list (pystr * json)) (raw_id : json)
  (org_id : Z) :
  result_of (run w init_values 0 0) = Ok (age, birth_date, device_fp) ->
  school = JObj fields ->
  lookup (u "id") fields = Some raw_id ->
  py_int rt raw_id = Ok org_id ->
  lookup (u "name") fields = None ->
  result_of submit
  = Ok {| success := false;
          message := u "Submission error: " ++ exn_str rt (KeyError (JStr (u "name"))) |}
  /\ requests_of submit = [].
Proof.
  intros Hinit Hschool Hid Hint Hname. subst submit school. unfold submit_sheerid.
  rewrite run_try_except, run_bind, (run_init_values_ok _ _ _ _ Hinit). run_step.
  unfold step2_body, getitem. rewrite Hid, Hint, Hname, run_bind, run_lift. run_step.
  split; reflexivity.
Qed.

End SubmissionExits.

(** A list of documents whose first two entries can be read. *)
Lemma first_two_documents (documents doc0 doc1 url0 : json) :
  getitem documents (JInt 0) = Ok doc0 ->
  getitem doc0 (JStr (u "uploadUrl")) = Ok url0 ->
  getitem documents (JInt 1) = Ok doc1 ->
  exists more, documents = JArr (doc0 :: doc1 :: more).
Proof.
  intros H0 Hurl H1.
  destruct documents as [| b | n | s | items | fields].
  - discriminate.
  - discriminate.
  - discriminate.
  - exfalso. unfold getitem, index_of in H0.
    destruct ((0 <=? (if 0 <? 0 then 0 + Z.of_nat (List.length s) else 0))
              && ((if 0 <? 0 then 0 + Z.of_nat (List.length s) else 0)
                  <? Z.of_nat (List.length s))); [| discriminate].
    destruct (nth_error s _); [| discriminate].
    injection H0 as <-. discriminate.
  - destruct items as [| a [| b more]].
    + discriminate.
    + discriminate.
    + rewrite getitem_first in H0. rewrite getitem_second in H1.
      injection H0 as <-. injection H1 as <-. exists more. reflexivity.
  - discriminate.
Qed.

(** Steps 5 and 6 return a result only along the whole path. *)
Lemma upload_and_complete_inv (w : world) (verification_id : pystr) (documents : json)
  (pdf_data png_data : list Byte.byte) (calls draws : nat) (r : submission_result)
  (t : list request) (s : nat * nat) :
  run w (upload_and_complete verification_id documents pdf_data png_data) calls draws
  = (Ok r, t, s) ->
  exists doc0 doc1 more pdf_url png_url,
    documents = JArr (doc0 :: doc1 :: more)
    /\ getitem doc0 (JStr (u "uploadUrl")) = Ok pdf_url
    /\ getitem doc1 (JStr (u "uploadUrl")) = Ok png_url
    /\ r = submitted
    /\ t = [pdf_request pdf_url pdf_data; png_request png_url png_data;
            complete_request verification_id].
Proof.
  unfold upload_and_complete, client_put, client_post. intros H.
  rewrite run_bind in H.
  destruct (getitem documents (JInt 0)) as [doc0 | e] eqn:H0;
    rewrite run_lift in H; run_step_in H; [| discriminate].
  rewrite run_bind in H.
  destruct (getitem doc0 (JStr (u "uploadUrl"))) as [pdf_url | e] eqn:Hpdf;
    rewrite run_lift in H; run_step_in H; [| discriminate].
  rewrite run_bind, run_client_call in H.
  destruct (net w calls _) as [pdf_upload | e]; run_step_in H; [| discriminate].
  rewrite run_bind in H.
  destruct (getitem documents (JInt 1)) as [doc1 | e] eqn:H1;
    rewrite run_lift in H; run_step_in H; [| discriminate].
  rewrite run_bind in H.
  destruct (getitem doc1 (JStr (u "uploadUrl"))) as [png_url | e] eqn:Hpng;
    rewrite run_lift in H; run_step_in H; [| discriminate].
  rewrite run_bind, run_client_call in H.
  destruct (net w (S calls) _) as [png_upload | e]; run_step_in H; [| discriminate].
  rewrite run_bind, run_client_call in H.
  destruct (net w (S (S calls)) _) as [complete_resp | e]; run_step_in H; [| discriminate].
  destruct (first_two_documents _ _ _ _ H0 Hpdf H1) as [more Hdocs].
  exists doc0, doc1, more, pdf_url, png_url.
  injection H as <- <- _. repeat split; assumption.
Qed.

(** Steps 3 and 4 lead to a success only when step 4 answers 200 with two
    documents that carry their upload target. *)
Lemma after_step2_success_inv (w : world) (verification_id : pystr)
  (pdf_data png_data : list Byte.byte) (calls draws : nat) (r : submission_result)
  (t : list request) (s : nat * nat) :
  run w (after_step2 verification_id pdf_data png_data) calls draws = (Ok r, t, s) ->
  success r = true ->
  exists step4_resp step4_data doc0 doc1 more pdf_url png_url,
    net w (S calls) (step4_request verification_id pdf_data png_data)
    = Response step4_resp
    /\ status_code step4_resp = 200
    /\ body step4_resp = Some step4_data
    /\ dict_get step4_data (u "documents") (JArr []) = Ok (JArr (doc0 :: doc1 :: more))
    /\ getitem doc0 (JStr (u "uploadUrl")) = Ok pdf_url
    /\ getitem doc1 (JStr (u "uploadUrl")) = Ok png_url
    /\ r = submitted
    /\ t = [sso_request verification_id;
            step4_request verification_id pdf_data png_data;
            pdf_request pdf_url pdf_data; png_request png_url png_data;
            complete_request verification_id].
Proof.
  unfold after_step2, client_delete, client_post. intros H Hsuccess.
  rewrite run_bind, run_client_call in H. fold (sso_request verification_id) in H.
  destruct (net w calls (sso_request verification_id)) as [sso_resp | e];
    run_step_in H; [| discriminate].
  rewrite run_bind, run_client_call in H.
  fold (step4_request verification_id pdf_data png_data) in H.
  destruct (net w (S calls) (step4_request verification_id pdf_data png_data))
    as [step4_resp | e] eqn:Hnet4; run_step_in H; [| discriminate].
  destruct (status_code step4_resp =? 200) eqn:Hstatus; cbn [negb] in H.
  2:{ run_step_in H. injection H as <- _ _. discriminate. }
  unfold response_json in H. rewrite run_bind in H.
  destruct (body step4_resp) as [step4_data |] eqn:Hbody; run_step_in H; [| discriminate].
  rewrite run_bind in H.
  destruct (dict_get step4_data (u "documents") (JArr [])) as [documents | e] eqn:Hdocs;
    rewrite run_lift in H; run_step_in H; [| discriminate].
  rewrite run_bind in H.
  destruct (py_len documents) as [count | e]; rewrite run_lift in H; run_step_in H;
    [| discriminate].
  destruct (count <? 2)%nat.
  { run_step_in H. injection H as <- _ _. discriminate. }
  destruct (run w (upload_and_complete verification_id documents pdf_data png_data)
                (S (S calls)) draws) as [[o t2] s2] eqn:Hupload.
  destruct o as [r2 | e]; [| discriminate].
  destruct (upload_and_complete_inv _ _ _ _ _ _ _ _ _ _ Hupload)
    as [doc0 [doc1 [more [pdf_url [png_url [Hd [Hpdf [Hpng [Hr Ht]]]]]]]]].
  exists step4_resp, step4_data, doc0, doc1, more, pdf_url, png_url.
  injection H as <- <- _. subst documents t2.
  apply Z.eqb_eq in Hstatus.
  repeat split; try assumption; reflexivity.
Qed.

(** X4: a success is reported only at the end of the whole protocol: step 2
    answered 200, step 4 answered 200 with at least two documents of which
    the first two carry an [uploadUrl], the message is "Submitted
    successfully" and the six requests were sent in order. *)
Theorem success_only_after_all_steps (rt : runtime) (w : world)
  (verification_id first_name last_name email : pystr) (school : json)
  (pdf_data png_data : list Byte.byte) (r : submission_result) :
  result_of (run w (submit_sheerid rt verification_id first_name last_name email
                                   school pdf_data png_data) 0 0) = Ok r ->
  success r = true ->
  exists body2 step2_resp step4_resp step4_data doc0 doc1 more pdf_url png_url,
    net w 0%nat (step2_request verification_id body2) = Response step2_resp
    /\ status_code step2_resp = 200
    /\ net w 2%nat (step4_request verification_id pdf_data png_data)
       = Response step4_resp
    /\ status_code step4_resp = 200
    /\ body step4_resp = Some step4_data
    /\ dict_get step4_data (u "documents") (JArr []) = Ok (JArr (doc0 :: doc1 :: more))
    /\ getitem doc0 (JStr (u "uploadUrl")) = Ok pdf_url
    /\ getitem doc1 (JStr (u "uploadUrl")) = Ok png_url
    /\ message r = u "Submitted successfully"
    /\ requests_of (run w (submit_sheerid rt verification_id first_name last_name
                                          email school pdf_data png_data) 0 0)
       = [step2_request verification_id body2; sso_request verification_id;
          step4_request verification_id pdf_data png_data;
          pdf_request pdf_url pdf_data; png_request png_url png_data;
          complete_request verification_id].
Proof.
  unfold submit_sheerid. rewrite run_try_except, run_bind, run_init_values.
  intros H Hsuccess.
  destruct (minus_days (today w) (drawn_age w 0 * 365)) as [birth | e].
  2:{ run_step_in H. rewrite run_submit_handler in H. run_step_in H.
      injection H as <-. discriminate. }
  run_step_in H. run_step. rewrite run_bind in H |- *.
  destruct (step2_body rt first_name last_name email (strftime_ymd birth)
              (drawn_hex w 1 32) school) as [body2 | e];
    rewrite run_lift in H |- *; run_step_in H; run_step.
  2:{ rewrite run_submit_handler in H. run_step_in H. injection H as <-. discriminate. }
  unfold client_post in H |- *. rewrite run_bind, run_client_call in H |- *.
  fold (step2_request verification_id body2) in H |- *.
  destruct (net w 0%nat (step2_request verification_id body2)) as [step2_resp | e]
    eqn:Hnet2; run_step_in H; run_step.
  2:{ rewrite run_submit_handler in H. run_step_in H. injection H as <-. discriminate. }
  destruct (status_code step2_resp =? 200) eqn:Hstatus2; cbn [negb] in H |- *.
  2:{ run_step_in H. injection H as <-. discriminate. }
  change (33 + 0)%nat with 33%nat in *.
  destruct (run w (after_step2 verification_id pdf_data png_data) 1 33)
    as [[o t] [c d]] eqn:Hafter.
  run_step_in H. run_step. destruct o as [r2 | e].
  2:{ rewrite run_submit_handler in H. run_step_in H. injection H as <-. discriminate. }
  cbn [result_of requests_of fst snd] in H |- *.
  injection H as <-.
  destruct (after_step2_success_inv _ _ _ _ _ _ _ _ _ Hafter Hsuccess)
    as [step4_resp [step4_data [doc0 [doc1 [more [pdf_url [png_url
        [Hnet4 [Hstatus4 [Hbody4 [Hdocs [Hpdf [Hpng [Hr Ht]]]]]]]]]]]]]].
  exists body2, step2_resp, step4_resp, step4_data, doc0, doc1, more, pdf_url, png_url.
  apply Z.eqb_eq in Hstatus2. subst r2 t.
  repeat split; try assumption; reflexivity.
Qed.

(** ** search_schools: what the result holds *)

Lemma run_search_schools_at (w : world) (query : pystr) (calls draws : nat) :
  run w (search_schools query) calls draws =
  (match unique_loop (category_records (net w calls (K12_request query))
                      ++ category_records (net w (S calls) (HIGH_SCHOOL_request query)))
                     [] [] with
   | Ok unique_schools => Ok (firstn 20 unique_schools)
   | Exn e => Exn e
   end,
   [K12_request query; HIGH_SCHOOL_request query], (S (S calls), draws)).
Proof.
  unfold search_schools.
  change (search_all query [u "K12"; u "HIGH_SCHOOL"] [])
    with (a <- search_one query [] (u "K12") ;;
          b <- search_one query a (u "HIGH_SCHOOL") ;; Ret b).
  rewrite !run_bind, run_search_one. run_step.
  rewrite run_bind, run_search_one. run_step.
  rewrite run_bind, run_lift. run_step.
  unfold K12_request, HIGH_SCHOOL_request.
  destruct (unique_loop _ [] []); reflexivity.
Qed.

Lemma subsequence_refl {A : Type} (l : list A) : subsequence l l.
Proof. induction l; constructor; assumption. Qed.

Lemma subsequence_trans {A : Type} (l1 l2 l3 : list A) :
  subsequence l1 l2 -> subsequence l2 l3 -> subsequence l1 l3.
Proof.
  intros H12 H23. revert l1 H12.
  induction H23 as [| x l2 l3 H23 IH | x l2 l3 H23 IH]; intros l1 H12.
  - exact H12.
  - inversion H12; subst.
    + apply subsequence_keep. apply IH. assumption.
    + apply subsequence_drop. apply IH. assumption.
  - apply subsequence_drop. apply IH. exact H12.
Qed.

Lemma subsequence_firstn {A : Type} (n : nat) (l : list A) : subsequence (firstn n l) l.
Proof.
  revert n. induction l as [| x l IH]; intros [| n]; cbn [firstn].
  - constructor.
  - constructor.
  - apply subsequence_drop. apply (IH O).
  - apply subsequence_keep. apply IH.
Qed.

Lemma subsequence_filter {A : Type} (f : A -> bool) (l : list A) :
  subsequence (filter f l) l.
Proof.
  induction l as [| x l IH]; cbn [filter]; [constructor |].
  destruct (f x); constructor; assumption.
Qed.

Lemma subsequence_dedup (records : list json) :
  forall seen, subsequence (dedup_by_identifier seen records) records.
Proof.
  induction records as [| r rest IH]; intros seen; cbn [dedup_by_identifier].
  - constructor.
  - destruct (identifier r) as [key |].
    + destruct (existsb (hkey_eqb key) seen); constructor; apply IH.
    + constructor. apply IH.
Qed.

(** X6: the result of [search_schools] holds records of the two replies
    only, in the order of the replies (K12 first): it is the concatenation
    of the replies with some records left out. *)
Theorem search_schools_keeps_order (w : world) (query : pystr) (out : list json) :
  result_of (run w (search_schools query) 0 0) = Ok out ->
  subsequence out (category_records (net w 0%nat (K12_request query))
                   ++ category_records (net w 1%nat (HIGH_SCHOOL_request query))).
Proof.
  rewrite run_search_schools_at. unfold result_of. cbn [fst].
  intros H.
  destruct (unique_loop _ [] []) as [unique_schools | e] eqn:Hloop; [| discriminate].
  assert (Hout : out = firstn 20 unique_schools) by congruence.
  destruct (unique_loop_refines _ _ _ _ Hloop) as [Hunique _].
  cbn [app] in Hunique. subst.
  eapply subsequence_trans; [apply subsequence_firstn |].
  eapply subsequence_trans; [apply subsequence_dedup | apply subsequence_filter].
Qed.

(** An identifier that counts as true and one that does not are different
    keys. *)
Lemma truthy_key_differs (v v' : json) (k : hkey) :
  truthy v = true -> hash_key v = Some k ->
  truthy v' = false -> hash_key v' <> Some k.
Proof.
  intros Ht Hk Hf Hk'.
  destruct v as [| b | n | s | items | fields];
    destruct v' as [| b' | n' | s' | items' | fields'];
    cbn in Ht, Hf, Hk, Hk'; try discriminate;
    subst; cbn in *; try congruence;
    injection Hk' as Hk'; subst; cbn in *; try congruence;
    injection Hk as Hk; subst; cbn in *; congruence.
Qed.

(** Every record the loop adds is the first of [all_schools] with its
    identifier, and its identifier was not seen before. *)
Lemma unique_loop_first (all_schools : list json) :
  forall seen acc out,
    unique_loop all_schools seen acc = Ok out ->
    exists kept,
      out = acc ++ kept
      /\ forall r, In r kept ->
           has_identifier r = true
           /\ (exists k, identifier r = Some k /\ ~ In k seen)
           /\ exists before after,
               all_schools = before ++ r :: after
               /\ forall x, In x before -> identifier x <> identifier r.
Proof.
  induction all_schools as [| school rest IH]; intros seen acc out H.
  - cbn [unique_loop] in H. exists []. split; [rewrite app_nil_r; congruence |].
    intros r [].
  - cbn [unique_loop] in H.
    destruct (dict_get school (u "id") JNull) as [school_id | e] eqn:Hget;
      [| discriminate].
    assert (Hhas : has_identifier school = truthy school_id)
      by (unfold has_identifier; rewrite Hget; reflexivity).
    assert (Hident : identifier school = hash_key school_id)
      by (unfold identifier; rewrite Hget; reflexivity).
    destruct (truthy school_id) eqn:Htruthy.
    + destruct (hash_key school_id) as [key |] eqn:Hkey; [| discriminate].
      destruct (existsb (hkey_eqb key) seen) eqn:Hseen; cbn [negb] in H.
      * destruct (IH _ _ _ H) as [kept [Hout Hkept]].
        exists kept. split; [exact Hout |].
        intros r Hr. destruct (Hkept r Hr) as [Hr1 [[k [Hk Hfresh]] [before [after [Hsplit Hfirst]]]]].
        split; [exact Hr1 |]. split; [exists k; split; assumption |].
        exists (school :: before), after. split; [rewrite Hsplit; reflexivity |].
        intros x [<- | Hx]; [| apply Hfirst; exact Hx].
        rewrite Hident, Hk. intros Heq. injection Heq as <-.
        apply Hfresh. apply seen_spec. exact Hseen.
      * destruct (IH _ _ _ H) as [kept [Hout Hkept]].
        exists (school :: kept). split; [rewrite Hout, <- app_assoc; reflexivity |].
        intros r [<- | Hr].
        -- split; [rewrite Hhas; reflexivity |]. split.
           ++ exists key. split; [exact Hident |].
              intros Hin. apply seen_spec in Hin. congruence.
           ++ exists [], rest. split; [reflexivity | intros x []].
        -- destruct (Hkept r Hr)
             as [Hr1 [[k [Hk Hfresh]] [before [after [Hsplit Hfirst]]]]].
           split; [exact Hr1 |]. split.
           ++ exists k. split; [exact Hk |]. intros Hin. apply Hfresh. right. exact Hin.
           ++ exists (school :: before), after.
              split; [rewrite Hsplit; reflexivity |].
              intros x [<- | Hx]; [| apply Hfirst; exact Hx].
              rewrite Hident, Hk. intros Heq. injection Heq as <-.
              apply Hfresh. left. reflexivity.
    + destruct (IH _ _ _ H) as [kept [Hout Hkept]].
      exists kept. split; [exact Hout |].
      intros r Hr. destruct (Hkept r Hr)
        as [Hr1 [[k [Hk Hfresh]] [before [after [Hsplit Hfirst]]]]].
      split; [exact Hr1 |]. split; [exists k; split; assumption |].
      exists (school :: before), after. split; [rewrite Hsplit; reflexivity |].
      intros x [<- | Hx]; [| apply Hfirst; exact Hx].
      rewrite Hident, Hk.
      unfold has_identifier, identifier in Hr1, Hk.
      destruct (dict_get r (u "id") JNull) as [r_id | e]; [| discriminate].
      apply (truthy_key_differs r_id school_id k Hr1 Hk Htruthy).
Qed.

(** X7: first occurrence wins: every record of the result is, among the
    records of the two replies in order, the first one with its
    identifier. *)
Theorem search_schools_first_occurrence (w : world) (query : pystr) (out : list json)
  (r : json) :
  result_of (run w (search_schools query) 0 0) = Ok out ->
  In r out ->
  exists before after,
    category_records (net w 0%nat (K12_request query))
    ++ category_records (net w 1%nat (HIGH_SCHOOL_request query))
    = before ++ r :: after
    /\ forall x, In x before -> identifier x <> identifier r.
Proof.
  rewrite run_search_schools_at. unfold result_of. cbn [fst].
  intros H Hin.
  destruct (unique_loop _ [] []) as [unique_schools | e] eqn:Hloop; [| discriminate].
  assert (Hout : out = firstn 20 unique_schools) by congruence.
  subst out. apply In_firstn in Hin.
  destruct (unique_loop_first _ _ _ _ Hloop) as [kept [Hkept Hall]].
  cbn [app] in Hkept. subst kept.
  destruct (Hall r Hin) as [_ [_ Hfirst]]. exact Hfirst.
Qed.


(** The loop does not finish on a list with an element that is no object. *)
Lemma unique_loop_raises (all_schools : list json) (r : json) :
  In r all_schools ->
  (forall fields, r <> JObj fields) ->
  forall seen acc, exists e, unique_loop all_schools seen acc = Exn e.
Proof.
  intros Hin Hr. induction all_schools as [| school rest IH]; [destruct Hin |].
  intros seen acc. cbn [unique_loop].
  destruct (dict_get school (u "id") JNull) as [school_id | e] eqn:Hget;
    [| exists e; reflexivity].
  assert (Hrest : In r rest).
  { destruct Hin as [<- | Hin]; [| exact Hin]. exfalso.
    destruct school as [| b | n | s | items | fields]; try discriminate.
    apply (Hr fields). reflexivity. }
  destruct (truthy school_id).
  - destruct (hash_key school_id) as [key |]; [| eexists; reflexivity].
    destruct (negb (existsb (hkey_eqb key) seen)); apply (IH Hrest).
  - apply (IH Hrest).
Qed.

(** X8: the failure boundary covers the lookups, not the records: when a
    lookup answers 200 with a list that holds an element that is no object
    (a number, a string, null, a list), [search_schools] raises after both
    requests were sent. *)
Theorem search_schools_raises_on_non_object (w : world) (query : pystr) (r : json) :
  In r (category_records (net w 0%nat (K12_request query))
        ++ category_records (net w 1%nat (HIGH_SCHOOL_request query))) ->
  (forall fields, r <> JObj fields) ->
  (exists e, result_of (run w (search_schools query) 0 0) = Exn e)
  /\ requests_of (run w (search_schools query) 0 0)
     = [K12_request query; HIGH_SCHOOL_request query].
Proof.
  intros Hin Hr. rewrite run_search_schools_at. unfold result_of, requests_of.
  cbn [fst snd]. split; [| reflexivity].
  destruct (unique_loop_raises _ _ Hin Hr [] []) as [e He].
  exists e. rewrite He. reflexivity.
Qed.

Lemma dedup_covers (records : list json) :
  forall seen r k,
    In r records ->
    identifier r = Some k ->
    In k seen
    \/ exists r', In r' (dedup_by_identifier seen records) /\ identifier r' = Some k.
Proof.
  induction records as [| x rest IH]; intros seen r k Hin Hk; [destruct Hin |].
  cbn [dedup_by_identifier].
  destruct Hin as [<- | Hin].
  - rewrite Hk. destruct (existsb (hkey_eqb k) seen) eqn:Hseen.
    + left. apply seen_spec. exact Hseen.
    + right. exists x. split; [left; reflexivity | exact Hk].
  - destruct (identifier x) as [key |] eqn:Hx.
    + destruct (existsb (hkey_eqb key) seen) eqn:Hseen.
      * apply (IH seen r k Hin Hk).
      * destruct (IH (key :: seen) r k Hin Hk) as [[<- | Hseen'] | [r' [Hr' Hk']]].
        -- right. exists x. split; [left; reflexivity | exact Hx].
        -- left. exact Hseen'.
        -- right. exists r'. split; [right; exact Hr' | exact Hk'].
    + destruct (IH seen r k Hin Hk) as [Hseen | [r' [Hr' Hk']]].
      * left. exact Hseen.
      * right. exists r'. split; [right; exact Hr' | exact Hk'].
Qed.

(** X9: nothing is lost below the bound: when the result has fewer than 20
    records, every record of the replies whose identifier counts as true
    has its identifier in the result. *)
Theorem search_schools_covers_identifiers (w : world) (query : pystr) (out : list json)
  (r : json) :
  result_of (run w (search_schools query) 0 0) = Ok out ->
  (List.length out < 20)%nat ->
  In r (category_records (net w 0%nat (K12_request query))
        ++ category_records (net w 1%nat (HIGH_SCHOOL_request query))) ->
  has_identifier r = true ->
  exists r', In r' out /\ identifier r' = identifier r.
Proof.
  rewrite run_search_schools_at. unfold result_of. cbn [fst].
  intros H Hlen Hin Hhas.
  destruct (unique_loop _ [] []) as [unique_schools | e] eqn:Hloop; [| discriminate].
  assert (Hout : out = firstn 20 unique_schools) by congruence.
  destruct (unique_loop_refines _ _ _ _ Hloop) as [Hunique Hall].
  cbn [app] in Hunique.
  assert (Hwhole : out = unique_schools).
  { rewrite Hout. apply firstn_all2.
    rewrite Hout, length_firstn in Hlen. lia. }
  assert (Hfiltered : In r (filter has_identifier
             (category_records (net w 0%nat (K12_request query))
              ++ category_records (net w 1%nat (HIGH_SCHOOL_request query)))))
    by (apply filter_In; split; assumption).
  rewrite Forall_forall in Hall. specialize (Hall r Hfiltered).
  destruct (identifier r) as [k |] eqn:Hk; [| congruence].
  destruct (dedup_covers _ [] r k Hfiltered Hk) as [[] | [r' [Hr' Hk']]].
  exists r'. split; [| exact Hk'].
  rewrite Hwhole, Hunique. exact Hr'.
Qed.


(** ** The console loops *)

(** X10: with no candidate to choose from, [display_schools_cli] returns
    no index, whatever the operator types: no number is within 1 and 0. *)
Theorem display_schools_cli_empty_list (rt : runtime) (user : list (pystr * json))
  (stdin : list pystr) :
  exists e user' rest, display_schools_cli rt [] user stdin = (Exn e, user', rest).
Proof.
  unfold display_schools_cli. cbn [show_schools List.length].
  destruct (choose rt 0 stdin) as [[idx | e] rest] eqn:Hchoose.
  - apply choose_in_range in Hchoose. cbn in Hchoose. lia.
  - exists e, user, rest. reflexivity.
Qed.

Lemma choose_decides (rt : runtime) (count : nat) (stdin : list pystr) :
  forall idx rest,
    choose rt count stdin = (Ok idx, rest) ->
    exists skipped raw,
      stdin = skipped ++ raw :: rest
      /\ Forall (rejected_choice rt count) skipped
      /\ isdigit rt (strip rt raw) = true
      /\ int_of_str rt (strip rt raw) = Some (idx + 1).
Proof.
  induction stdin as [| line stdin IH]; intros idx rest H; cbn [choose] in H.
  - discriminate.
  - destruct (isdigit rt (strip rt line)) eqn:Hdigit; cbn [negb] in H.
    + destruct (int_of_str rt (strip rt line)) as [n |] eqn:Hint; [| discriminate].
      destruct ((1 <=? n) && (n <=? Z.of_nat count)) eqn:Hrange.
      * injection H as <- <-. exists [], line.
        split; [reflexivity |]. split; [constructor |]. split; [exact Hdigit |].
        rewrite Hint. f_equal. lia.
      * destruct (IH _ _ H) as [skipped [raw [Hs [Hrej [Hd Hi]]]]].
        exists (line :: skipped), raw. subst stdin. repeat split; try assumption.
        constructor; [| exact Hrej]. right. exists n. split; [exact Hint |].
        apply andb_false_iff in Hrange. destruct Hrange; [left | right]; lia.
    + destruct (IH _ _ H) as [skipped [raw [Hs [Hrej [Hd Hi]]]]].
      exists (line :: skipped), raw. subst stdin. repeat split; try assumption.
      constructor; [| exact Hrej]. left. exact Hdigit.
Qed.

(** X11: the index [display_schools_cli] returns is the number of the first
    line that is a digit string for a number from 1 to the count, minus
    one; every line before it was answered with a new prompt, and the
    lines after it stay unread. *)
Theorem display_schools_cli_decides (rt : runtime) (schools : list json)
  (user user' : list (pystr * json)) (stdin rest : list pystr) (idx : Z) :
  display_schools_cli rt schools user stdin = (Ok idx, user', rest) ->
  exists skipped raw,
    stdin = skipped ++ raw :: rest
    /\ Forall (rejected_choice rt (List.length schools)) skipped
    /\ isdigit rt (strip rt raw) = true
    /\ int_of_str rt (strip rt raw) = Some (idx + 1)
    /\ 1 <= idx + 1 <= Z.of_nat (List.length schools).
Proof.
  unfold display_schools_cli. intros H.
  destruct (show_schools 0 schools user) as [shown [e |]]; [discriminate |].
  destruct (choose rt (List.length schools) stdin) as [o left_over] eqn:Hchoose.
  injection H as -> _ ->.
  pose proof (choose_in_range _ _ _ _ _ Hchoose) as Hrange.
  destruct (choose_decides _ _ _ _ _ Hchoose) as [skipped [raw [Hs [Hrej [Hd Hi]]]]].
  exists skipped, raw. repeat split; try assumption; lia.
Qed.

Lemma ask_verification_id_decides (rt : runtime) (stdin : list pystr) :
  forall vid rest,
    ask_verification_id rt stdin = (Ok vid, rest) ->
    exists skipped raw,
      stdin = skipped ++ raw :: rest
      /\ Forall (fun line => re_search (strip rt line) = None) skipped
      /\ re_search (strip rt raw) = Some vid.
Proof.
  induction stdin as [| line stdin IH]; intros vid rest H; cbn [ask_verification_id] in H.
  - discriminate.
  - destruct (re_search (strip rt line)) as [found |] eqn:Hfound.
    + injection H as <- <-. exists [], line.
      split; [reflexivity |]. split; [constructor | exact Hfound].
    + destruct (IH _ _ H) as [skipped [raw [Hs [Hrej Hraw]]]].
      exists (line :: skipped), raw. subst stdin. repeat split; try assumption.
      constructor; assumption.
Qed.

(** X12: an identifier the first loop of [main_flow] returns has exactly 24
    characters, each a hexadecimal digit; it comes from the first line that
    holds a match, the lines before hold none and the lines after stay
    unread. *)
Theorem ask_verification_id_result (rt : runtime) (stdin rest : list pystr) (vid : pystr) :
  ask_verification_id rt stdin = (Ok vid, rest) ->
  hex_text 24 vid
  /\ exists skipped raw,
      stdin = skipped ++ raw :: rest
      /\ Forall (fun line => re_search (strip rt line) = None) skipped
      /\ re_search (strip rt raw) = Some vid.
Proof.
  intros H. destruct (ask_verification_id_decides _ _ _ _ H)
    as [skipped [raw [Hs [Hrej Hraw]]]].
  split; [| exists skipped, raw; repeat split; assumption].
  destruct (re_search_sound _ _ Hraw) as [before [Hat _]].
  apply match_here_spec in Hat. destruct Hat as [lit [after [_ [_ Hhex]]]]. exact Hhex.
Qed.

(** Every word [split] gives has a character and no blank. *)
Lemma split_words_spec (rt : runtime) (s : pystr) :
  forall word,
    Forall (fun c => unicode_isspace rt c = false) word ->
    Forall (is_word rt) (split_words rt word s).
Proof.
  induction s as [| c s IH]; intros word Hword; cbn [split_words].
  - destruct word as [| x word]; constructor; [| constructor].
    split.
    + intros Hnil. apply (f_equal (@List.length codepoint)) in Hnil.
      rewrite length_rev in Hnil. discriminate.
    + apply Forall_rev. exact Hword.
  - destruct (unicode_isspace rt c) eqn:Hc.
    + destruct word as [| x word].
      * apply IH. constructor.
      * constructor; [| apply IH; constructor]. split.
        -- intros Hnil. apply (f_equal (@List.length codepoint)) in Hnil.
           rewrite length_rev in Hnil. discriminate.
        -- apply Forall_rev. exact Hword.
    + apply IH. constructor; assumption.
Qed.

Lemma join_nonempty (sep first : pystr) (parts : list pystr) :
  first <> [] -> join sep (first :: parts) <> [].
Proof.
  intros Hfirst. cbn [join]. destruct parts; [exact Hfirst |].
  destruct first; [congruence | discriminate].
Qed.

Lemma ask_full_name_decides (rt : runtime) (stdin : list pystr) :
  forall first last full rest,
    ask_full_name rt stdin = (Ok (first, last, full), rest) ->
    exists skipped raw second more,
      stdin = skipped ++ raw :: rest
      /\ Forall (fun line => (List.length (split rt (strip rt line)) < 2)%nat) skipped
      /\ full = strip rt raw
      /\ split rt full = first :: second :: more
      /\ last = join (u " ") (second :: more).
Proof.
  induction stdin as [| line stdin IH]; intros first last full rest H;
    cbn [ask_full_name] in H.
  - discriminate.
  - destruct (split rt (strip rt line)) as [| a [| b more]] eqn:Hsplit.
    + destruct (IH _ _ _ _ H) as [skipped [raw [second [more [Hs [Hrej Hrest]]]]]].
      exists (line :: skipped), raw, second, more. subst stdin.
      split; [reflexivity |]. split; [| exact Hrest].
      constructor; [rewrite Hsplit; cbn; lia | exact Hrej].
    + destruct (IH _ _ _ _ H) as [skipped [raw [second [more [Hs [Hrej Hrest]]]]]].
      exists (line :: skipped), raw, second, more. subst stdin.
      split; [reflexivity |]. split; [| exact Hrest].
      constructor; [rewrite Hsplit; cbn; lia | exact Hrej].
    + injection H as <- <- <- <-. exists [], line, b, more.
      split; [reflexivity |]. split; [constructor |]. split; [reflexivity |].
      split; [exact Hsplit | reflexivity].
Qed.



(** ** The bindings of [user_data] *)

Lemma u_inj (a b : string) : u a = u b -> a = b.
Proof.
  unfold u. intros H.
  rewrite <- (string_of_list_ascii_of_string a), <- (string_of_list_ascii_of_string b).
  f_equal. revert H.
  generalize (list_ascii_of_string a) (list_ascii_of_string b).
  induction l as [| x l IH]; intros [| y l'] H; try discriminate; [reflexivity |].
  cbn [map] in H. injection H as Hxy Hl. f_equal; [| apply IH; exact Hl].
  rewrite <- (ascii_N_embedding x), <- (ascii_N_embedding y), Hxy. reflexivity.
Qed.

Lemma to_int_proper (z : Z) : Z.to_int z <> Decimal.Pos Decimal.Nil
                              /\ Z.to_int z <> Decimal.Neg Decimal.Nil.
Proof.
  destruct z; cbn; split; try discriminate; intros H; injection H as H;
    apply (DecimalPos.Unsigned.to_uint_nonnil _ H).
Qed.

Lemma str_int_inj (a b : Z) : str_int a = str_int b -> a = b.
Proof.
  unfold str_int. intros H. apply u_inj in H.
  apply DecimalZ.to_int_inj.
  destruct (to_int_proper a) as [Ha1 Ha2]. destruct (to_int_proper b) as [Hb1 Hb2].
  pose proof (NilZero.isi _ Ha1 Ha2) as Ia. pose proof (NilZero.isi _ Hb1 Hb2) as Ib.
  rewrite H in Ia. congruence.
Qed.

Lemma school_key_inj (i j : nat) : school_key i = school_key j -> i = j.
Proof.
  unfold school_key. intros H. apply app_inv_head in H.
  apply str_int_inj in H. lia.
Qed.

Lemma pystr_eqb_refl (a : pystr) : pystr_eqb a a = true.
Proof. apply pystr_eqb_eq. reflexivity. Qed.

Lemma pystr_eqb_neq (a b : pystr) : a <> b -> pystr_eqb a b = false.
Proof.
  intros H. destruct (pystr_eqb a b) eqn:E; [| reflexivity].
  apply pystr_eqb_eq in E. contradiction.
Qed.

(** The listing leaves every key alone that is not one of its own. *)
Lemma show_schools_keeps (schools : list json) :
  forall idx user user' raised key,
    show_schools idx schools user = (user', raised) ->
    (forall j, (idx <= j)%nat -> key <> school_key j) ->
    lookup key user' = lookup key user.
Proof.
  induction schools as [| school rest IH]; intros idx user user' raised key H Hkey;
    cbn [show_schools] in H.
  - injection H as <- _. reflexivity.
  - fold (school_key idx) in H.
    assert (Hhere : lookup key ((school_key idx, school) :: user) = lookup key user).
    { cbn [lookup]. rewrite pystr_eqb_neq; [reflexivity | apply Hkey; lia]. }
    destruct (dict_get school (u "name") (JStr (u "Unknown"))).
    + rewrite <- Hhere. apply (IH _ _ _ _ _ H). intros j Hj. apply Hkey. lia.
    + injection H as <- _. exact Hhere.
Qed.

(** After the listing, [school_<idx + i>] holds the [i]-th school. *)
Lemma show_schools_lookup (schools : list json) :
  forall idx user user' i school,
    show_schools idx schools user = (user', None) ->
    nth_error schools i = Some school ->
    lookup (school_key (idx + i)) user' = Some school.
Proof.
  induction schools as [| first rest IH]; intros idx user user' i school H Hnth.
  - destruct i; discriminate.
  - cbn [show_schools] in H. fold (school_key idx) in H.
    destruct (dict_get first (u "name") (JStr (u "Unknown"))); [| discriminate].
    destruct i as [| i].
    + injection Hnth as ->. rewrite Nat.add_0_r.
      rewrite (show_schools_keeps _ _ _ _ _ (school_key idx) H).
      * cbn [lookup]. rewrite pystr_eqb_refl. reflexivity.
      * intros j Hj Heq. apply school_key_inj in Heq. lia.
    + replace (idx + S i)%nat with (S idx + i)%nat by lia.
      apply (IH _ _ _ _ _ H). exact Hnth.
Qed.

(** X14: the record [main_flow] reads back under [school_<idx>] after
    [display_schools_cli] returned [idx] is the candidate number [idx] of
    the list shown, whatever [user_data] held before. *)
Theorem display_schools_cli_round_trip (rt : runtime) (schools : list json)
  (user user' : list (pystr * json)) (stdin rest : list pystr) (idx : Z) :
  display_schools_cli rt schools user stdin = (Ok idx, user', rest) ->
  exists school,
    nth_error schools (Z.to_nat idx) = Some school
    /\ getitem (JObj user') (JStr (u "school_" ++ str_int idx)) = Ok school.
Proof.
  unfold display_schools_cli. intros H.
  destruct (show_schools 0 schools user) as [shown [e |]] eqn:Hshow; [discriminate |].
  destruct (choose rt (List.length schools) stdin) as [o left_over] eqn:Hchoose.
  injection H as -> -> ->.
  pose proof (choose_in_range _ _ _ _ _ Hchoose) as Hrange.
  destruct (nth_error schools (Z.to_nat idx)) as [school |] eqn:Hnth.
  - exists school. split; [reflexivity |].
    pose proof (show_schools_lookup _ _ _ _ _ _ Hshow Hnth) as Hlookup.
    cbn [Nat.add] in Hlookup. unfold school_key in Hlookup.
    rewrite Z2Nat.id in Hlookup by lia.
    cbn [getitem]. rewrite Hlookup. reflexivity.
  - apply nth_error_None in Hnth. lia.
Qed.

(** ** The school loop and the session *)

Lemma not_school_key_spec (key : pystr) :
  not_school_key key = true ->
  key <> u "school_name" /\ forall j, key <> school_key j.
Proof.
  intros H. split.
  - intros ->. vm_compute in H. discriminate.
  - intros j ->. unfold school_key in H. vm_compute in H. discriminate.
Qed.

(** What [display_schools_cli] leaves under the key of the index it
    returns, and under the keys that are not its own. *)
Lemma display_schools_cli_binds (rt : runtime) (schools : list json)
  (user user' : list (pystr * json)) (stdin rest : list pystr) (idx : Z) :
  display_schools_cli rt schools user stdin = (Ok idx, user', rest) ->
  (exists school,
      In school schools
      /\ getitem (JObj user') (JStr (u "school_" ++ str_int idx)) = Ok school)
  /\ forall key, not_school_key key = true -> lookup key user' = lookup key user.
Proof.
  unfold display_schools_cli. intros H.
  destruct (show_schools 0 schools user) as [shown [e |]] eqn:Hshow; [discriminate |].
  destruct (choose rt (List.length schools) stdin) as [o left_over] eqn:Hchoose.
  injection H as -> -> ->.
  pose proof (choose_in_range _ _ _ _ _ Hchoose) as Hrange. split.
  - destruct (nth_error schools (Z.to_nat idx)) as [school |] eqn:Hnth.
    + exists school. split; [apply (nth_error_In _ _ Hnth) |].
      pose proof (show_schools_lookup _ _ _ _ _ _ Hshow Hnth) as Hlookup.
      cbn [Nat.add] in Hlookup. unfold school_key in Hlookup.
      rewrite Z2Nat.id in Hlookup by lia.
      cbn [getitem]. rewrite Hlookup. reflexivity.
    + apply nth_error_None in Hnth. lia.
  - intros key Hkey. apply (show_schools_keeps _ _ _ _ _ key Hshow).
    intros j _. apply (not_school_key_spec key Hkey).
Qed.

Lemma display_schools_cli_raises_keeps (rt : runtime) (schools : list json)
  (user user' : list (pystr * json)) (stdin rest : list pystr) (o : outcome Z) :
  display_schools_cli rt schools user stdin = (o, user', rest) ->
  forall key, not_school_key key = true -> lookup key user' = lookup key user.
Proof.
  unfold display_schools_cli. intros H key Hkey.
  destruct (show_schools 0 schools user) as [shown raised] eqn:Hshow.
  assert (Hshown : lookup key shown = lookup key user).
  { apply (show_schools_keeps _ _ _ _ _ key Hshow).
    intros j _. apply (not_school_key_spec key Hkey). }
  destruct raised as [e |].
  - injection H as _ <- _. exact Hshown.
  - destruct (choose rt (List.length schools) stdin) as [o' left_over].
    injection H as _ <- _. exact Hshown.
Qed.

(** The school the loop returns: a record of the search for the last name
    asked, after two requests for each name that is not empty. *)
Lemma ask_school_inv (rt : runtime) (w : world) (stdin : list pystr) :
  forall calls draws user school f,
    ask_school rt w calls draws user stdin = (Ok school, f) ->
    exists earlier last out,
      sent f = flat_map search_requests (earlier ++ [last])
      /\ Forall (fun q => q <> []) (earlier ++ [last])
      /\ result_of (run w (search_schools last) (calls + 2 * List.length earlier) draws)
         = Ok out
      /\ In school out
      /\ forall key, not_school_key key = true ->
                     lookup key (user_data f) = lookup key user.
Proof.
  induction stdin as [| line stdin IH]; intros calls draws user school f H;
    cbn [ask_school] in H.
  - discriminate.
  - destruct (strip rt line) as [| c0 name] eqn:Hname.
    + apply (IH _ _ _ _ _ H).
    + rewrite run_search_schools_at in H.
      assert (Hsearch : result_of (run w (search_schools (c0 :: name)) calls draws)
                        = match unique_loop
                                  (category_records (net w calls (K12_request (c0 :: name)))
                                   ++ category_records
                                        (net w (S calls) (HIGH_SCHOOL_request (c0 :: name))))
                                  [] [] with
                          | Ok unique_schools => Ok (firstn 20 unique_schools)
                          | Exn e => Exn e
                          end)
        by (rewrite run_search_schools_at; reflexivity).
      destruct (unique_loop _ [] []) as [unique_schools | e]; [| discriminate].
      assert (Hname_key : forall key,
                 not_school_key key = true ->
                 lookup key ((u "school_name", JStr (c0 :: name)) :: user)
                 = lookup key user).
      { intros key Hkey. cbn [lookup].
        rewrite pystr_eqb_neq; [reflexivity | apply (not_school_key_spec key Hkey)]. }
      destruct (firstn 20 unique_schools) as [| s0 shown] eqn:Hout.
      * destruct (ask_school rt w (S (S calls)) draws
                    ((u "school_name", JStr (c0 :: name)) :: user) stdin)
          as [o2 f2] eqn:Hrec.
        injection H as -> <-. cbn [sent user_data].
        destruct (IH _ _ _ _ _ Hrec)
          as [earlier [last [out [Hsent [Hqueries [Hlast [Hin Hkeep]]]]]]].
        exists ((c0 :: name) :: earlier), last, out.
        split; [cbn [app flat_map]; rewrite Hsent; reflexivity |].
        split; [constructor; [discriminate | exact Hqueries] |].
        split.
        { change (List.length ((c0 :: name) :: earlier))
            with (S (List.length earlier)).
          replace (calls + 2 * S (List.length earlier))%nat
            with (S (S calls) + 2 * List.length earlier)%nat by lia.
          exact Hlast. }
        split; [exact Hin |].
        intros key Hkey. rewrite (Hkeep key Hkey). apply Hname_key. exact Hkey.
      * destruct (display_schools_cli rt (s0 :: shown)
                    ((u "school_name", JStr (c0 :: name)) :: user) stdin)
          as [[choice user2] rest2] eqn:Hdisplay.
        injection H as Hschool <-. cbn [sent user_data].
        destruct choice as [idx | e]; [| discriminate].
        destruct (display_schools_cli_binds _ _ _ _ _ _ _ Hdisplay)
          as [[chosen [Hin Hread]] Hkeep].
        exists [], (c0 :: name), (s0 :: shown).
        split; [reflexivity |].
        split; [constructor; [discriminate | constructor] |].
        split; [cbn [List.length]; rewrite Nat.mul_0_r, Nat.add_0_r; exact Hsearch |].
        change (getitem (JObj user2) (JStr (u "school_" ++ str_int idx)) = Ok school)
          in Hschool.
        split; [assert (school = chosen) by congruence; subst chosen; exact Hin |].
        intros key Hkey. rewrite (Hkeep key Hkey). apply Hname_key. exact Hkey.
Qed.

(** A record of a result of [search_schools] has an identifier under the
    key [id], and it counts as true. *)
Lemma search_result_has_id (w : world) (query : pystr) (calls draws : nat)
  (out : list json) (school : json) :
  result_of (run w (search_schools query) calls draws) = Ok out ->
  In school out ->
  exists fields v,
    school = JObj fields /\ lookup (u "id") fields = Some v /\ truthy v = true.
Proof.
  rewrite run_search_schools_at. unfold result_of. cbn [fst]. intros H Hin.
  destruct (unique_loop _ [] []) as [unique_schools | e] eqn:Hloop; [| discriminate].
  assert (Hout : out = firstn 20 unique_schools) by congruence.
  destruct (unique_loop_refines _ _ _ _ Hloop) as [Hunique _].
  cbn [app] in Hunique. subst.
  apply In_firstn, dedup_keeps_filtered in Hin.
  unfold has_identifier, dict_get in Hin.
  destruct school as [| b | n | s | items | fields]; try discriminate.
  destruct (lookup (u "id") fields) as [v |] eqn:Hv; [| discriminate].
  exists fields, v. repeat split; assumption.
Qed.

(** A choice made: the lines read, the line accepted and the candidate
    stored under the index returned. *)
Lemma display_schools_cli_inv (rt : runtime) (schools : list json)
  (user user' : list (pystr * json)) (stdin rest : list pystr) (idx : Z) :
  display_schools_cli rt schools user stdin = (Ok idx, user', rest) ->
  exists skipped accepted school,
    stdin = skipped ++ accepted :: rest
    /\ Forall (rejected_choice rt (List.length schools)) skipped
    /\ isdigit rt (strip rt accepted) = true
    /\ int_of_str rt (strip rt accepted) = Some (idx + 1)
    /\ 0 <= idx
    /\ nth_error schools (Z.to_nat idx) = Some school
    /\ getitem (JObj user') (JStr (u "school_" ++ str_int idx)) = Ok school.
Proof.
  unfold display_schools_cli. intros H.
  destruct (show_schools 0 schools user) as [shown [e |]] eqn:Hshow; [discriminate |].
  destruct (choose rt (List.length schools) stdin) as [o left_over] eqn:Hchoose.
  injection H as -> -> ->.
  pose proof (choose_in_range _ _ _ _ _ Hchoose) as Hrange.
  destruct (choose_decides _ _ _ _ _ Hchoose)
    as [skipped [accepted [Hstdin [Hrejected [Hdigit Hint]]]]].
  destruct (nth_error schools (Z.to_nat idx)) as [school |] eqn:Hnth.
  - exists skipped, accepted, school.
    split; [exact Hstdin |]. split; [exact Hrejected |]. split; [exact Hdigit |].
    split; [exact Hint |]. split; [lia |]. split; [reflexivity |].
    pose proof (show_schools_lookup _ _ _ _ _ _ Hshow Hnth) as Hlookup.
    cbn [Nat.add] in Hlookup. unfold school_key in Hlookup.
    rewrite Z2Nat.id in Hlookup by lia.
    cbn [getitem]. rewrite Hlookup. reflexivity.
  - apply nth_error_None in Hnth. lia.
Qed.

(** The lines the school loop reads: names until a search finds
    candidates, then choices until one is accepted. *)
Lemma ask_school_decides (rt : runtime) (w : world) (stdin : list pystr) :
  forall calls draws user school f,
    ask_school rt w calls draws user stdin = (Ok school, f) ->
    exists asked raw skipped accepted out idx,
      stdin = asked ++ raw :: skipped ++ accepted :: unread f
      /\ strip rt raw <> []
      /\ sent f = flat_map search_requests (names_asked rt asked ++ [strip rt raw])
      /\ (forall i query,
            nth_error (names_asked rt asked) i = Some query ->
            result_of (run w (search_schools query) (calls + 2 * i) draws) = Ok [])
      /\ result_of (run w (search_schools (strip rt raw))
                        (calls + 2 * List.length (names_asked rt asked)) draws)
         = Ok out
      /\ Forall (rejected_choice rt (List.length out)) skipped
      /\ isdigit rt (strip rt accepted) = true
      /\ int_of_str rt (strip rt accepted) = Some (idx + 1)
      /\ 0 <= idx
      /\ nth_error out (Z.to_nat idx) = Some school.
Proof.
  induction stdin as [| line stdin IH]; intros calls draws user school f H;
    cbn [ask_school] in H.
  - discriminate.
  - destruct (strip rt line) as [| c0 name] eqn:Hname.
    + destruct (IH _ _ _ _ _ H)
        as [asked [raw [skipped [accepted [out [idx
           [Hstdin [Hraw [Hsent [Hempty [Hlast [Hrejected [Hdigit [Hint [Hidx Hnth]]]]]]]]]]]]]]].
      assert (Hnames : names_asked rt (line :: asked) = names_asked rt asked)
        by (unfold names_asked; cbn [map filter]; rewrite Hname; reflexivity).
      exists (line :: asked), raw, skipped, accepted, out, idx.
      rewrite Hnames.
      split; [cbn [app]; f_equal; exact Hstdin |].
      repeat (split; [assumption |]). assumption.
    + rewrite run_search_schools_at in H.
      assert (Hsearch : result_of (run w (search_schools (c0 :: name)) calls draws)
                        = match unique_loop
                                  (category_records (net w calls (K12_request (c0 :: name)))
                                   ++ category_records
                                        (net w (S calls) (HIGH_SCHOOL_request (c0 :: name))))
                                  [] [] with
                          | Ok unique_schools => Ok (firstn 20 unique_schools)
                          | Exn e => Exn e
                          end)
        by (rewrite run_search_schools_at; reflexivity).
      destruct (unique_loop _ [] []) as [unique_schools | e]; [| discriminate].
      destruct (firstn 20 unique_schools) as [| s0 shown] eqn:Hout.
      * destruct (ask_school rt w (S (S calls)) draws
                    ((u "school_name", JStr (c0 :: name)) :: user) stdin)
          as [o2 f2] eqn:Hrec.
        injection H as -> <-. cbn [sent unread].
        destruct (IH _ _ _ _ _ Hrec)
          as [asked [raw [skipped [accepted [out [idx
             [Hstdin [Hraw [Hsent [Hempty [Hlast [Hrejected [Hdigit [Hint [Hidx Hnth]]]]]]]]]]]]]]].
        assert (Hnames : names_asked rt (line :: asked)
                         = (c0 :: name) :: names_asked rt asked)
          by (unfold names_asked; cbn [map filter]; rewrite Hname; reflexivity).
        exists (line :: asked), raw, skipped, accepted, out, idx.
        rewrite Hnames.
        split; [cbn [app]; f_equal; exact Hstdin |].
        split; [exact Hraw |].
        split; [cbn [app flat_map]; rewrite Hsent; reflexivity |].
        split.
        { intros i query Hquery. destruct i as [| i].
          - injection Hquery as <-. rewrite Nat.mul_0_r, Nat.add_0_r. exact Hsearch.
          - cbn [nth_error] in Hquery.
            replace (calls + 2 * S i)%nat with (S (S calls) + 2 * i)%nat by lia.
            apply (Hempty _ _ Hquery). }
        split.
        { change (List.length ((c0 :: name) :: names_asked rt asked))
            with (S (List.length (names_asked rt asked))).
          replace (calls + 2 * S (List.length (names_asked rt asked)))%nat
            with (S (S calls) + 2 * List.length (names_asked rt asked))%nat by lia.
          exact Hlast. }
        repeat (split; [assumption |]). assumption.
      * destruct (display_schools_cli rt (s0 :: shown)
                    ((u "school_name", JStr (c0 :: name)) :: user) stdin)
          as [[choice user2] rest2] eqn:Hdisplay.
        injection H as Hschool <-. cbn [sent unread].
        destruct choice as [idx | e]; [| discriminate].
        destruct (display_schools_cli_inv _ _ _ _ _ _ _ Hdisplay)
          as [skipped [accepted [chosen
             [Hstdin [Hrejected [Hdigit [Hint [Hidx [Hnth Hread]]]]]]]]].
        change (getitem (JObj user2) (JStr (u "school_" ++ str_int idx)) = Ok school)
          in Hschool.
        assert (Hchosen : school = chosen) by congruence. subst chosen.
        exists [], line, skipped, accepted, (s0 :: shown), idx.
        rewrite Hname.
        split; [cbn [app]; f_equal; exact Hstdin |].
        split; [discriminate |].
        split; [reflexivity |].
        split; [intros [| i] query Hquery; discriminate |].
        split; [cbn [names_asked map filter List.length];
                rewrite Nat.mul_0_r, Nat.add_0_r; exact Hsearch |].
        repeat (split; [assumption |]). assumption.
Qed.

(** X15: the school loop of [main_flow] reads names until a search finds
    candidates, then choices until one is accepted.  It sends two requests
    (K12, then HIGH_SCHOOL) for every line read as a name that is not empty
    once stripped, in the order of the lines, and none for an empty line;
    every search before the last one found nothing.  The school it returns
    is the candidate of the last search that the accepted line numbers, an
    object with an identifier that counts as true; the lines after the
    accepted one stay unread. *)
Theorem ask_school_selects (rt : runtime) (w : world) (calls draws : nat)
  (user : list (pystr * json)) (stdin : list pystr) (school : json) (f : flow) :
  ask_school rt w calls draws user stdin = (Ok school, f) ->
  exists asked raw skipped accepted out idx fields v,
    stdin = asked ++ raw :: skipped ++ accepted :: unread f
    /\ strip rt raw <> []
    /\ sent f = flat_map search_requests (names_asked rt asked ++ [strip rt raw])
    /\ (forall i query,
          nth_error (names_asked rt asked) i = Some query ->
          result_of (run w (search_schools query) (calls + 2 * i) draws) = Ok [])
    /\ result_of (run w (search_schools (strip rt raw))
                      (calls + 2 * List.length (names_asked rt asked)) draws)
       = Ok out
    /\ Forall (rejected_choice rt (List.length out)) skipped
    /\ isdigit rt (strip rt accepted) = true
    /\ int_of_str rt (strip rt accepted) = Some (idx + 1)
    /\ 0 <= idx
    /\ nth_error out (Z.to_nat idx) = Some school
    /\ school = JObj fields
    /\ lookup (u "id") fields = Some v
    /\ truthy v = true.
Proof.
  intros H.
  destruct (ask_school_decides _ _ _ _ _ _ _ _ H)
    as [asked [raw [skipped [accepted [out [idx
       [Hstdin [Hraw [Hsent [Hempty [Hlast [Hrejected [Hdigit [Hint [Hidx Hnth]]]]]]]]]]]]]]].
  destruct (search_result_has_id _ _ _ _ _ _ Hlast (nth_error_In _ _ Hnth))
    as [fields [v [Hs [Hv Ht]]]].
  exists asked, raw, skipped, accepted, out, idx, fields, v.
  repeat (split; [assumption |]). assumption.
Qed.

Lemma ask_email_result (rt : runtime) (stdin : list pystr) :
  forall email rest,
    ask_email rt stdin = (Ok email, rest) ->
    contains 64%N email = true /\ contains 46%N email = true.
Proof.
  induction stdin as [| line stdin IH]; intros email rest H; cbn [ask_email] in H.
  - discriminate.
  - destruct (contains 64%N (strip rt line)) eqn:Hat;
      destruct (contains 46%N (strip rt line)) eqn:Hdot; cbn [negb orb] in H;
      try (apply (IH _ _ H)).
    injection H as <- <-. split; assumption.
Qed.

(** X16: a session [main_flow] hands over is complete and validated, and
    the values read back from [user_data] are the ones the four loops
    produced, although the school loop wrote its own keys in between: the
    identifier has 24 hexadecimal digits, the first name is a word, the
    last name is not empty, the email holds an at sign and a dot, the
    school is a record of the last search with an identifier that counts
    as true, and only search requests were sent. *)
Theorem collect_session_validated (rt : runtime) (w : world) (stdin : list pystr)
  (s : session) (f : flow) :
  collect_session rt w stdin = (Ok s, f) ->
  exists rest1 rest2 rest3 earlier last out fields v,
    ask_verification_id rt stdin = (Ok (session_verification_id s), rest1)
    /\ ask_full_name rt rest1
       = (Ok (session_first_name s, session_last_name s, session_full_name s), rest2)
    /\ ask_email rt rest2 = (Ok (session_email s), rest3)
    /\ hex_text 24 (session_verification_id s)
    /\ is_word rt (session_first_name s)
    /\ session_last_name s <> []
    /\ contains 64%N (session_email s) = true
    /\ contains 46%N (session_email s) = true
    /\ sent f = flat_map search_requests (earlier ++ [last])
    /\ result_of (run w (search_schools last) (2 * List.length earlier) 0) = Ok out
    /\ In (session_school s) out
    /\ session_school s = JObj fields
    /\ lookup (u "id") fields = Some v
    /\ truthy v = true
    /\ dict_get (session_school s) (u "name") JNull = Ok (session_school_name s).
Proof.
  unfold collect_session. intros H.
  destruct (ask_verification_id rt stdin) as [[vid | e] rest1] eqn:Hvid; [| discriminate].
  destruct (ask_full_name rt rest1) as [[[[first last] full] | e] rest2] eqn:Hname;
    [| discriminate].
  destruct (ask_email rt rest2) as [[email | e] rest3] eqn:Hemail; [| discriminate].
  destruct (ask_school rt w 0 0 _ rest3) as [selected f'] eqn:Hschool.
  injection H as H <-.
  destruct selected as [school | e]; [| discriminate].
  destruct (ask_school_inv _ _ _ _ _ _ _ _ Hschool)
    as [earlier [query [out [Hsent [Hqueries [Hlast [Hin Hkeep]]]]]]].
  destruct (search_result_has_id _ _ _ _ _ _ Hlast Hin) as [fields [v [Hs [Hv Ht]]]].
  destruct (dict_get school (u "name") JNull) as [s_name | e] eqn:Hs_name; [| discriminate].
  destruct (dict_get school (u "type") (JStr (u "K12"))); [| discriminate].
  destruct (dict_get school (u "id") JNull); [| discriminate].
  unfold user_text in H.
  rewrite !Hkeep in H by reflexivity.
  change (lookup (u "verification_id") _) with (Some (JStr vid)) in H.
  change (lookup (u "first_name") _) with (Some (JStr first)) in H.
  change (lookup (u "last_name") _) with (Some (JStr last)) in H.
  change (lookup (u "full_name") _) with (Some (JStr full)) in H.
  change (lookup (u "email") _) with (Some (JStr email)) in H.
  cbv iota in H. injection H as <-. cbn [session_verification_id session_first_name
    session_last_name session_full_name session_email session_school
    session_school_name].
  destruct (ask_email_result _ _ _ _ Hemail) as [Hat Hdot].
  destruct (ask_verification_id_decides _ _ _ _ Hvid) as [sk1 [raw1 [_ [_ Hfound]]]].
  destruct (re_search_sound _ _ Hfound) as [before [Hmatch _]].
  apply match_here_spec in Hmatch. destruct Hmatch as [lit [after [_ [_ Hhex]]]].
  destruct (ask_full_name_decides _ _ _ _ _ _ Hname)
    as [sk2 [raw2 [second [more [_ [_ [_ [Hsplit Hlast_name]]]]]]]].
  assert (Hwords : Forall (is_word rt) (first :: second :: more)).
  { rewrite <- Hsplit. apply split_words_spec. constructor. }
  inversion Hwords as [| x l Hfirst Hothers]; subst x l.
  inversion Hothers as [| x l Hsecond _]; subst x l.
  exists rest1, rest2, rest3, earlier, query, out, fields, v.
  repeat (split; [first [reflexivity | assumption
                        | rewrite Hlast_name; apply join_nonempty; apply Hsecond] |]).
  exact Hs_name.
Qed.


(** ** The further statements at the example data *)

Lemma step4_failure_halts_example :
  result_of (example_submit latin1 world_step4_refused example_school)
  = Ok {| success := false; message := u "Step 4 failed: 503" |}
  /\ requests_of (example_submit latin1 world_step4_refused example_school)
     = [step2_request example_id example_body2; sso_request example_id;
        step4_request example_id example_pdf example_png].
Proof.
  apply (step4_failure_halts latin1 world_step4_refused example_id (u "Elizabeth")
           (u "Bradly") (u "e.bradly@clinton.example") example_school example_pdf
           example_png example_age example_birth_date example_device_fp example_body2
           (plain_response 200) (plain_response 200) (plain_response 503)).
  - vm_compute. reflexivity.
  - vm_compute. reflexivity.
  - reflexivity.
  - reflexivity.
  - reflexivity.
  - reflexivity.
  - vm_compute. discriminate.
Defined.

Lemma sso_exception_is_terminal_example :
  result_of (example_submit latin1 world_sso_timeout example_school)
  = Ok {| success := false; message := u "Request timeout - please try again" |}
  /\ requests_of (example_submit latin1 world_sso_timeout example_school)
     = [step2_request example_id example_body2; sso_request example_id].
Proof.
  apply (sso_exception_is_terminal latin1 world_sso_timeout example_id (u "Elizabeth")
           (u "Bradly") (u "e.bradly@clinton.example") example_school example_pdf
           example_png example_age example_birth_date example_device_fp example_body2
           (plain_response 200) (TimeoutException (u "timed out"))).
  - vm_compute. reflexivity.
  - vm_compute. reflexivity.
  - reflexivity.
  - reflexivity.
  - reflexivity.
Defined.

Lemma success_only_after_all_steps_example :
  exists body2 step2_resp step4_resp step4_data doc0 doc1 more pdf_url png_url,
    net world_uploads_refused 0%nat (step2_request example_id body2) = Response step2_resp
    /\ status_code step2_resp = 200
    /\ net world_uploads_refused 2%nat (step4_request example_id example_pdf example_png)
       = Response step4_resp
    /\ status_code step4_resp = 200
    /\ body step4_resp = Some step4_data
    /\ dict_get step4_data (u "documents") (JArr []) = Ok (JArr (doc0 :: doc1 :: more))
    /\ getitem doc0 (JStr (u "uploadUrl")) = Ok pdf_url
    /\ getitem doc1 (JStr (u "uploadUrl")) = Ok png_url
    /\ message submitted = u "Submitted successfully"
    /\ requests_of (example_submit latin1 world_uploads_refused example_school)
       = [step2_request example_id body2; sso_request example_id;
          step4_request example_id example_pdf example_png;
          pdf_request pdf_url example_pdf; png_request png_url example_png;
          complete_request example_id].
Proof.
  apply (success_only_after_all_steps latin1 world_uploads_refused example_id
           (u "Elizabeth") (u "Bradly") (u "e.bradly@clinton.example") example_school
           example_pdf example_png submitted).
  - vm_compute. reflexivity.
  - reflexivity.
Defined.

Lemma missing_name_sends_nothing_example :
  result_of (example_submit latin1 world_uploads_refused school_without_name)
  = Ok {| success := false; message := u "Submission error: 'name'" |}
  /\ requests_of (example_submit latin1 world_uploads_refused school_without_name) = [].
Proof.
  apply (missing_name_sends_nothing latin1 world_uploads_refused example_id
           (u "Elizabeth") (u "Bradly") (u "e.bradly@clinton.example")
           school_without_name example_pdf example_png example_age example_birth_date
           example_device_fp [(u "id", JInt 4821)] (JInt 4821) 4821).
  - vm_compute. reflexivity.
  - reflexivity.
  - vm_compute. reflexivity.
  - reflexivity.
  - vm_compute. reflexivity.
Defined.

Lemma search_schools_keeps_order_example :
  subsequence (resolve_with_identifier lincoln_k12 lincoln_high_school)
              (category_records (net world_lincoln 0%nat (K12_request (u "Lincoln High")))
               ++ category_records
                    (net world_lincoln 1%nat (HIGH_SCHOOL_request (u "Lincoln High")))).
Proof.
  apply (search_schools_keeps_order world_lincoln (u "Lincoln High")).
  vm_compute. reflexivity.
Defined.

Lemma search_schools_first_occurrence_example :
  exists before after,
    category_records (net world_lincoln 0%nat (K12_request (u "Lincoln High")))
    ++ category_records (net world_lincoln 1%nat (HIGH_SCHOOL_request (u "Lincoln High")))
    = before ++ record (JInt 11) "Lincoln High School" :: after
    /\ forall x, In x before ->
                 identifier x <> identifier (record (JInt 11) "Lincoln High School").
Proof.
  apply (search_schools_first_occurrence world_lincoln (u "Lincoln High")
           (resolve_with_identifier lincoln_k12 lincoln_high_school)).
  - vm_compute. reflexivity.
  - left. reflexivity.
Defined.

Lemma search_schools_raises_on_non_object_example :
  (exists e, result_of (run world_number_in_list (search_schools (u "Lincoln High")) 0 0)
             = Exn e)
  /\ requests_of (run world_number_in_list (search_schools (u "Lincoln High")) 0 0)
     = [K12_request (u "Lincoln High"); HIGH_SCHOOL_request (u "Lincoln High")].
Proof.
  apply (search_schools_raises_on_non_object world_number_in_list (u "Lincoln High")
           (JInt 7)).
  - right. left. reflexivity.
  - intros fields. discriminate.
Defined.

Lemma search_schools_covers_identifiers_example :
  exists r',
    In r' (resolve_with_identifier lincoln_k12 lincoln_high_school)
    /\ identifier r' = identifier (record (JInt 11) "Lincoln High School (HS)").
Proof.
  apply (search_schools_covers_identifiers world_lincoln (u "Lincoln High")).
  - vm_compute. reflexivity.
  - vm_compute. lia.
  - right. right. right. left. reflexivity.
  - vm_compute. reflexivity.
Defined.

Lemma display_schools_cli_decides_example :
  exists skipped raw,
    example_choice_lines = skipped ++ raw :: [u "1"]
    /\ Forall (rejected_choice latin1 (List.length lincoln_k12)) skipped
    /\ isdigit latin1 (strip latin1 raw) = true
    /\ int_of_str latin1 (strip latin1 raw) = Some (1 + 1)
    /\ 1 <= 1 + 1 <= Z.of_nat (List.length lincoln_k12).
Proof.
  apply (display_schools_cli_decides latin1 lincoln_k12 []
           (snd (fst (display_schools_cli latin1 lincoln_k12 [] example_choice_lines)))
           example_choice_lines [u "1"] 1).
  vm_compute. reflexivity.
Defined.

Lemma ask_verification_id_result_example :
  hex_text 24 example_id
  /\ exists skipped raw,
      firstn 2 example_lines = skipped ++ raw :: []
      /\ Forall (fun line => re_search (strip latin1 line) = None) skipped
      /\ re_search (strip latin1 raw) = Some example_id.
Proof.
  apply (ask_verification_id_result latin1 (firstn 2 example_lines) [] example_id).
  vm_compute. reflexivity.
Defined.


Lemma display_schools_cli_round_trip_example :
  exists school,
    nth_error lincoln_k12 (Z.to_nat 1) = Some school
    /\ getitem (JObj (snd (fst (display_schools_cli latin1 lincoln_k12
                                   [(u "school_1", JNull)] example_choice_lines))))
               (JStr (u "school_" ++ str_int 1)) = Ok school.
Proof.
  apply (display_schools_cli_round_trip latin1 lincoln_k12 [(u "school_1", JNull)]
           (snd (fst (display_schools_cli latin1 lincoln_k12 [(u "school_1", JNull)]
                        example_choice_lines)))
           example_choice_lines [u "1"] 1).
  vm_compute. reflexivity.
Defined.

Lemma ask_school_selects_example :
  exists asked raw skipped accepted out idx fields v,
    example_school_lines
    = asked ++ raw :: skipped ++ accepted :: unread example_school_flow
    /\ strip latin1 raw <> []
    /\ sent example_school_flow
       = flat_map search_requests (names_asked latin1 asked ++ [strip latin1 raw])
    /\ (forall i query,
          nth_error (names_asked latin1 asked) i = Some query ->
          result_of (run world_two_searches (search_schools query) (0 + 2 * i) 0) = Ok [])
    /\ result_of (run world_two_searches (search_schools (strip latin1 raw))
                      (0 + 2 * List.length (names_asked latin1 asked)) 0)
       = Ok out
    /\ Forall (rejected_choice latin1 (List.length out)) skipped
    /\ isdigit latin1 (strip latin1 accepted) = true
    /\ int_of_str latin1 (strip latin1 accepted) = Some (idx + 1)
    /\ 0 <= idx
    /\ nth_error out (Z.to_nat idx) = Some (record (JInt 12) "Lincoln Elementary")
    /\ record (JInt 12) "Lincoln Elementary" = JObj fields
    /\ lookup (u "id") fields = Some v
    /\ truthy v = true.
Proof.
  apply (ask_school_selects latin1 world_two_searches 0 0 [] example_school_lines).
  vm_compute. reflexivity.
Defined.

Lemma collect_session_validated_example :
  exists rest1 rest2 rest3 earlier last out fields v,
    ask_verification_id latin1 example_lines
    = (Ok (session_verification_id example_session), rest1)
    /\ ask_full_name latin1 rest1
       = (Ok (session_first_name example_session, session_last_name example_session,
              session_full_name example_session), rest2)
    /\ ask_email latin1 rest2 = (Ok (session_email example_session), rest3)
    /\ hex_text 24 (session_verification_id example_session)
    /\ is_word latin1 (session_first_name example_session)
    /\ session_last_name example_session <> []
    /\ contains 64%N (session_email example_session) = true
    /\ contains 46%N (session_email example_session) = true
    /\ sent example_flow = flat_map search_requests (earlier ++ [last])
    /\ result_of (run world_two_searches (search_schools last)
                      (2 * List.length earlier) 0) = Ok out
    /\ In (session_school example_session) out
    /\ session_school example_session = JObj fields
    /\ lookup (u "id") fields = Some v
    /\ truthy v = true
    /\ dict_get (session_school example_session) (u "name") JNull
       = Ok (session_school_name example_session).
Proof.
  apply (collect_session_validated latin1 world_two_searches example_lines).
  vm_compute. reflexivity.
Defined.
